(** * Historical transaction generator (lakebase_setup/data_generator/data_generator.py)

    A shallow embedding of [TransactionGenerator].

    Modelling conventions.
    - The generator is a state/error monad [M]: the state carries the
      fields of the Python object that the claims depend on
      ([inventory_levels], [reorder_history], [inventory_history],
      [start_date], [end_date]) and the two random sources of the module
      ([random], seeded with 42, and [np.random], also seeded with 42).
      An uncaught Python exception ([KeyError], [ValueError],
      [IndexError]) aborts the run and is the [inl] branch of the monad.
    - Each random source is an infinite stream of integers [nat -> Z]
      with a read position.  Every Python random primitive consumes one
      element of the stream and maps it into its range: [random()]
      returns [k / 2^53] with [k] in [0, 2^53) (its real definition),
      [_randbelow n] returns an integer in [0, n) and [np.random.poisson]
      returns a non-negative integer.  A run is therefore a function of
      the two streams.
    - Python floats are modelled by exact rationals [Q]; [int(x)] is
      truncation towards zero.
    - Python dicts are insertion-ordered association lists: a new key is
      appended, an existing key is updated in place, [del] removes it.
    - A [datetime] of the run is a day number (days since 1970-01-01):
      [end_date] is [datetime.now()], every simulated date is
      [start_date + k days] and so carries the same time of day, and a
      difference [(d1 - d2).days] of two such dates is the difference of
      their day numbers. *)

From Stdlib Require Import ZArith QArith Qround List String Ascii Bool Lia Lqa Sorted Permutation.
Import ListNotations.
Open Scope Z_scope.

(** ** Python runtime *)

Inductive py_error := KeyError | ValueError | IndexError.

(** Insertion-ordered dictionaries. *)
Section Dict.
Context {K V : Type} (keqb : K -> K -> bool).

Fixpoint dict_get (k : K) (d : list (K * V)) : option V :=
  match d with
  | [] => None
  | (k', v) :: d' => if keqb k k' then Some v else dict_get k d'
  end.

Fixpoint dict_set (k : K) (v : V) (d : list (K * V)) : list (K * V) :=
  match d with
  | [] => [(k, v)]
  | (k', v') :: d' =>
      if keqb k k' then (k', v) :: d' else (k', v') :: dict_set k v d'
  end.

Fixpoint dict_del (k : K) (d : list (K * V)) : list (K * V) :=
  match d with
  | [] => []
  | (k', v') :: d' => if keqb k k' then d' else (k', v') :: dict_del k d'
  end.
End Dict.

(** The (product_id, warehouse_id) keys of the generator's dicts. *)
Definition pair_eqb (a b : Z * Z) : bool :=
  (fst a =? fst b) && (snd a =? snd b).

Definition get_key (k : Z * Z) (d : list ((Z * Z) * Z)) : option Z :=
  dict_get pair_eqb k d.
Definition set_key (k : Z * Z) (v : Z) (d : list ((Z * Z) * Z)) :=
  dict_set pair_eqb k v d.
Definition del_key (k : Z * Z) (d : list ((Z * Z) * Z)) :=
  dict_del pair_eqb k d.

(** Python list indexing [l[i]], negative indices counted from the end. *)
Definition py_index {A} (l : list A) (i : Z) : option A :=
  let n := Z.of_nat (List.length l) in
  if (0 <=? i) && (i <? n) then nth_error l (Z.to_nat i)
  else if (- n <=? i) && (i <? 0) then nth_error l (Z.to_nat (n + i))
  else None.

(** Floats as rationals. *)
Definition qltb (x y : Q) : bool :=
  Qnum x * Zpos (Qden y) <? Qnum y * Zpos (Qden x).
Definition zq (z : Z) : Q := inject_Z z.
(** [int(x)]: truncation towards zero. *)
Definition py_int (x : Q) : Z := Z.quot (Qnum x) (Zpos (Qden x)).
Definition qmax (x y : Q) : Q := if qltb x y then y else x.

(** ** Calendar *)

(** Civil date of a day number (proleptic Gregorian calendar). *)
Definition civil_from_days (d : Z) : Z * Z * Z :=
  let z := d + 719468 in
  let era := z / 146097 in
  let doe := z - era * 146097 in
  let yoe := (doe - doe / 1460 + doe / 36524 - doe / 146096) / 365 in
  let y := yoe + era * 400 in
  let doy := doe - (365 * yoe + yoe / 4 - yoe / 100) in
  let mp := (5 * doy + 2) / 153 in
  let dd := doy - (153 * mp + 2) / 5 + 1 in
  let m := if mp <? 10 then mp + 3 else mp - 9 in
  ((if m <=? 2 then y + 1 else y), m, dd).

Definition days_from_civil (y m d : Z) : Z :=
  let y := if m <=? 2 then y - 1 else y in
  let era := y / 400 in
  let yoe := y - era * 400 in
  let doy := (153 * (if 2 <? m then m - 3 else m + 9) + 2) / 5 + d - 1 in
  let doe := yoe * 365 + yoe / 4 - yoe / 100 + doy in
  era * 146097 + doe - 719468.

Definition date_year (d : Z) : Z := fst (fst (civil_from_days d)).
Definition date_month (d : Z) : Z := snd (fst (civil_from_days d)).
Definition date_day (d : Z) : Z := snd (civil_from_days d).
(** [date.weekday()]: Monday is 0; 1970-01-01 was a Thursday. *)
Definition weekday (d : Z) : Z := (d + 3) mod 7.

(** ** Text *)

Definition digit_char (n : Z) : ascii := ascii_of_nat (48 + Z.to_nat n).

Fixpoint digits_aux (fuel : nat) (n : Z) (acc : string) : string :=
  match fuel with
  | O => acc
  | S f =>
      let acc' := String (digit_char (n mod 10)) acc in
      if n <? 10 then acc' else digits_aux f (n / 10) acc'
  end.

(** [str(n)] for an integer. *)
Definition string_of_Z (n : Z) : string :=
  if n <? 0 then String "-" (digits_aux 64 (- n) EmptyString)
  else digits_aux 64 n EmptyString.

(** Two-digit zero-padded field, as [%y], [%m], [%d]. *)
Definition two_digits (n : Z) : string :=
  String (digit_char ((n / 10) mod 10)) (String (digit_char (n mod 10)) EmptyString).

Fixpoint contains (needle hay : string) : bool :=
  match hay with
  | EmptyString => String.prefix needle hay
  | String _ rest => String.prefix needle hay || contains needle rest
  end.

(** ** Catalog: [generate_products_data], [build_product_categories] *)

Inductive Category :=
  Motors | Batteries | Frames | Wheels | Brakes | Electronics | Drivetrain | Accessories.

Definition category_eqb (a b : Category) : bool :=
  match a, b with
  | Motors, Motors | Batteries, Batteries | Frames, Frames | Wheels, Wheels
  | Brakes, Brakes | Electronics, Electronics | Drivetrain, Drivetrain
  | Accessories, Accessories => true
  | _, _ => false
  end.

Definition category_name (c : Category) : string :=
  match c with
  | Motors => "Motors" | Batteries => "Batteries" | Frames => "Frames"
  | Wheels => "Wheels" | Brakes => "Brakes" | Electronics => "Electronics"
  | Drivetrain => "Drivetrain" | Accessories => "Accessories"
  end.

(** The fields of a product dict that the simulation reads. *)
Record product := mkProduct { category : Category; reorder_level : Z }.

Definition products_data : list product :=
  [ mkProduct Motors 15; mkProduct Motors 20; mkProduct Motors 10; mkProduct Motors 25;
    mkProduct Batteries 30; mkProduct Batteries 40; mkProduct Batteries 15;
    mkProduct Batteries 50; mkProduct Batteries 35;
    mkProduct Frames 8; mkProduct Frames 20; mkProduct Frames 12; mkProduct Frames 15;
    mkProduct Wheels 25; mkProduct Wheels 35; mkProduct Wheels 20; mkProduct Wheels 60;
    mkProduct Wheels 80;
    mkProduct Brakes 30; mkProduct Brakes 40; mkProduct Brakes 100; mkProduct Brakes 120;
    mkProduct Electronics 35; mkProduct Electronics 50; mkProduct Electronics 60;
    mkProduct Electronics 70; mkProduct Electronics 25;
    mkProduct Drivetrain 20; mkProduct Drivetrain 50; mkProduct Drivetrain 30;
    mkProduct Drivetrain 35;
    mkProduct Accessories 40; mkProduct Accessories 45; mkProduct Accessories 35;
    mkProduct Accessories 50; mkProduct Accessories 80; mkProduct Accessories 45;
    mkProduct Accessories 60; mkProduct Accessories 100; mkProduct Accessories 150;
    mkProduct Electronics 55 ].

(** [category_configs]: base_demand and bulk_order_frequency (every
    category of the catalog has an entry, so the defaults are overridden). *)
Definition base_demand (c : Category) : Q :=
  match c with
  | Motors => 8 # 10 | Batteries => 9 # 10 | Frames => 6 # 10 | Wheels => 7 # 10
  | Brakes => 8 # 10 | Electronics => 7 # 10 | Drivetrain => 6 # 10
  | Accessories => 5 # 10
  end.

Definition bulk_order_frequency (c : Category) : Q :=
  match c with
  | Motors => 7 # 10 | Batteries => 8 # 10 | Frames => 6 # 10 | Wheels => 7 # 10
  | Brakes => 8 # 10 | Electronics => 6 # 10 | Drivetrain => 7 # 10
  | Accessories => 5 # 10
  end.

(** [build_product_categories]: category -> product ids (1-based), keys in
    order of first appearance. *)
Fixpoint add_product (c : Category) (pid : Z) (d : list (Category * list Z))
  : list (Category * list Z) :=
  match d with
  | [] => [(c, [pid])]
  | (c', ps) :: d' =>
      if category_eqb c c' then (c', ps ++ [pid]) :: d' else (c', ps) :: add_product c pid d'
  end.

Fixpoint build_categories (i : Z) (ps : list product) (d : list (Category * list Z))
  : list (Category * list Z) :=
  match ps with
  | [] => d
  | p :: ps' => build_categories (i + 1) ps' (add_product (category p) (i + 1) d)
  end.

Definition product_categories : list (Category * list Z) :=
  build_categories 0 products_data [].

(** ** Transaction types, statuses, notes *)

Inductive ttype := Inbound | Sale | Adjustment.

Definition ttype_eqb (a b : ttype) : bool :=
  match a, b with
  | Inbound, Inbound | Sale, Sale | Adjustment, Adjustment => true
  | _, _ => false
  end.

Inductive status := Delivered | Shipped | Processing | Confirmed | Pending.

Definition status_name (s : status) : string :=
  match s with
  | Delivered => "delivered" | Shipped => "shipped" | Processing => "processing"
  | Confirmed => "confirmed" | Pending => "pending"
  end.

(** Note templates: literal text and the [{category}] placeholder. *)
Inductive piece := Lit (s : string) | CatPh.

Definition format_template (t : list piece) (c : Category) : string :=
  fold_right (fun p acc => match p with
                           | Lit s => s ++ acc
                           | CatPh => category_name c ++ acc
                           end)%string EmptyString t.

(** [self.transaction_types] in dict order: inbound, sale, adjustment. *)
Definition transaction_type_keys : list ttype := [Inbound; Sale; Adjustment].

Definition frequency (t : ttype) : Q :=
  match t with Inbound => 20 # 100 | Sale => 75 # 100 | Adjustment => 5 # 100 end.

Definition quantity_range (t : ttype) : Z * Z :=
  match t with Inbound => (5, 80) | Sale => (1, 18) | Adjustment => (-10, 10) end.

Definition status_options (t : ttype) : list status :=
  match t with
  | Inbound => [Delivered; Shipped; Processing; Confirmed; Pending]
  | Sale => [Delivered; Processing; Confirmed; Pending]
  | Adjustment => [Delivered; Confirmed]
  end.

Definition status_weights (t : ttype) : list Q :=
  match t with
  | Inbound => [70 # 100; 15 # 100; 10 # 100; 3 # 100; 2 # 100]
  | Sale => [85 # 100; 10 # 100; 3 # 100; 2 # 100]
  | Adjustment => [95 # 100; 5 # 100]
  end.

Definition note_templates (t : ttype) : list (list piece) :=
  match t with
  | Inbound =>
      [ [Lit "Monthly "; CatPh; Lit " shipment"];
        [Lit "Regular "; CatPh; Lit " delivery"];
        [Lit "URGENT: "; CatPh; Lit " expedite"];
        [Lit "emergency: "; CatPh; Lit " shortage"];
        [Lit "rush: "; CatPh; Lit " air freight"];
        [CatPh; Lit " stock replenishment"];
        [Lit "Quarterly "; CatPh; Lit " order"];
        [Lit "Bulk "; CatPh; Lit " purchase"] ]
  | Sale =>
      [ [Lit "Production Line A - Morning shift"];
        [Lit "Production Line A - URGENT: "; CatPh; Lit " shortage"];
        [CatPh; Lit " consumption - delay in supply"];
        [Lit "Hamburg production"];
        [Lit "Production - rush order"];
        [CatPh; Lit " consumption"];
        [Lit "Milan cargo production - delayed start"];
        [Lit "Production - URGENT shortage"];
        [Lit "Monday production - Normal"];
        [Lit "Battery consumption"];
        [Lit "Frame usage"];
        [Lit "Wheelset usage"];
        [Lit "Thursday production - Normal"];
        [Lit "Friday production increase"];
        [Lit "Milan Saturday production"];
        [Lit "Hamburg Sunday"];
        [Lit "Sunday production - Normal"];
        [Lit "Battery Sunday usage"];
        [Lit "Monday morning production"];
        [Lit "Battery usage current"];
        [Lit "Frame consumption today"] ]
  | Adjustment =>
      [ [Lit "Damaged "; CatPh; Lit " components"];
        [Lit "Inventory count correction"];
        [Lit "Quality inspection failure"];
        [Lit "Found additional stock"];
        [Lit "Returned defective items"];
        [Lit "Cycle count adjustment"];
        [Lit "Physical inventory variance"];
        [Lit "Damaged in transit"] ]
  end.

Definition type_prefix (t : ttype) : string :=
  match t with Inbound => "INB" | Sale => "SAL" | Adjustment => "ADJ" end.

(** A note is either generated from a template ([generate_note]) or the
    reorder note of [generate_reorder_transactions], kept with its fields;
    [render_note] gives the exported text. *)
Inductive note :=
| NoteText (s : string)
| NoteReorder (urgency : string) (cat : Category) (current_inventory reorder_lvl : Z).

Definition render_note (n : note) : string :=
  match n with
  | NoteText s => s
  | NoteReorder u c cur rl =>
      u ++ ": " ++ category_name c ++ " reorder - inventory at " ++ string_of_Z cur
        ++ " (reorder level: " ++ string_of_Z rl ++ ")"
  end.

(** A timestamp [date.replace(hour=h, minute=m, second=0, microsecond=0)]. *)
Record timestamp := mkTs { ts_date : Z; ts_hour : Z; ts_minute : Z }.

Record transaction := mkTxn {
  transaction_number : string;
  product_id : Z;
  warehouse_id : Z;
  quantity_change : Z;
  transaction_type : ttype;
  txn_status : status;
  notes : note;
  transaction_timestamp : timestamp;
  updated_at : timestamp }.

(** An entry of [self.inventory_history]. *)
Record snapshot := mkSnapshot { snap_date : Z; snap_levels : list (string * Z) }.

(** ** Generator state and the monad *)

Record gen_state := mkGen {
  start_date : Z;
  end_date : Z;
  inventory_levels : list ((Z * Z) * Z);
  reorder_history : list ((Z * Z) * Z);
  inventory_history : list snapshot;
  rnd : nat -> Z;        (** stream of the [random] module *)
  rnd_pos : nat;
  np_rnd : nat -> Z;     (** stream of [np.random] *)
  np_pos : nat }.

Definition set_levels (l : list ((Z * Z) * Z)) (s : gen_state) : gen_state :=
  mkGen (start_date s) (end_date s) l (reorder_history s) (inventory_history s)
        (rnd s) (rnd_pos s) (np_rnd s) (np_pos s).
Definition set_history (h : list ((Z * Z) * Z)) (s : gen_state) : gen_state :=
  mkGen (start_date s) (end_date s) (inventory_levels s) h (inventory_history s)
        (rnd s) (rnd_pos s) (np_rnd s) (np_pos s).
Definition set_snapshots (h : list snapshot) (s : gen_state) : gen_state :=
  mkGen (start_date s) (end_date s) (inventory_levels s) (reorder_history s) h
        (rnd s) (rnd_pos s) (np_rnd s) (np_pos s).
Definition set_rnd_pos (n : nat) (s : gen_state) : gen_state :=
  mkGen (start_date s) (end_date s) (inventory_levels s) (reorder_history s)
        (inventory_history s) (rnd s) n (np_rnd s) (np_pos s).
Definition set_np_pos (n : nat) (s : gen_state) : gen_state :=
  mkGen (start_date s) (end_date s) (inventory_levels s) (reorder_history s)
        (inventory_history s) (rnd s) (rnd_pos s) (np_rnd s) n.

Definition M (A : Type) : Type := gen_state -> py_error + (A * gen_state).

Definition ret {A} (a : A) : M A := fun s => inr (a, s).
Definition bind {A B} (m : M A) (k : A -> M B) : M B :=
  fun s => match m s with
           | inl e => inl e
           | inr (a, s') => k a s'
           end.
Definition raise {A} (e : py_error) : M A := fun _ => inl e.
Definition gets {A} (f : gen_state -> A) : M A := fun s => inr (f s, s).
Definition modify (f : gen_state -> gen_state) : M unit := fun s => inr (tt, f s).

Notation "x <- m ;; k" := (bind m (fun x => k))
  (at level 61, m at next level, right associativity).
Notation "m ;;; k" := (bind m (fun _ => k)) (at level 61, right associativity).

Definition lift_opt {A} (e : py_error) (o : option A) : M A :=
  match o with Some a => ret a | None => raise e end.

(** ** Random primitives *)

Definition two53 : Z := 9007199254740992.

Definition next_word : M Z :=
  fun s => inr (rnd s (rnd_pos s), set_rnd_pos (S (rnd_pos s)) s).

(** [random.random()]: a multiple of 2^-53 in [0, 1). *)
Definition random_ : M Q :=
  k <- next_word ;; ret (Qmake (k mod two53) 9007199254740992%positive).

(** [_randbelow(n)]: an integer in [0, n). *)
Definition randbelow (n : Z) : M Z := k <- next_word ;; ret (k mod n).

(** [random.randint(a, b)]. *)
Definition randint (a b : Z) : M Z :=
  if b <? a then raise ValueError
  else x <- randbelow (b - a + 1) ;; ret (a + x).

(** [random.uniform(a, b)] = [a + (b - a) * random()]. *)
Definition uniform (a b : Q) : M Q := u <- random_ ;; ret (a + (b - a) * u)%Q.

(** [random.choice(seq)]. *)
Definition choice {A} (l : list A) : M A :=
  match l with
  | [] => raise IndexError
  | d :: _ => i <- randbelow (Z.of_nat (List.length l)) ;; ret (nth (Z.to_nat i) l d)
  end.

Fixpoint cumulate (acc : Q) (ws : list Q) : list Q :=
  match ws with
  | [] => []
  | w :: ws' => (acc + w)%Q :: cumulate (acc + w)%Q ws'
  end.

(** [bisect(cum_weights, x, 0, hi)] on the non-decreasing list of
    cumulative weights: the first index below [hi] whose entry exceeds
    [x], or [hi]. *)
Fixpoint bisect_idx (x : Q) (a : list Q) (i hi : nat) : nat :=
  match a with
  | [] => hi
  | c :: a' => if Nat.leb hi i then hi else if qltb x c then i else bisect_idx x a' (S i) hi
  end.

(** [random.choices(population, weights=weights)[0]]. *)
Definition choices1 {A} (pop : list A) (weights : list Q) : M A :=
  match pop with
  | [] => raise IndexError
  | d :: _ =>
      let n := List.length pop in
      let cum := cumulate 0 weights in
      if negb (Nat.eqb (List.length cum) n) then raise ValueError
      else let total := last cum 0%Q in
      if negb (qltb 0 total) then raise ValueError
      else u <- random_ ;; ret (nth (bisect_idx (u * total)%Q cum 0 (n - 1)) pop d)
  end.

(** [random.choices(population, k=k)]: [population[floor(random() * n)]]
    for each of the [k] picks. *)
Fixpoint choices_k {A} (pop : list A) (d : A) (k : nat) : M (list A) :=
  match k with
  | O => ret []
  | S k' =>
      u <- random_ ;;
      rest <- choices_k pop d k' ;;
      ret (nth (Z.to_nat (Qfloor (u * zq (Z.of_nat (List.length pop)))%Q)) pop d :: rest)
  end.

(** [np.random.poisson(lam)]: 0 when [lam] is 0 (no draw), otherwise a
    non-negative integer from the numpy stream. *)
Definition poisson (lam : Z) : M Z :=
  fun s =>
    if lam <? 0 then inl ValueError
    else if lam =? 0 then inr (0, s)
    else inr (Z.abs (np_rnd s (np_pos s)), set_np_pos (S (np_pos s)) s).

(** ** [TransactionGenerator] methods *)

Definition seasonal_patterns : list (Z * Q) :=
  [(1, 6 # 10); (2, 7 # 10); (3, 9 # 10); (4, 12 # 10); (5, 14 # 10); (6, 15 # 10);
   (7, 13 # 10); (8, 11 # 10); (9, 1 # 1); (10, 8 # 10); (11, 6 # 10); (12, 5 # 10)].

Definition growth_trends : list (Z * Q) :=
  [(2022, 7 # 10); (2023, 9 # 10); (2024, 1 # 1); (2025, 11 # 10)].

Definition dow_patterns : list (Z * Q) :=
  [(0, 3 # 10); (1, 8 # 10); (2, 1 # 1); (3, 1 # 1); (4, 12 # 10); (5, 4 # 10); (6, 2 # 10)].

Definition get_seasonal_multiplier (date : Z) : M Q :=
  lift_opt KeyError (dict_get Z.eqb (date_month date) seasonal_patterns).
Definition get_growth_multiplier (date : Z) : M Q :=
  lift_opt KeyError (dict_get Z.eqb (date_year date) growth_trends).
Definition get_dow_multiplier (date : Z) : M Q :=
  lift_opt KeyError (dict_get Z.eqb (weekday date) dow_patterns).

(** [initialize_inventory_levels] *)
Definition init_pair (rl pid wid : Z) (acc : list ((Z * Z) * Z)) : M (list ((Z * Z) * Z)) :=
  base <- uniform (12 # 10) (22 # 10) ;;
  let base_stock := (zq rl * base)%Q in
  multiplier <- (if wid =? 1 then uniform 1 (14 # 10)
                 else if wid =? 2 then uniform (8 # 10) (12 # 10)
                 else uniform (6 # 10) 1) ;;
  let initial_stock := py_int (base_stock * multiplier) in
  ret (set_key (pid, wid) (Z.max initial_stock rl) acc).

Fixpoint init_warehouses (rl pid : Z) (wids : list Z) (acc : list ((Z * Z) * Z))
  : M (list ((Z * Z) * Z)) :=
  match wids with
  | [] => ret acc
  | w :: ws => acc' <- init_pair rl pid w acc ;; init_warehouses rl pid ws acc'
  end.

Fixpoint init_products (i : Z) (ps : list product) (acc : list ((Z * Z) * Z))
  : M (list ((Z * Z) * Z)) :=
  match ps with
  | [] => ret acc
  | p :: ps' =>
      acc' <- init_warehouses (reorder_level p) (i + 1) [1; 2; 3] acc ;;
      init_products (i + 1) ps' acc'
  end.

Definition initialize_inventory_levels : M (list ((Z * Z) * Z)) :=
  init_products 0 products_data [].

Definition get_current_inventory (lv : list ((Z * Z) * Z)) (pid wid : Z) : Z :=
  match get_key (pid, wid) lv with Some v => v | None => 0 end.

(** [update_inventory]: [max(0, current_level + quantity_change)]. *)
Definition update_level (lv : list ((Z * Z) * Z)) (pid wid q : Z) : list ((Z * Z) * Z) :=
  let current_level := get_current_inventory lv pid wid in
  set_key (pid, wid) (Z.max 0 (current_level + q)) lv.

Definition update_inventory (pid wid q : Z) : M unit :=
  modify (fun s => set_levels (update_level (inventory_levels s) pid wid q) s).

(** [record_inventory_snapshot] *)
Definition snapshot_key (pid wid : Z) : string :=
  "P" ++ string_of_Z pid ++ "_W" ++ string_of_Z wid.

Definition snapshot_of (date : Z) (lv : list ((Z * Z) * Z)) : snapshot :=
  mkSnapshot date
    (fold_left (fun acc '((p, w), l) => dict_set String.eqb (snapshot_key p w) l acc) lv []).

Definition record_inventory_snapshot (date : Z) : M unit :=
  modify (fun s => set_snapshots (inventory_history s ++ [snapshot_of date (inventory_levels s)]) s).

(** [generate_transaction_number]; [sequence] is not used by the source. *)
Definition suffix_chars : list ascii :=
  list_ascii_of_string "ABCDEFGHIJKLMNOPQRSTUVWXYZ0123456789".

Definition date_str (date : Z) : string :=
  two_digits (date_year date mod 100) ++ two_digits (date_month date) ++ two_digits (date_day date).

Definition generate_transaction_number (t : ttype) (date : Z) (sequence : Z) : M string :=
  suffix <- choices_k suffix_chars "A"%char 5 ;;
  ret (type_prefix t ++ "-" ++ date_str date ++ "-" ++ string_of_list_ascii suffix)%string.

Definition select_product_for_category (c : Category) : M Z :=
  ps <- lift_opt KeyError (dict_get category_eqb c product_categories) ;;
  choice ps.

Definition select_warehouse (pid : Z) : M Z :=
  if existsb (Z.eqb pid) [2; 6; 11; 15; 20] then choices1 [1; 2] [3 # 10; 7 # 10]
  else if existsb (Z.eqb pid) [3; 7; 12; 16] then choices1 [1; 3] [2 # 10; 8 # 10]
  else choices1 [1; 2; 3] [6 # 10; 3 # 10; 1 # 10].

(** [generate_quantity] *)
Definition generate_quantity (t : ttype) (c : Category) (pid wid : Z) : M Z :=
  let '(lo, hi) := quantity_range t in
  current_inventory <- gets (fun s => get_current_inventory (inventory_levels s) pid wid) ;;
  product <- lift_opt IndexError (py_index products_data (pid - 1)) ;;
  let rl := reorder_level product in
  match t with
  | Inbound =>
      multiplier <- (if qltb (7 # 10) (bulk_order_frequency c)
                     then uniform (9 # 10) (14 # 10) else uniform (7 # 10) (12 # 10)) ;;
      m2 <- (if qltb (zq current_inventory) (zq rl * (3 # 10))
             then uniform 1 (14 # 10)
             else if qltb (zq current_inventory) (zq rl * (8 # 10))
             then uniform (8 # 10) (12 # 10)
             else if qltb (zq current_inventory) (zq rl * (12 # 10))
             then uniform (6 # 10) (9 # 10)
             else uniform (1 # 10) (3 # 10)) ;;
      b <- uniform (zq lo) (zq hi) ;;
      ret (Z.max 3 (py_int (b * (multiplier * m2))))
  | Sale =>
      let max_sale := Z.min current_inventory hi in
      if max_sale <=? 0 then ret 0
      else
        let max_sale :=
          if current_inventory <? rl
          then Z.min max_sale (Z.max 1 (py_int (zq current_inventory * (2 # 10))))
          else if qltb (zq current_inventory) (zq rl * (15 # 10))
          then Z.min max_sale (Z.max 1 (py_int (zq current_inventory * (4 # 10))))
          else max_sale in
        if max_sale <=? 3 then randint 1 max_sale
        else
          u <- random_ ;;
          if qltb u (8 # 10) then randint 1 (Z.min 4 max_sale)
          else randint (Z.min 5 max_sale) max_sale
  | Adjustment =>
      (* [max_adjustment] is computed and not used by the source *)
      let max_adjustment := Z.min current_inventory (Z.abs hi) in
      quantity <- randint lo hi ;;
      if (quantity <? 0) && (current_inventory <? Z.abs quantity)
      then ret (- current_inventory)
      else ret quantity
  end.

(** [generate_note] *)
Definition generate_note (t : ttype) (c : Category) (date : Z) : M string :=
  template <- choice (note_templates t) ;;
  let note := format_template template c in
  u <- random_ ;;
  if qltb u (1 # 10) then
    if negb (contains "URGENT" note) && negb (contains "emergency" note)
       && negb (contains "rush" note)
    then ret ("URGENT: " ++ note)%string else ret note
  else ret note.

(** The weights of [generate_time_aware_status] for a transaction
    [days_ago] days before [end_date]. *)
Definition adjusted_weights (t : ttype) (days_ago : Z) : list Q :=
  let n := List.length (status_options t) in
  let rest (p : Q) := repeat (p / zq (Z.of_nat (n - 1)))%Q (n - 1) in
  if 30 <? days_ago then (98 # 100) :: rest (2 # 100)
  else if 14 <? days_ago then (90 # 100) :: rest (10 # 100)
  else if 7 <? days_ago then (80 # 100) :: rest (20 # 100)
  else if 3 <? days_ago then (65 # 100) :: rest (35 # 100)
  else if 1 <? days_ago then (35 # 100) :: rest (65 # 100)
  else status_weights t.

Definition generate_time_aware_status (t : ttype) (date : Z) : M status :=
  days_ago <- gets (fun s => end_date s - date) ;;
  choices1 (status_options t) (adjusted_weights t days_ago).

(** [generate_transaction_timestamp] *)
Definition business_hours : list Z := [6; 7; 8; 9; 10; 11; 12; 13; 14; 15; 16; 17; 18].
Definition hour_weights : list Q :=
  [1 # 2; 1 # 1; 1 # 1; 8 # 10; 8 # 10; 8 # 10; 8 # 10; 8 # 10; 8 # 10; 8 # 10;
   8 # 10; 8 # 10; 1 # 2].

Definition generate_transaction_timestamp (date : Z) : M timestamp :=
  hour <- choices1 business_hours hour_weights ;;
  minute <- randint 0 59 ;;
  ret (mkTs date hour minute).

(** [generate_reorder_transactions]: the body for one (product, warehouse). *)
Definition reorder_one (date seq_offset pid : Z) (p : product) (wid : Z)
    (acc : list transaction) : M (list transaction) :=
  current_inventory <- gets (fun s => get_current_inventory (inventory_levels s) pid wid) ;;
  hist <- gets reorder_history ;;
  let rl := reorder_level p in
  let needs_reorder :=
    if qltb (zq current_inventory) (zq rl * (15 # 10)) then
      match get_key (pid, wid) hist with
      | None => true
      | Some last_reorder =>
          let days_since_reorder := date - last_reorder in
          let cooldown_days := if current_inventory <? rl then 5 else 7 in
          cooldown_days <=? days_since_reorder
      end
    else false in
  if needs_reorder then
    let target_stock := (zq rl * (12 # 10))%Q in
    let shortage := qmax 1 (target_stock - zq current_inventory) in
    reorder_quantity <-
      (if qltb (zq current_inventory) (zq rl * (3 # 10))
       then u <- uniform 1 (12 # 10) ;; ret (py_int (shortage * u))
       else if qltb (zq current_inventory) (zq rl * (8 # 10))
       then u <- uniform (8 # 10) 1 ;; ret (py_int (shortage * u))
       else u <- uniform (4 # 10) (6 # 10) ;; ret (py_int (shortage * u))) ;;
    ts <- generate_transaction_timestamp date ;;
    number <- generate_transaction_number Inbound date
                (seq_offset + Z.of_nat (List.length acc)) ;;
    update_inventory pid wid reorder_quantity ;;;
    modify (fun s => set_history (set_key (pid, wid) date (reorder_history s)) s) ;;;
    let urgency :=
      if current_inventory =? 0 then "CRITICAL"%string
      else if qltb (zq current_inventory) (zq rl * (1 # 2)) then "URGENT"%string
      else "LOW"%string in
    reorder_status <- generate_time_aware_status Inbound date ;;
    ret (acc ++ [mkTxn number pid wid reorder_quantity Inbound reorder_status
                   (NoteReorder urgency (category p) current_inventory rl) ts ts])
  else ret acc.

Fixpoint reorder_warehouses (date seq_offset pid : Z) (p : product) (wids : list Z)
    (acc : list transaction) : M (list transaction) :=
  match wids with
  | [] => ret acc
  | w :: ws => acc' <- reorder_one date seq_offset pid p w acc ;;
               reorder_warehouses date seq_offset pid p ws acc'
  end.

Fixpoint reorder_products (date seq_offset i : Z) (ps : list product)
    (acc : list transaction) : M (list transaction) :=
  match ps with
  | [] => ret acc
  | p :: ps' => acc' <- reorder_warehouses date seq_offset (i + 1) p [1; 2; 3] acc ;;
                reorder_products date seq_offset (i + 1) ps' acc'
  end.

Definition generate_reorder_transactions (date seq_offset : Z) : M (list transaction) :=
  reorder_products date seq_offset 0 products_data [].

(** [cleanup_reorder_history] *)
Definition cleanup_history (current_date : Z) (h : list ((Z * Z) * Z)) : list ((Z * Z) * Z) :=
  let cutoff_date := current_date - 30 in
  let keys_to_remove := map fst (filter (fun kv => snd kv <? cutoff_date) h) in
  fold_left (fun d k => del_key k d) keys_to_remove h.

Definition cleanup_reorder_history (current_date : Z) : M unit :=
  modify (fun s => set_history (cleanup_history current_date (reorder_history s)) s).

(** [assess_inventory_health] *)
Fixpoint count_healthy (lv : list ((Z * Z) * Z)) (i : Z) (ps : list product) : Z * Z :=
  match ps with
  | [] => (0, 0)
  | p :: ps' =>
      let '(t, h) := count_healthy lv (i + 1) ps' in
      let hw := List.length (filter (fun w =>
                  qltb (zq (reorder_level p) * (12 # 10))
                       (zq (get_current_inventory lv (i + 1) w))) [1; 2; 3]) in
      (t + 3, h + Z.of_nat hw)
  end.

Definition assess_inventory_health (lv : list ((Z * Z) * Z)) : Q :=
  let '(total_products, healthy_products) := count_healthy lv 0 products_data in
  if total_products =? 0 then 1
  else let health_ratio := (zq healthy_products / zq total_products)%Q in
  if qltb health_ratio (4 # 10) then 15 # 10
  else if qltb health_ratio (6 # 10) then 12 # 10
  else if qltb health_ratio (8 # 10) then 1
  else if qltb health_ratio (9 # 10) then 6 # 10
  else 3 # 10.

(** One iteration of the transaction loop of [generate_daily_transactions];
    [None] when the iteration is skipped ([quantity == 0]). *)
Definition one_transaction (date : Z) (adjusted_frequencies : list (ttype * Q)) (i : Z)
  : M (option transaction) :=
  transaction_type <- choices1 (map fst adjusted_frequencies) (map snd adjusted_frequencies) ;;
  let categories := map fst product_categories in
  let weights := map base_demand categories in
  c <- choices1 categories weights ;;
  pid <- select_product_for_category c ;;
  wid <- select_warehouse pid ;;
  quantity <- generate_quantity transaction_type c pid wid ;;
  if quantity =? 0 then ret None
  else
    let quantity :=
      if ttype_eqb transaction_type Sale || ttype_eqb transaction_type Adjustment
      then - Z.abs quantity else quantity in
    update_inventory pid wid quantity ;;;
    st <- generate_time_aware_status transaction_type date ;;
    nt <- generate_note transaction_type c date ;;
    ts <- generate_transaction_timestamp date ;;
    number <- generate_transaction_number transaction_type date i ;;
    ret (Some (mkTxn number pid wid quantity transaction_type st (NoteText nt) ts ts)).

Fixpoint transactions_loop (date : Z) (adjusted_frequencies : list (ttype * Q)) (i : Z)
    (n : nat) (acc : list transaction) : M (list transaction) :=
  match n with
  | O => ret acc
  | S n' =>
      o <- one_transaction date adjusted_frequencies i ;;
      transactions_loop date adjusted_frequencies (i + 1) n'
        (match o with Some t => acc ++ [t] | None => acc end)
  end.

Definition adjust_frequencies (health_factor : Q) : list (ttype * Q) :=
  let adjusted := map (fun t => (t, match t with
                                    | Inbound => frequency t * health_factor
                                    | _ => frequency t
                                    end)%Q) transaction_type_keys in
  let total_freq := fold_left (fun a kv => a + snd kv)%Q adjusted 0%Q in
  map (fun kv => (fst kv, snd kv / total_freq)%Q) adjusted.

(** [generate_daily_transactions] *)
Definition generate_daily_transactions (date : Z) : M (list transaction) :=
  seasonal_mult <- get_seasonal_multiplier date ;;
  growth_mult <- get_growth_multiplier date ;;
  dow_mult <- get_dow_multiplier date ;;
  let daily_activity := (seasonal_mult * growth_mult * dow_mult)%Q in
  let base_transactions := py_int (150 * daily_activity) in
  drawn <- poisson base_transactions ;;
  let num_transactions := Z.max 1 drawn in
  reorder_transactions <-
    (if weekday date <? 5 then
       let reorder_probability := if weekday date =? 0 then 4 # 10 else 2 # 10 in
       u <- random_ ;;
       if qltb u reorder_probability then generate_reorder_transactions date 0 else ret []
     else ret []) ;;
  health_factor <- gets (fun s => assess_inventory_health (inventory_levels s)) ;;
  transactions <- transactions_loop date (adjust_frequencies health_factor) 0
                    (Z.to_nat num_transactions) reorder_transactions ;;
  record_inventory_snapshot date ;;;
  ret transactions.

(** The day loop of [generate_all_transactions]. *)
Fixpoint days_loop (n : nat) (day current_date : Z) (acc : list transaction)
  : M (list transaction) :=
  match n with
  | O => ret acc
  | S n' =>
      daily <- generate_daily_transactions current_date ;;
      (if day mod 30 =? 0 then cleanup_reorder_history current_date else ret tt) ;;;
      days_loop n' (day + 1) (current_date + 1) (acc ++ daily)
  end.

Definition total_days (s : gen_state) : Z := end_date s - start_date s.

(** [generate_all_transactions], up to the list [all_transactions] (the
    DataFrame conversion and sort are not modelled). *)
Definition generate_all_transactions : M (list transaction) :=
  n <- gets total_days ;;
  s0 <- gets start_date ;;
  days_loop (Z.to_nat n) 0 s0 [].

(** [TransactionGenerator()] with [datetime.now()] on day [now]. *)
Definition TransactionGenerator (now : Z) (r np : nat -> Z) : py_error + gen_state :=
  let s0 := mkGen (now - 3 * 365) now [] [] [] r 0 np 0 in
  match initialize_inventory_levels s0 with
  | inl e => inl e
  | inr (lv, s1) => inr (set_levels lv s1)
  end.

(** [generate_data] up to the transaction list and the final generator. *)
Definition run (now : Z) (r np : nat -> Z) : py_error + (list transaction * gen_state) :=
  match TransactionGenerator now r np with
  | inl e => inl e
  | inr g => generate_all_transactions g
  end.

(** ** Concrete inputs *)

Definition zero_stream : nat -> Z := fun _ => 0.
Definition list_stream (l : list Z) : nat -> Z := fun n => nth n l 0.
Definition day_2025_06_03 : Z := days_from_civil 2025 6 3.
Definition day_2026_10_19 : Z := days_from_civil 2026 10 19.
Definition day_2026_01_01 : Z := days_from_civil 2026 1 1.

(** Every (product, warehouse) pair of the catalog, in ledger order. *)
Definition all_pairs : list (Z * Z) :=
  flat_map (fun i => [(i, 1); (i, 2); (i, 3)]) (map Z.of_nat (seq 1 41)).

(** Reorder transactions are the ones carrying the reorder note. *)
Definition is_reorder (t : transaction) : bool :=
  match notes t with NoteReorder _ _ _ _ => true | NoteText _ => false end.

Definition txn_day (t : transaction) : Z := ts_date (transaction_timestamp t).

(** The cooldown that applied to a reorder: 5 days when the stock seen at
    its eligibility check (recorded in its note) was below the reorder
    level, 7 otherwise. *)
Definition cooldown_of (t : transaction) : Z :=
  match notes t with
  | NoteReorder _ _ cur rl => if cur <? rl then 5 else 7
  | NoteText _ => 7
  end.

(** Weight of "delivered" (the first status option) divided by the total
    weight: the probability that [generate_time_aware_status] picks it. *)
Definition delivered_mass (t : ttype) (days_ago : Z) : Q :=
  let w := adjusted_weights t days_ago in
  (hd 0%Q w / fold_left Qplus w 0%Q)%Q.

(** [n] consecutive products after product [i], each with its three
    warehouses, in ledger order. *)
Definition pairs_from (i : Z) (n : nat) : list (Z * Z) :=
  flat_map (fun j => [(j, 1); (j, 2); (j, 3)]) (map (fun m => i + 1 + Z.of_nat m) (seq 0 n)).

(** Whether two transactions of the list share a [transaction_number]. *)
Fixpoint has_dup_number (l : list transaction) : bool :=
  match l with
  | [] => false
  | t :: l' =>
      existsb (fun u => String.eqb (transaction_number t) (transaction_number u)) l'
      || has_dup_number l'
  end.

(** Whether two reorders of the list concern the same (product, warehouse). *)
Fixpoint has_reorder_pair (l : list transaction) : bool :=
  match l with
  | [] => false
  | t :: l' =>
      (is_reorder t && existsb (fun u => is_reorder u && (product_id t =? product_id u)
                                         && (warehouse_id t =? warehouse_id u)) l')
      || has_reorder_pair l'
  end.

(** A completed run whose first ten transactions repeat a number and whose
    first 160 transactions reorder one pair twice. *)
Definition run_check (r : py_error + (list transaction * gen_state)) : bool :=
  match r with
  | inr (txns, _) => has_dup_number (firstn 10 txns) && has_reorder_pair (firstn 160 txns)
  | inl _ => false
  end.

(** Ordered pairs of reorders of one pair in a transaction list keep the
    cooldown of the later one. *)
Definition cool_ok (E : list transaction) : Prop :=
  forall i j t1 t2, (i < j)%nat -> nth_error E i = Some t1 -> nth_error E j = Some t2 ->
    is_reorder t1 = true -> is_reorder t2 = true ->
    product_id t1 = product_id t2 -> warehouse_id t1 = warehouse_id t2 ->
    txn_day t1 + cooldown_of t2 <= txn_day t2.

(** The reorder bookkeeping on day [D], with [E] emitted so far and [h] the
    reorder history: every emitted reorder is recorded at its day or later,
    or, once pruned, lies at least 7 days back. *)
Definition reorder_inv (D : Z) (E : list transaction) (h : list ((Z * Z) * Z)) : Prop :=
  NoDup (map fst h)
  /\ cool_ok E
  /\ forall t, In t E -> is_reorder t = true ->
       txn_day t <= D
       /\ match get_key (product_id t, warehouse_id t) h with
          | Some d => txn_day t <= d
          | None => txn_day t + 7 <= D
          end.

(** The weight on "delivered" in the five age buckets beyond one day. *)
Definition delivered_level (days_ago : Z) : Q :=
  if 30 <? days_ago then 98 # 100
  else if 14 <? days_ago then 90 # 100
  else if 7 <? days_ago then 80 # 100
  else if 3 <? days_ago then 65 # 100
  else 35 # 100.

(** A state with [level] units of product 1 in warehouse 1, the given
    [random] stream and [end_date] 2025-06-03. *)
Definition one_pair_state (level : Z) (draws : list Z) : gen_state :=
  mkGen (day_2025_06_03 - 3 * 365) day_2025_06_03 [((1, 1), level)] [] []
        (list_stream draws) 0 zero_stream 0.

(** [str.split(sep)] with a one-character separator. *)
Fixpoint str_split (sep : ascii) (s : string) : list string :=
  match s with
  | EmptyString => [EmptyString]
  | String ch s' =>
      let parts := str_split sep s' in
      if Ascii.eqb ch sep then EmptyString :: parts
      else match parts with
           | p :: ps => String ch p :: ps
           | [] => [String ch EmptyString]
           end
  end.

(** [s[1:]] *)
Definition str_tail (s : string) : string :=
  match s with EmptyString => EmptyString | String _ s' => s' end.

(** The characters [int()] strips: Unicode white space, the string read as Latin-1. *)
Definition py_space (c : ascii) : bool :=
  let n := nat_of_ascii c in
  ((9 <=? n)%nat && (n <=? 13)%nat) || ((28 <=? n)%nat && (n <=? 32)%nat)
  || (n =? 133)%nat || (n =? 160)%nat.

Fixpoint drop_space (l : list ascii) : list ascii :=
  match l with
  | [] => []
  | c :: l' => if py_space c then drop_space l' else l
  end.

Definition strip_space (l : list ascii) : list ascii := rev (drop_space (rev (drop_space l))).

Definition digit_value (c : ascii) : option Z :=
  let n := nat_of_ascii c in
  if (48 <=? n)%nat && (n <=? 57)%nat then Some (Z.of_nat n - 48) else None.

(** Decimal digits, single underscores allowed between digits. *)
Fixpoint parse_digits (l : list ascii) (acc : Z) (after_digit : bool) : option Z :=
  match l with
  | [] => if after_digit then Some acc else None
  | c :: l' =>
      match digit_value c with
      | Some d => parse_digits l' (acc * 10 + d) true
      | None => if Ascii.eqb c "_"%char && after_digit then parse_digits l' acc false else None
      end
  end.

(** [int(s)] in base 10; [None] is the [ValueError]. *)
Definition py_int_of_str (s : string) : option Z :=
  match strip_space (list_ascii_of_string s) with
  | [] => None
  | c :: l =>
      if Ascii.eqb c "-"%char then option_map Z.opp (parse_digits l 0 false)
      else if Ascii.eqb c "+"%char then parse_digits l 0 false
      else parse_digits (c :: l) 0 false
  end.

(** The key parse of [save_inventory_history_to_csv]: [parts = key.split('_')],
    [int(parts[0][1:])], then [int(parts[1][1:])]. *)
Definition parse_snapshot_key (key : string) : py_error + (Z * Z) :=
  match str_split "_"%char key with
  | [] => inl IndexError
  | part0 :: rest =>
      match py_int_of_str (str_tail part0) with
      | None => inl ValueError
      | Some product_id =>
          match rest with
          | [] => inl IndexError
          | part1 :: _ =>
              match py_int_of_str (str_tail part1) with
              | None => inl ValueError
              | Some warehouse_id => inr (product_id, warehouse_id)
              end
          end
      end
  end.

(** A row of the inventory-history CSV; the date is kept as its day number. *)
Record history_row := mkRow {
  row_date : Z; row_product_id : Z; row_warehouse_id : Z; row_inventory_level : Z }.

Fixpoint snapshot_rows (date : Z) (kvs : list (string * Z)) : py_error + list history_row :=
  match kvs with
  | [] => inr []
  | (key, level) :: kvs' =>
      match parse_snapshot_key key with
      | inl e => inl e
      | inr (product_id, warehouse_id) =>
          match snapshot_rows date kvs' with
          | inl e => inl e
          | inr rows => inr (mkRow date product_id warehouse_id level :: rows)
          end
      end
  end.

Fixpoint history_rows (h : list snapshot) : py_error + list history_row :=
  match h with
  | [] => inr []
  | sn :: h' =>
      match snapshot_rows (snap_date sn) (snap_levels sn) with
      | inl e => inl e
      | inr rows =>
          match history_rows h' with
          | inl e => inl e
          | inr rows' => inr (rows ++ rows')
          end
      end
  end.

(** The sort key of a row: [date], [product_id], [warehouse_id].  The
    [date] column holds [strftime('%Y-%m-%d')], whose string order is the
    order of the day numbers for four-digit years. *)
Definition row_key (r : history_row) : Z * (Z * Z) :=
  (row_date r, (row_product_id r, row_warehouse_id r)).

Definition key_leb (a b : Z * (Z * Z)) : bool :=
  let '(d1, (p1, w1)) := a in
  let '(d2, (p2, w2)) := b in
  (d1 <? d2) || ((d1 =? d2) && ((p1 <? p2) || ((p1 =? p2) && (w1 <=? w2)))).

Definition row_leb (a b : history_row) : bool := key_leb (row_key a) (row_key b).

(** [df.sort_values(['date', 'product_id', 'warehouse_id'])]: a stable sort
    on the three columns (pandas sorts on several columns with a stable
    lexicographic sort), here an insertion sort. *)
Fixpoint insert_row (r : history_row) (rows : list history_row) : list history_row :=
  match rows with
  | [] => [r]
  | r' :: rows' => if row_leb r r' then r :: rows else r' :: insert_row r rows'
  end.

Fixpoint sort_rows (rows : list history_row) : list history_row :=
  match rows with
  | [] => []
  | r :: rows' => insert_row r (sort_rows rows')
  end.

(** [save_inventory_history_to_csv] up to the rows written by [to_csv]
    ([None]: empty history, nothing saved); the file itself is not modelled. *)
Definition save_inventory_history_to_csv (h : list snapshot) : py_error + option (list history_row) :=
  match h with
  | [] => inr None
  | _ => match history_rows h with
         | inl e => inl e
         | inr rows => inr (Some (sort_rows rows))
         end
  end.

(** A double-quote character. *)
Definition dq : string := String (ascii_of_nat 34) EmptyString.

(** The [name] fields of [generate_products_data], in catalog order. *)
Definition product_names : list string :=
  [ "E-Motor 250W Mid-Drive"; "E-Motor 500W Hub"; "E-Motor 750W Performance";
    "Motor Controller Unit";
    "Battery 48V 14Ah"; "Battery 36V 10Ah"; "Battery 52V 20Ah";
    "Battery Management System"; "Battery Charger 4A";
    "Carbon Frame MTB"; "Aluminum Frame City"; "Aluminum Frame Cargo"; "Steel Frame Classic";
    ("Wheel Set 29" ++ dq ++ " MTB"); ("Wheel Set 28" ++ dq ++ " City");
    ("Wheel Set 20" ++ dq ++ " Cargo"); "Tire 29x2.4 MTB"; "Tire 28x1.75 City";
    "Hydraulic Disc Brake Set"; "Mechanical Disc Brake Set"; "Brake Rotor 180mm";
    "Brake Pads Set";
    ("LCD Display 3.5" ++ dq); "LED Display Basic"; "Thumb Throttle"; "Pedal Assist Sensor";
    "Torque Sensor";
    "Derailleur 11-Speed"; "Chain 11-Speed"; "Cassette 11-50T"; "Crankset 170mm";
    "Handlebar Aluminum"; "Seatpost 31.6mm"; "Saddle Comfort Plus"; "Pedals Platform";
    "Grips Ergonomic"; "LED Light Set"; "Kickstand Heavy Duty"; "Cable Set Complete";
    "Bolt Kit Frame";
    "Wire Harness Main" ]%string.

(** The [name] fields of [generate_warehouses_data]. *)
Definition warehouse_names : list string :=
  [ "Lyon Main Warehouse"; "Hamburg Distribution Center"; "Milan Assembly Hub" ]%string.

(** An entry of [final_inventory_levels] in [generate_inventory_summary]. *)
Record summary_entry := mkEntry {
  product_name : string;
  product_category : string;
  warehouse_name : string;
  current_inventory : Z;
  entry_reorder_level : Z;
  entry_status : string }.

Record inventory_statistics := mkStats {
  total_products : Z; total_warehouses : Z; total_combinations : Z }.

Fixpoint summary_levels (lv : list ((Z * Z) * Z)) (acc : list (string * summary_entry))
  : py_error + list (string * summary_entry) :=
  match lv with
  | [] => inr acc
  | ((product_id, warehouse_id), level) :: lv' =>
      match py_index products_data (product_id - 1), py_index product_names (product_id - 1) with
      | Some product, Some name =>
          match py_index warehouse_names (warehouse_id - 1) with
          | Some wname =>
              let key := snapshot_key product_id warehouse_id in
              summary_levels lv'
                (dict_set String.eqb key
                   (mkEntry name (category_name (category product)) wname level
                      (reorder_level product)
                      (if reorder_level product <? level then "healthy" else "needs_reorder"))
                   acc)
          | None => inl IndexError
          end
      | _, _ => inl IndexError
      end
  end.

(** [generate_inventory_summary] on the ledger [lv]. *)
Definition generate_inventory_summary (lv : list ((Z * Z) * Z))
  : py_error + (list (string * summary_entry) * inventory_statistics) :=
  let stats := mkStats (Z.of_nat (List.length products_data)) (Z.of_nat (List.length warehouse_names))
                 (Z.of_nat (List.length lv)) in
  match summary_levels lv [] with
  | inl e => inl e
  | inr levels => inr (levels, stats)
  end.

(** [s.replace("'", "''")] *)
Fixpoint escape_quotes (s : string) : string :=
  match s with
  | EmptyString => EmptyString
  | String c s' =>
      if Ascii.eqb c "'"%char then String "'"%char (String "'"%char (escape_quotes s'))
      else String c (escape_quotes s')
  end.

(** Reader of the body of a SQL string literal (after its opening quote): a
    doubled quote stands for one quote, a single quote closes the literal. *)
Fixpoint read_sql_literal (s : string) : option (string * string) :=
  match s with
  | EmptyString => None
  | String c s' =>
      if Ascii.eqb c "'"%char then
        match s' with
        | String c2 s'' =>
            if Ascii.eqb c2 "'"%char then
              option_map (fun r => (String "'"%char (fst r), snd r)) (read_sql_literal s'')
            else Some (EmptyString, s')
        | EmptyString => Some (EmptyString, EmptyString)
        end
      else option_map (fun r => (String c (fst r), snd r)) (read_sql_literal s')
  end.

(** A [datetime] with its time of day: the day number and the
    microseconds since midnight.  [self.start_date] and [self.end_date]
    carry the time of day of [datetime.now()]. *)
Record datetime := mkDatetime { dt_day : Z; dt_time : Z }.

(** [a <= b] on datetimes. *)
Definition dt_le (a b : datetime) : bool :=
  (dt_day a <? dt_day b) || ((dt_day a =? dt_day b) && (dt_time a <=? dt_time b)).

(** [datetime(y, m, d)]: midnight of a day. *)
Definition midnight (d : Z) : datetime := mkDatetime d 0.

(** A transaction timestamp as a datetime (seconds and microseconds are 0). *)
Definition timestamp_datetime (ts : timestamp) : datetime :=
  mkDatetime (ts_date ts) ((ts_hour ts * 60 + ts_minute ts) * 60000000).

(** A row of the DataFrame of [generate_all_transactions]: the transaction
    and its [notes] column. *)
Record df_row := mkDfRow { df_txn : transaction; df_notes : string }.

Definition df_timestamp (r : df_row) : datetime :=
  timestamp_datetime (transaction_timestamp (df_txn r)).

(** [df.loc[mask, "notes"] = df.loc[mask, "notes"] + sfx] with
    [mask = (ts >= lo) & (ts <= hi)], row by row. *)
Definition tag_row (lo hi : datetime) (sfx : string) (r : df_row) : df_row :=
  if dt_le lo (df_timestamp r) && dt_le (df_timestamp r) hi
  then mkDfRow (df_txn r) (df_notes r ++ sfx)
  else r.

Definition tag_rows (lo hi : datetime) (sfx : string) (df : list df_row) : list df_row :=
  map (tag_row lo hi sfx) df.

Definition black_friday_dates : list Z :=
  [days_from_civil 2022 11 25; days_from_civil 2023 11 24; days_from_civil 2024 11 29].

(** [TransactionGenerator.add_special_events]. *)
Definition add_special_events (start_date end_date : datetime) (df : list df_row) : list df_row :=
  let df :=
    fold_left
      (fun df bf_day =>
         let bf_date := midnight bf_day in
         if dt_le start_date bf_date && dt_le bf_date end_date
         then tag_rows (midnight (bf_day - 3)) (midnight (bf_day + 3)) " - Black Friday rush" df
         else df)
      black_friday_dates df in
  let covid_start := midnight (days_from_civil 2022 3 1) in
  let covid_end := midnight (days_from_civil 2022 6 30) in
  if dt_le start_date covid_start && dt_le covid_end end_date
  then tag_rows covid_start covid_end " - Supply chain disruption" df
  else df.

(** The days whose business-hours rows get the Black Friday tag: from three
    days before to two days after a Black Friday inside the run's range. *)
Definition black_friday_window (start_date end_date : datetime) (d : Z) : Prop :=
  exists bf, In bf black_friday_dates
    /\ dt_le start_date (midnight bf) = true /\ dt_le (midnight bf) end_date = true
    /\ bf - 3 <= d <= bf + 2.

(** The days whose business-hours rows get the supply chain tag. *)
Definition covid_window (start_date end_date : datetime) (d : Z) : Prop :=
  dt_le start_date (midnight (days_from_civil 2022 3 1)) = true
  /\ dt_le (midnight (days_from_civil 2022 6 30)) end_date = true
  /\ days_from_civil 2022 3 1 <= d < days_from_civil 2022 6 30.

(** The product ids of category [c] among [ps], counted from [i + 1]. *)
Fixpoint category_positions (c : Category) (i : Z) (ps : list product) : list Z :=
  match ps with
  | [] => []
  | p :: ps' =>
      if category_eqb (category p) c then (i + 1) :: category_positions c (i + 1) ps'
      else category_positions c (i + 1) ps'
  end.

(** A state whose reorder history holds day 10 for (1, 1) and day 50 for (2, 1). *)
Definition history_state : gen_state :=
  mkGen 0 0 [] [((1, 1), 10); ((2, 1), 50)] [] zero_stream 0 zero_stream 0.

(** Random words [k * 2^53 / 1000], so that [random()] returns [k / 1000]. *)
Definition thousandths (l : list Z) : list Z := map (fun k => k * 9007199254740992 / 1000) l.

(** A state on day 2025-06-03 whose ledger holds [level] units of every
    catalog pair, with the given [random] stream. *)
Definition full_ledger_state (level : Z) (draws : list Z) : gen_state :=
  mkGen (day_2025_06_03 - 3 * 365) day_2025_06_03 (map (fun pw => (pw, level)) all_pairs) [] []
        (list_stream draws) 0 zero_stream 0.

Definition collision_draws : list Z :=
  thousandths [120; 340; 515; 777; 250; 610; 95; 432; 880; 301; 666; 142; 505; 912; 38; 271; 459;
               70; 820; 390; 145; 655; 233; 908; 57; 486; 712; 329; 598; 510; 915; 40; 275; 460].

(** ** Frame lemmas: which parts of the state an operation touches *)

Definition data (s : gen_state) :=
  (start_date s, end_date s, inventory_levels s, reorder_history s, inventory_history s).

(** [m] only advances the random streams. *)
Definition keeps {A} (m : M A) : Prop :=
  forall s a s', m s = inr (a, s') -> data s' = data s.

Lemma bind_inr {A B} (m : M A) (k : A -> M B) s b s' :
  bind m k s = inr (b, s') -> exists a s1, m s = inr (a, s1) /\ k a s1 = inr (b, s').
Proof.
  unfold bind. destruct (m s) as [e | [a s1]]; [discriminate |]. eauto.
Qed.

Lemma keeps_ret {A} (a : A) : keeps (ret a).
Proof. intros s x s' H. inversion H; reflexivity. Qed.

Lemma keeps_raise {A} e : keeps (@raise A e).
Proof. intros s x s' H. discriminate H. Qed.

Lemma keeps_gets {A} (f : gen_state -> A) : keeps (gets f).
Proof. intros s x s' H. inversion H; reflexivity. Qed.

Lemma keeps_lift_opt {A} e (o : option A) : keeps (lift_opt e o).
Proof. destruct o; [apply keeps_ret | apply keeps_raise]. Qed.

Lemma keeps_bind {A B} (m : M A) (k : A -> M B) :
  keeps m -> (forall a, keeps (k a)) -> keeps (bind m k).
Proof.
  intros Hm Hk s b s' H. apply bind_inr in H as (a & s1 & H1 & H2).
  rewrite (Hk a s1 b s' H2). exact (Hm s a s1 H1).
Qed.

Lemma keeps_next_word : keeps next_word.
Proof. intros s x s' H. inversion H; reflexivity. Qed.

Lemma keeps_poisson lam : keeps (poisson lam).
Proof.
  intros s x s' H. unfold poisson in H.
  destruct (lam <? 0); [discriminate |].
  destruct (lam =? 0); inversion H; reflexivity.
Qed.

Create HintDb keeps_db.
#[local] Hint Resolve keeps_ret keeps_raise keeps_gets keeps_lift_opt keeps_next_word
  keeps_poisson : keeps_db.

Ltac keeps_tac :=
  repeat match goal with
  | |- keeps (bind _ _) => apply keeps_bind; [| intro]
  | |- keeps (if ?b then _ else _) => destruct b
  | |- keeps (match ?x with _ => _ end) => destruct x
  | |- keeps _ => solve [eauto with keeps_db]
  end.

Lemma keeps_random : keeps random_.
Proof. unfold random_. keeps_tac. Qed.
#[local] Hint Resolve keeps_random : keeps_db.

Lemma keeps_randbelow n : keeps (randbelow n).
Proof. unfold randbelow. keeps_tac. Qed.
#[local] Hint Resolve keeps_randbelow : keeps_db.

Lemma keeps_randint a b : keeps (randint a b).
Proof. unfold randint. keeps_tac. Qed.
#[local] Hint Resolve keeps_randint : keeps_db.

Lemma keeps_uniform a b : keeps (uniform a b).
Proof. unfold uniform. keeps_tac. Qed.
#[local] Hint Resolve keeps_uniform : keeps_db.

Lemma keeps_choice {A} (l : list A) : keeps (choice l).
Proof. unfold choice. keeps_tac. Qed.
#[local] Hint Resolve keeps_choice : keeps_db.

Lemma keeps_choices1 {A} (pop : list A) w : keeps (choices1 pop w).
Proof. unfold choices1. keeps_tac. Qed.
#[local] Hint Resolve keeps_choices1 : keeps_db.

Lemma keeps_choices_k {A} (pop : list A) d k : keeps (choices_k pop d k).
Proof. induction k; simpl; keeps_tac. Qed.
#[local] Hint Resolve keeps_choices_k : keeps_db.

Lemma keeps_generate_note t c d : keeps (generate_note t c d).
Proof. unfold generate_note. keeps_tac. Qed.
#[local] Hint Resolve keeps_generate_note : keeps_db.

Lemma keeps_status t d : keeps (generate_time_aware_status t d).
Proof. unfold generate_time_aware_status. keeps_tac. Qed.
#[local] Hint Resolve keeps_status : keeps_db.

Lemma keeps_timestamp d : keeps (generate_transaction_timestamp d).
Proof. unfold generate_transaction_timestamp. keeps_tac. Qed.
#[local] Hint Resolve keeps_timestamp : keeps_db.

Lemma keeps_number t d i : keeps (generate_transaction_number t d i).
Proof. unfold generate_transaction_number. keeps_tac. Qed.
#[local] Hint Resolve keeps_number : keeps_db.

Lemma keeps_select_product c : keeps (select_product_for_category c).
Proof. unfold select_product_for_category. keeps_tac. Qed.
#[local] Hint Resolve keeps_select_product : keeps_db.

Lemma keeps_select_warehouse pid : keeps (select_warehouse pid).
Proof. unfold select_warehouse. keeps_tac. Qed.
#[local] Hint Resolve keeps_select_warehouse : keeps_db.

Lemma keeps_generate_quantity t c pid wid : keeps (generate_quantity t c pid wid).
Proof. unfold generate_quantity. keeps_tac. Qed.
#[local] Hint Resolve keeps_generate_quantity : keeps_db.

Lemma keeps_init_warehouses rl pid wids acc : keeps (init_warehouses rl pid wids acc).
Proof.
  revert acc. induction wids as [| w ws IH]; intros acc; simpl; [keeps_tac |].
  apply keeps_bind; [unfold init_pair; keeps_tac | intro; apply IH].
Qed.

Lemma keeps_init_products i ps acc : keeps (init_products i ps acc).
Proof.
  revert i acc. induction ps as [| p ps IH]; intros i acc; cbn [init_products];
    [keeps_tac |].
  apply keeps_bind; [apply keeps_init_warehouses | intro; apply IH].
Qed.

(** ** Invariant preservation *)

Definition preserves (P : gen_state -> Prop) {A} (m : M A) : Prop :=
  forall s a s', P s -> m s = inr (a, s') -> P s'.

Lemma preserves_bind {A B} P (m : M A) (k : A -> M B) :
  preserves P m -> (forall a, preserves P (k a)) -> preserves P (bind m k).
Proof.
  intros Hm Hk s b s' HP H. apply bind_inr in H as (a & s1 & H1 & H2).
  exact (Hk a s1 b s' (Hm s a s1 HP H1) H2).
Qed.

Lemma preserves_keeps {A} P (m : M A) :
  (forall s s', data s' = data s -> P s -> P s') -> keeps m -> preserves P m.
Proof. intros Hd Hm s a s' HP H. exact (Hd s s' (Hm s a s' H) HP). Qed.

Lemma preserves_ret {A} P (a : A) : preserves P (ret a).
Proof. intros s x s' HP H. inversion H; subst; assumption. Qed.

Lemma preserves_modify P f : (forall s, P s -> P (f s)) -> preserves P (modify f).
Proof. intros Hf s x s' HP H. inversion H; subst. auto. Qed.

(** The generic traversal: split binds and branches, and close the leaves
    with the hint database [db] or, for random draws and reads, with the
    frame lemma [frame] of the invariant. *)
Ltac pres_tac frame :=
  repeat match goal with
  | |- preserves _ (bind _ _) => apply preserves_bind; [| intro]
  | |- preserves _ (ret _) => apply preserves_ret
  | |- preserves _ (if ?b then _ else _) => destruct b
  | |- preserves _ (match ?x with _ => _ end) => destruct x
  | |- preserves _ _ => solve [apply preserves_keeps; [exact frame | keeps_tac]]
  end.

(** *** Non-negative ledger *)

Definition nonneg_entries {K} (l : list (K * Z)) : Prop := Forall (fun kv => 0 <= snd kv) l.

Definition ledger_ok (s : gen_state) : Prop :=
  nonneg_entries (inventory_levels s)
  /\ Forall (fun sn => nonneg_entries (snap_levels sn)) (inventory_history s).

Lemma ledger_ok_frame s s' : data s' = data s -> ledger_ok s -> ledger_ok s'.
Proof.
  unfold data, ledger_ok. intros H. injection H. intros -> _ -> _ _. auto.
Qed.

Lemma dict_set_nonneg {K} (eqb : K -> K -> bool) k v (d : list (K * Z)) :
  0 <= v -> nonneg_entries d -> nonneg_entries (dict_set eqb k v d).
Proof.
  unfold nonneg_entries. intros Hv. induction d as [| [k' v'] d IH]; simpl; intros Hd.
  - constructor; [exact Hv | constructor].
  - inversion Hd; subst. destruct (eqb k k'); constructor; simpl in *; auto.
Qed.

Lemma dict_del_nonneg {K} (eqb : K -> K -> bool) k (d : list (K * Z)) :
  nonneg_entries d -> nonneg_entries (dict_del eqb k d).
Proof.
  unfold nonneg_entries. induction d as [| [k' v'] d IH]; simpl; intros Hd; [constructor |].
  inversion Hd; subst. destruct (eqb k k'); [assumption | constructor; auto].
Qed.

Lemma update_level_nonneg lv pid wid q :
  nonneg_entries lv -> nonneg_entries (update_level lv pid wid q).
Proof. intros H. apply dict_set_nonneg; [lia | exact H]. Qed.

Lemma snapshot_of_nonneg d lv :
  nonneg_entries lv -> nonneg_entries (snap_levels (snapshot_of d lv)).
Proof.
  unfold snapshot_of; simpl. intros H.
  assert (Hacc : nonneg_entries (@nil (string * Z))) by constructor.
  revert Hacc. generalize (@nil (string * Z)).
  induction lv as [| [[p w] l] lv IH]; intros acc Hacc; simpl; [exact Hacc |].
  inversion H; subst. apply IH; [assumption |]. apply dict_set_nonneg; assumption.
Qed.

Lemma pres_update_inventory pid wid q : preserves ledger_ok (update_inventory pid wid q).
Proof.
  apply preserves_modify. intros s [H1 H2]. split; [apply update_level_nonneg |]; exact H1 || exact H2.
Qed.

Lemma pres_record_snapshot d : preserves ledger_ok (record_inventory_snapshot d).
Proof.
  apply preserves_modify. intros s [H1 H2]. split; simpl; [exact H1 |].
  apply Forall_app; split; [exact H2 |]. constructor; [apply snapshot_of_nonneg, H1 | constructor].
Qed.

Lemma pres_set_history f : preserves ledger_ok (modify (fun s => set_history (f s) s)).
Proof. apply preserves_modify. intros s H. exact H. Qed.

Lemma pres_cleanup d : preserves ledger_ok (cleanup_reorder_history d).
Proof. apply pres_set_history. Qed.

Create HintDb ledger_db.
#[local] Hint Resolve pres_update_inventory pres_record_snapshot pres_set_history pres_cleanup
  : ledger_db.

Ltac ledger_tac :=
  repeat match goal with
  | |- preserves _ (bind _ _) => apply preserves_bind; [| intro]
  | |- preserves _ (ret _) => apply preserves_ret
  | |- preserves _ (if ?b then _ else _) => destruct b
  | |- preserves _ (match ?x with _ => _ end) => destruct x
  | |- preserves _ _ => solve [eauto with ledger_db]
  | |- preserves _ _ => solve [apply preserves_keeps; [exact ledger_ok_frame | keeps_tac]]
  end.

Lemma pres_reorder_one d o pid p wid acc : preserves ledger_ok (reorder_one d o pid p wid acc).
Proof. unfold reorder_one. ledger_tac. Qed.
#[local] Hint Resolve pres_reorder_one : ledger_db.

Lemma pres_reorder_warehouses d o pid p wids acc :
  preserves ledger_ok (reorder_warehouses d o pid p wids acc).
Proof. revert acc; induction wids; intros acc; cbn [reorder_warehouses]; ledger_tac. Qed.
#[local] Hint Resolve pres_reorder_warehouses : ledger_db.

Lemma pres_reorder_products d o i ps acc :
  preserves ledger_ok (reorder_products d o i ps acc).
Proof. revert i acc; induction ps; intros i acc; cbn [reorder_products]; ledger_tac. Qed.
#[local] Hint Resolve pres_reorder_products : ledger_db.

Lemma pres_one_transaction d f i : preserves ledger_ok (one_transaction d f i).
Proof. unfold one_transaction. ledger_tac. Qed.
#[local] Hint Resolve pres_one_transaction : ledger_db.

Lemma pres_transactions_loop d f i n acc :
  preserves ledger_ok (transactions_loop d f i n acc).
Proof. revert i acc; induction n; intros i acc; cbn [transactions_loop]; ledger_tac. Qed.
#[local] Hint Resolve pres_transactions_loop : ledger_db.

Lemma pres_daily d : preserves ledger_ok (generate_daily_transactions d).
Proof.
  unfold generate_daily_transactions, generate_reorder_transactions. ledger_tac.
Qed.
#[local] Hint Resolve pres_daily : ledger_db.

Lemma pres_days_loop n day c acc : preserves ledger_ok (days_loop n day c acc).
Proof. revert day c acc; induction n; intros day c acc; cbn [days_loop]; ledger_tac. Qed.

Lemma pres_generate_all : preserves ledger_ok generate_all_transactions.
Proof.
  unfold generate_all_transactions. ledger_tac. apply pres_days_loop.
Qed.

(** *** Initial inventory *)

Lemma pair_eqb_eq a b : pair_eqb a b = true -> a = b.
Proof.
  destruct a as [a1 a2], b as [b1 b2]. unfold pair_eqb; simpl.
  rewrite andb_true_iff, !Z.eqb_eq. intros [-> ->]. reflexivity.
Qed.

Lemma dict_set_Forall {K V} (eqb : K -> K -> bool) (P : K * V -> Prop) k v d :
  Forall P d -> P (k, v) -> (forall k', eqb k k' = true -> P (k', v)) ->
  Forall P (dict_set eqb k v d).
Proof.
  intros Hd Hk Hk'. induction d as [| [k' v'] d IH]; simpl; [constructor; auto |].
  inversion Hd; subst. destruct (eqb k k') eqn:E; constructor; auto.
Qed.

Lemma skipn_cons_nth {A} n (l : list A) p ps :
  skipn n l = p :: ps -> nth_error l n = Some p /\ (n < List.length l)%nat.
Proof.
  revert l. induction n as [| n IH]; intros [| a l] H; simpl in *; try discriminate.
  - inversion H; subst. split; [reflexivity | lia].
  - destruct (IH l H) as [H1 H2]. split; [exact H1 | lia].
Qed.

Lemma skipn_S_of_cons {A} n (l : list A) p ps :
  skipn n l = p :: ps -> skipn (S n) l = ps.
Proof.
  revert l. induction n as [| n IH]; intros [| a l] H; simpl in *; try discriminate.
  - inversion H; reflexivity.
  - exact (IH l H).
Qed.

(** Every entry [((pid, wid), level)] has a product [pid] whose reorder level
    is at most [level]. *)
Definition init_entry_ok (kv : (Z * Z) * Z) : Prop :=
  exists p, py_index products_data (fst (fst kv) - 1) = Some p /\ reorder_level p <= snd kv.

Lemma init_pair_ok p pid wid acc s lv s' :
  py_index products_data (pid - 1) = Some p ->
  Forall init_entry_ok acc ->
  init_pair (reorder_level p) pid wid acc s = inr (lv, s') ->
  Forall init_entry_ok lv.
Proof.
  intros Hp Hacc H. unfold init_pair in H.
  apply bind_inr in H as (b & s1 & _ & H).
  apply bind_inr in H as (m & s2 & _ & H). inversion H; subst; clear H.
  apply dict_set_Forall; [exact Hacc | |].
  - exists p. split; [exact Hp | simpl; lia].
  - intros k' Hk. apply pair_eqb_eq in Hk. subst k'. exists p. split; [exact Hp | simpl; lia].
Qed.

Lemma init_warehouses_ok p pid wids acc s lv s' :
  py_index products_data (pid - 1) = Some p ->
  Forall init_entry_ok acc ->
  init_warehouses (reorder_level p) pid wids acc s = inr (lv, s') ->
  Forall init_entry_ok lv.
Proof.
  intros Hp. revert acc s. induction wids as [| w ws IH]; intros acc s Hacc H; simpl in H.
  - inversion H; subst; exact Hacc.
  - apply bind_inr in H as (acc1 & s1 & H1 & H2).
    exact (IH acc1 s1 (init_pair_ok p pid w acc s acc1 s1 Hp Hacc H1) H2).
Qed.

Lemma init_products_ok i ps acc s lv s' :
  0 <= i -> skipn (Z.to_nat i) products_data = ps ->
  Forall init_entry_ok acc ->
  init_products i ps acc s = inr (lv, s') ->
  Forall init_entry_ok lv.
Proof.
  revert i acc s. induction ps as [| p ps IH]; intros i acc s Hi Hskip Hacc H;
    cbn [init_products] in H.
  - inversion H; subst; exact Hacc.
  - apply bind_inr in H as (acc1 & s1 & H1 & H2).
    destruct (skipn_cons_nth _ _ _ _ Hskip) as [Hn Hlen].
    assert (Hp : py_index products_data (i + 1 - 1) = Some p).
    { unfold py_index. replace (i + 1 - 1) with i by lia.
      assert (Hlt : i < Z.of_nat (List.length products_data)) by lia.
      apply Z.leb_le in Hi. apply Z.ltb_lt in Hlt. rewrite Hi, Hlt. exact Hn. }
    apply (IH (i + 1) acc1 s1); [lia | | | exact H2].
    + replace (Z.to_nat (i + 1)) with (S (Z.to_nat i)) by lia.
      exact (skipn_S_of_cons _ _ _ _ Hskip).
    + exact (init_warehouses_ok p (i + 1) [1; 2; 3] acc s acc1 s1 Hp Hacc H1).
Qed.

Lemma initialize_inventory_levels_ok s lv s' :
  initialize_inventory_levels s = inr (lv, s') -> Forall init_entry_ok lv.
Proof.
  unfold initialize_inventory_levels. intros H.
  refine (init_products_ok 0 products_data [] s lv s' _ eq_refl (Forall_nil _) H).
  apply Z.le_refl.
Qed.

Lemma reorder_levels_nonneg : Forall (fun p => 0 <= reorder_level p) products_data.
Proof. unfold products_data. repeat constructor; cbn; discriminate. Qed.

Lemma init_entry_nonneg kv : init_entry_ok kv -> 0 <= snd kv.
Proof.
  intros (p & Hp & Hle). unfold py_index in Hp.
  assert (Hin : In p products_data).
  { destruct (_ && _); [| destruct (_ && _); [| discriminate]];
      eapply nth_error_In; exact Hp. }
  pose proof (proj1 (Forall_forall _ _) reorder_levels_nonneg p Hin). simpl in *. lia.
Qed.

Lemma keeps_initialize : keeps initialize_inventory_levels.
Proof. unfold initialize_inventory_levels. apply keeps_init_products. Qed.

Lemma generator_ledger_ok now r np g :
  TransactionGenerator now r np = inr g -> ledger_ok g.
Proof.
  unfold TransactionGenerator. destruct (initialize_inventory_levels _) as [e | [lv s1]] eqn:E;
    intros H; inversion H; subst; clear H.
  pose proof (keeps_initialize _ _ _ E) as Hd. unfold data in Hd; simpl in Hd.
  injection Hd; intros Hh _ _ _ _.
  apply initialize_inventory_levels_ok in E. split; simpl; [| rewrite Hh; constructor].
  unfold nonneg_entries. rewrite Forall_forall in *. intros kv Hkv. apply init_entry_nonneg, E, Hkv.
Qed.

Lemma has_dup_number_split l :
  has_dup_number l = true ->
  exists l1 t1 l2 t2 l3, l = l1 ++ t1 :: l2 ++ t2 :: l3
    /\ transaction_number t1 = transaction_number t2.
Proof.
  induction l as [| t l IH]; simpl; [discriminate |].
  intros H. apply orb_true_iff in H as [H | H].
  - apply existsb_exists in H as (u & Hu & Eu). apply String.eqb_eq in Eu.
    apply in_split in Hu as (l2 & l3 & ->).
    exists [], t, l2, u, l3. split; [reflexivity | exact Eu].
  - destruct (IH H) as (l1 & t1 & l2 & t2 & l3 & -> & E).
    exists (t :: l1), t1, l2, t2, l3. split; [reflexivity | exact E].
Qed.

Lemma has_reorder_pair_split l :
  has_reorder_pair l = true ->
  exists l1 t1 l2 t2 l3, l = l1 ++ t1 :: l2 ++ t2 :: l3
    /\ is_reorder t1 = true /\ is_reorder t2 = true
    /\ product_id t1 = product_id t2 /\ warehouse_id t1 = warehouse_id t2.
Proof.
  induction l as [| t l IH]; simpl; [discriminate |].
  intros H. apply orb_true_iff in H as [H | H].
  - apply andb_true_iff in H as [Ht H].
    apply existsb_exists in H as (u & Hu & Eu).
    apply andb_true_iff in Eu as [Eu Ew]. apply andb_true_iff in Eu as [Eu Ep].
    apply Z.eqb_eq in Ep, Ew. apply in_split in Hu as (l2 & l3 & ->).
    exists [], t, l2, u, l3. auto.
  - destruct (IH H) as (l1 & t1 & l2 & t2 & l3 & -> & E).
    exists (t :: l1), t1, l2, t2, l3. split; [reflexivity | exact E].
Qed.

Lemma prefix_split {A} n (l l1 l2 l3 : list A) t1 t2 :
  firstn n l = l1 ++ t1 :: l2 ++ t2 :: l3 ->
  l = l1 ++ t1 :: l2 ++ t2 :: (l3 ++ skipn n l).
Proof.
  intros Hs. rewrite <- (firstn_skipn n l) at 1. rewrite Hs.
  rewrite <- app_assoc. simpl. rewrite <- app_assoc. reflexivity.
Qed.

(** The run of 2025-06-03 with all-zero draws completes; two of its first
    ten transactions share a number, and two of its first 160 are reorders
    of one pair. *)
Lemma run_2025_ok :
  exists txns g, run day_2025_06_03 zero_stream zero_stream = inr (txns, g)
    /\ has_dup_number (firstn 10 txns) = true
    /\ has_reorder_pair (firstn 160 txns) = true.
Proof.
  assert (H : run_check (run day_2025_06_03 zero_stream zero_stream) = true)
    by (vm_compute; reflexivity).
  destruct (run day_2025_06_03 zero_stream zero_stream) as [e | [txns g]];
    [discriminate | apply andb_true_iff in H; exists txns, g; split; [reflexivity | exact H]].
Qed.

(** ** Claims *)

(** C1. Non-negativity: in a completed generation run the ledger holds no
    negative level and every recorded daily snapshot holds no negative
    level.  Every step of the run preserves [ledger_ok] (lemmas
    [pres_*]): [update_inventory] stores [max(0, current + delta)], the
    initial levels are at least the (non-negative) reorder levels. *)
Theorem ledger_never_negative now r np txns g :
  run now r np = inr (txns, g) ->
  nonneg_entries (inventory_levels g)
  /\ Forall (fun sn => nonneg_entries (snap_levels sn)) (inventory_history g).
Proof.
  unfold run. destruct (TransactionGenerator now r np) as [e | g0] eqn:E; [discriminate |].
  intros H. exact (pres_generate_all g0 txns g (generator_ledger_ok _ _ _ _ E) H).
Qed.

Lemma ledger_never_negative_witness :
  exists txns g, run day_2025_06_03 zero_stream zero_stream = inr (txns, g)
    /\ nonneg_entries (inventory_levels g)
    /\ Forall (fun sn => nonneg_entries (snap_levels sn)) (inventory_history g).
Proof.
  destruct run_2025_ok as (txns & g & E & _ & _). exists txns, g. split; [exact E |].
  exact (ledger_never_negative _ _ _ _ _ E).
Defined.

(** ** Sale quantities *)

Lemma keeps_levels {A} (m : M A) s a s' :
  keeps m -> m s = inr (a, s') -> inventory_levels s' = inventory_levels s.
Proof. intros Hk H. pose proof (Hk s a s' H) as Hd. unfold data in Hd. congruence. Qed.

Lemma randint_range a b s x s' : randint a b s = inr (x, s') -> a <= x <= b.
Proof.
  unfold randint. destruct (b <? a) eqn:E; [discriminate |]. apply Z.ltb_ge in E.
  unfold randbelow, bind, next_word, ret. intros H. inversion H; subst.
  pose proof (Z.mod_pos_bound (rnd s (rnd_pos s)) (b - a + 1)). lia.
Qed.

Lemma generate_quantity_sale c pid wid s q s' :
  generate_quantity Sale c pid wid s = inr (q, s') ->
  q = 0 \/ 1 <= q <= get_current_inventory (inventory_levels s) pid wid.
Proof.
  unfold generate_quantity; cbn [quantity_range].
  intros H. apply bind_inr in H as (cur & s1 & H1 & H).
  cbv [gets] in H1. injection H1 as <- <-.
  apply bind_inr in H as (p & s2 & H2 & H).
  destruct (py_index products_data (pid - 1)) as [p0 |]; cbv [lift_opt ret raise] in H2;
    [injection H2 as <- <- | discriminate].
  set (cur := get_current_inventory (inventory_levels s) pid wid) in *.
  destruct (Z.min cur 18 <=? 0) eqn:E0.
  { inversion H; subst. left; reflexivity. }
  apply Z.leb_gt in E0. right.
  set (ms := if cur <? reorder_level p0 then _ else _) in H.
  assert (Hms : 1 <= ms <= cur).
  { subst ms. destruct (cur <? reorder_level p0); [| destruct (qltb _ _)]; lia. }
  destruct (ms <=? 3).
  - apply randint_range in H. lia.
  - apply bind_inr in H as (u & s3 & _ & H).
    destruct (qltb u (8 # 10)); apply randint_range in H; lia.
Qed.

Lemma one_transaction_some d f i s t s' :
  one_transaction d f i s = inr (Some t, s') ->
  exists c s4 q s5,
    inventory_levels s4 = inventory_levels s
    /\ generate_quantity (transaction_type t) c (product_id t) (warehouse_id t) s4 = inr (q, s5)
    /\ q <> 0
    /\ quantity_change t = (if ttype_eqb (transaction_type t) Sale
                              || ttype_eqb (transaction_type t) Adjustment
                            then - Z.abs q else q)
    /\ is_reorder t = false
    /\ inventory_levels s' = update_level (inventory_levels s) (product_id t) (warehouse_id t)
                               (quantity_change t)
    /\ reorder_history s' = reorder_history s.
Proof.
  unfold one_transaction. intros H.
  apply bind_inr in H as (tt0 & s1 & H1 & H).
  apply bind_inr in H as (c & s2 & H2 & H).
  apply bind_inr in H as (pid & s3 & H3 & H).
  apply bind_inr in H as (wid & s4 & H4 & H).
  apply bind_inr in H as (q & s5 & H5 & H).
  pose proof (keeps_choices1 _ _ _ _ _ H1) as D1.
  pose proof (keeps_choices1 _ _ _ _ _ H2) as D2.
  pose proof (keeps_select_product _ _ _ _ H3) as D3.
  pose proof (keeps_select_warehouse _ _ _ _ H4) as D4.
  pose proof (keeps_generate_quantity _ _ _ _ _ _ _ H5) as D5.
  destruct (q =? 0) eqn:Eq; [discriminate |]. apply Z.eqb_neq in Eq.
  apply bind_inr in H as (u & s6 & H6 & H). inversion H6; subst; clear H6.
  apply bind_inr in H as (st & s7 & H7 & H).
  apply bind_inr in H as (nt & s8 & H8 & H).
  apply bind_inr in H as (ts & s9 & H9 & H).
  apply bind_inr in H as (num & s10 & H10 & H).
  pose proof (keeps_status _ _ _ _ _ H7) as D7.
  pose proof (keeps_generate_note _ _ _ _ _ _ H8) as D8.
  pose proof (keeps_timestamp _ _ _ _ H9) as D9.
  pose proof (keeps_number _ _ _ _ _ _ H10) as D10.
  inversion H; subst; clear H. unfold data in *; simpl in *.
  exists c, s4, q, s5. repeat split; auto; congruence.
Qed.

(** [one_transaction] emits no reorder and does not touch the reorder history. *)
Lemma one_transaction_history d f i s o s' :
  one_transaction d f i s = inr (o, s') ->
  reorder_history s' = reorder_history s
  /\ match o with Some t => is_reorder t = false | None => True end.
Proof.
  destruct o as [t |].
  - intros H. destruct (one_transaction_some _ _ _ _ _ _ H) as (_ & _ & _ & _ & _ & _ & _ & _ & Hr & _ & Hh).
    auto.
  - unfold one_transaction. intros H.
    apply bind_inr in H as (tt0 & s1 & H1 & H).
    apply bind_inr in H as (c & s2 & H2 & H).
    apply bind_inr in H as (pid & s3 & H3 & H).
    apply bind_inr in H as (wid & s4 & H4 & H).
    apply bind_inr in H as (q & s5 & H5 & H).
    pose proof (keeps_choices1 _ _ _ _ _ H1) as D1.
    pose proof (keeps_choices1 _ _ _ _ _ H2) as D2.
    pose proof (keeps_select_product _ _ _ _ H3) as D3.
    pose proof (keeps_select_warehouse _ _ _ _ H4) as D4.
    pose proof (keeps_generate_quantity _ _ _ _ _ _ _ H5) as D5.
    destruct (q =? 0).
    + inversion H; subst. unfold data in *. split; [congruence | exact I].
    + repeat (apply bind_inr in H as (? & ? & ? & H)). discriminate.
Qed.


(** C2: every emitted sale removes at least one and at most as many units as
    the ledger holds for its (product, warehouse) pair just before the sale is
    applied; in particular a pair at level 0 emits no sale. *)
Theorem sale_capped_by_level d f i s t s' :
  one_transaction d f i s = inr (Some t, s') ->
  transaction_type t = Sale ->
  0 < - quantity_change t
  <= get_current_inventory (inventory_levels s) (product_id t) (warehouse_id t).
Proof.
  intros H Ht.
  destruct (one_transaction_some _ _ _ _ _ _ H)
    as (c & s4 & q & s5 & Hl & Hq & Hnz & Hc & _ & _ & _).
  rewrite Ht in Hq, Hc. cbn in Hc.
  destruct (generate_quantity_sale _ _ _ _ _ _ Hq) as [E | E]; [contradiction |].
  rewrite Hl in E. rewrite Hc, Z.opp_involutive, Z.abs_eq by lia. lia.
Qed.

Lemma sale_capped_by_level_witness :
  exists t s',
    one_transaction day_2025_06_03 (adjust_frequencies 1) 0
      (one_pair_state 18 [4503599627370496; 0; 0; 0; 0; 0]) = inr (Some t, s')
    /\ transaction_type t = Sale
    /\ 0 < - quantity_change t
       <= get_current_inventory (inventory_levels (one_pair_state 18 [4503599627370496; 0; 0; 0; 0; 0]))
            (product_id t) (warehouse_id t).
Proof.
  do 2 eexists. split; [vm_compute; reflexivity |]. split; [reflexivity |].
  eapply (sale_capped_by_level day_2025_06_03 (adjust_frequencies 1) 0).
  - vm_compute. reflexivity.
  - reflexivity.
Defined.

(** C7: the daily loop stores every adjustment as [-abs q], so no emitted
    adjustment is positive; and since the negation happens after
    [generate_quantity]'s clamp, a positive draw of 5 on a pair holding 3
    units is emitted as [-5], more than the pair holds (the ledger clamp then
    sets the level to 0). *)
Theorem adjustment_sign_and_cap :
  (forall d f i s t s',
      one_transaction d f i s = inr (Some t, s') ->
      transaction_type t = Adjustment -> quantity_change t < 0)
  /\ exists t s',
      one_transaction day_2025_06_03 (adjust_frequencies 1) 0
        (one_pair_state 3 [9007199254740991; 0; 0; 0; 15]) = inr (Some t, s')
      /\ transaction_type t = Adjustment
      /\ quantity_change t = -5
      /\ get_current_inventory
           (inventory_levels (one_pair_state 3 [9007199254740991; 0; 0; 0; 15]))
           (product_id t) (warehouse_id t) = 3
      /\ get_current_inventory (inventory_levels s') (product_id t) (warehouse_id t) = 0.
Proof.
  split.
  - intros d f i s t s' H Ht.
    destruct (one_transaction_some _ _ _ _ _ _ H)
      as (c & s4 & q & s5 & _ & _ & Hnz & Hc & _ & _ & _).
    rewrite Ht in Hc. cbn in Hc. lia.
  - do 2 eexists. split; [vm_compute; reflexivity |].
    repeat split; vm_compute; reflexivity.
Qed.

(** C8: with [datetime.now()] on 2026-10-19 the simulated range starts on
    2023-10-20 and contains 2026-01-01, whose year is missing from
    [growth_trends]: the day's multiplier lookup raises [KeyError] whatever
    the generator state, and a full run (here with all-zero draws) fails
    with it. *)
Theorem growth_lookup_fails_in_range :
  day_2026_10_19 - 3 * 365 <= day_2026_01_01 < day_2026_10_19
  /\ (forall s, generate_daily_transactions day_2026_01_01 s = inl KeyError)
  /\ run day_2026_10_19 zero_stream zero_stream = inl KeyError.
Proof.
  split; [vm_compute; split; [intros H; discriminate H | reflexivity] |].
  split.
  - intros s. vm_compute. reflexivity.
  - vm_compute. reflexivity.
Qed.

(** ** Status weights by age *)


Lemma delivered_mass_level t a :
  1 < a -> (delivered_mass t a == delivered_level a)%Q.
Proof.
  intros Ha. unfold delivered_mass, adjusted_weights, delivered_level.
  destruct (Z.ltb_spec 30 a); [destruct t; reflexivity |].
  destruct (Z.ltb_spec 14 a); [destruct t; reflexivity |].
  destruct (Z.ltb_spec 7 a); [destruct t; reflexivity |].
  destruct (Z.ltb_spec 3 a); [destruct t; reflexivity |].
  destruct (Z.ltb_spec 1 a); [destruct t; reflexivity | lia].
Qed.

Lemma delivered_level_mono a b :
  a <= b -> (delivered_level a <= delivered_level b)%Q.
Proof.
  intros Hab. unfold delivered_level.
  destruct (Z.ltb_spec 30 a), (Z.ltb_spec 30 b); try lia;
  destruct (Z.ltb_spec 14 a), (Z.ltb_spec 14 b); try lia;
  destruct (Z.ltb_spec 7 a), (Z.ltb_spec 7 b); try lia;
  destruct (Z.ltb_spec 3 a), (Z.ltb_spec 3 b); try lia;
  apply Qle_bool_imp_le; reflexivity.
Qed.

Lemma qltb_spec x y : qltb x y = true <-> (x < y)%Q.
Proof. unfold qltb, Qlt. apply Z.ltb_lt. Qed.

Lemma last_cumulate acc x w d :
  last (cumulate acc (x :: w)) d = fold_left Qplus (x :: w) acc.
Proof.
  revert acc x. induction w as [| y w IH]; intros acc x; [reflexivity |].
  change (last (cumulate (acc + x)%Q (y :: w)) d = fold_left Qplus (y :: w) (acc + x)%Q).
  apply IH.
Qed.

Lemma bisect_idx_bounds x a i hi :
  (i <= hi)%nat -> (i <= bisect_idx x a i hi <= hi)%nat.
Proof.
  revert i. induction a as [| c a IH]; intros i Hi; simpl; [lia |].
  destruct (Nat.leb_spec hi i); [lia |].
  destruct (qltb x c); [lia |].
  specialize (IH (S i)). lia.
Qed.

Lemma bisect_idx_zero x c a hi :
  (1 <= hi)%nat -> (bisect_idx x (c :: a) 0 hi = 0%nat <-> qltb x c = true).
Proof.
  intros Hhi. simpl. destruct (Nat.leb_spec hi 0); [lia |].
  destruct (qltb x c); [tauto |].
  pose proof (bisect_idx_bounds x a 1 hi ltac:(lia)). split; [lia | discriminate].
Qed.

(** [generate_time_aware_status] picks "delivered" exactly when its
    [random()] draw falls below [delivered_mass]: the latter is the
    probability of "delivered". *)
Lemma time_aware_status_delivered t date s st s' :
  generate_time_aware_status t date s = inr (st, s') ->
  st = Delivered
  <-> (Qmake (rnd s (rnd_pos s) mod two53) 9007199254740992 < delivered_mass t (end_date s - date))%Q.
Proof.
  unfold generate_time_aware_status. intros H.
  apply bind_inr in H as (a & s1 & H1 & H). cbv [gets] in H1. injection H1 as <- <-.
  set (a := end_date s - date) in *.
  assert (Hw : exists w0 w', adjusted_weights t a = w0 :: w'
                 /\ (0 < w0)%Q /\ (0 < fold_left Qplus (w0 :: w') 0)%Q
                 /\ List.length (w0 :: w') = List.length (status_options t)).
  { unfold adjusted_weights.
    destruct (30 <? a); [| destruct (14 <? a); [| destruct (7 <? a);
      [| destruct (3 <? a); [| destruct (1 <? a)]]]];
      destruct t; (do 2 eexists; split; [reflexivity |]);
      (split; [reflexivity | split; [reflexivity | reflexivity]]). }
  destruct Hw as (w0 & w' & Ew & Hw0 & Htot & Hlen).
  unfold delivered_mass. rewrite Ew in *. cbn [hd].
  assert (Hpop : exists rest, status_options t = Delivered :: rest
                   /\ (1 <= List.length rest)%nat /\ ~ In Delivered rest).
  { destruct t; eexists; (split; [reflexivity | split; [simpl; lia | simpl; intuition discriminate]]). }
  destruct Hpop as (rest & Ep & Hr & Hnin).
  unfold choices1 in H. rewrite Ep in H. rewrite Ep in Hlen.
  assert (Hc : List.length (cumulate 0 (w0 :: w')) = List.length (Delivered :: rest)).
  { rewrite <- Hlen. clear. generalize 0%Q. induction w' as [| y w IH] in w0 |- *; intros q;
      [reflexivity | simpl; f_equal; apply (IH y)]. }
  rewrite Hc, Nat.eqb_refl in H. unfold negb in H.
  rewrite last_cumulate in H.
  destruct (qltb 0 (fold_left Qplus (w0 :: w') 0%Q)) eqn:Et;
    [| apply qltb_spec in Htot; congruence].
  unfold negb in H.
  apply bind_inr in H as (u & s2 & H2 & H).
  unfold random_, bind, next_word, ret in H2. injection H2 as <- <-.
  remember (cumulate 0 (w0 :: w')) as cum eqn:Ecum in H.
  remember (Delivered :: rest) as pop eqn:Epop in H.
  unfold ret in H. injection H as <- <-. subst cum pop.
  set (u := Qmake (rnd s (rnd_pos s) mod two53) 9007199254740992).
  set (tot := fold_left Qplus (w0 :: w') 0%Q) in *.
  change (fold_left Qplus w' (0 + w0)%Q) with tot.
  pose proof (bisect_idx_bounds (u * tot) (cumulate 0 (w0 :: w')) 0 (List.length (Delivered :: rest) - 1)
                ltac:(lia)) as Hb.
  pose proof (bisect_idx_zero (u * tot) (0 + w0)%Q (cumulate (0 + w0)%Q w')
                (List.length (Delivered :: rest) - 1) ltac:(simpl; lia)) as Hz.
  change ((0 + w0)%Q :: cumulate (0 + w0)%Q w') with (cumulate 0%Q (w0 :: w')) in Hz.
  destruct (bisect_idx (u * tot) (cumulate 0 (w0 :: w')) 0
              (List.length (Delivered :: rest) - 1)) as [| k] eqn:Ek.
  - assert (Hlt : (u * tot < 0 + w0)%Q) by (apply qltb_spec, Hz; reflexivity).
    split; [intros _ | intros _; reflexivity].
    apply Qlt_shift_div_l; [exact Htot |]. rewrite Qplus_0_l in Hlt. exact Hlt.
  - split.
    + intros E. exfalso. simpl in E. apply Hnin. rewrite <- E.
      apply nth_In. simpl in Hb. lia.
    + intros Hlt. exfalso.
      assert (qltb (u * tot) (0 + w0) = true).
      { apply qltb_spec. rewrite Qplus_0_l.
        apply (Qmult_lt_r _ _ tot) in Hlt; [| exact Htot].
        unfold Qdiv in Hlt. rewrite <- Qmult_assoc, (Qmult_comm (/ tot)), Qmult_inv_r,
          Qmult_1_r in Hlt by (intros E; rewrite E in Htot; discriminate).
        exact Hlt. }
      apply Hz in H. discriminate.
Qed.

(** C6 (as the code has it): from the 1-3 day bucket on, the probability of
    "delivered" never decreases with age. *)
Theorem delivered_mass_monotone t a b :
  1 < a -> a <= b -> (delivered_mass t a <= delivered_mass t b)%Q.
Proof.
  intros Ha Hab.
  rewrite (delivered_mass_level t a Ha), (delivered_mass_level t b ltac:(lia)).
  apply delivered_level_mono; exact Hab.
Qed.

Lemma delivered_mass_monotone_witness :
  1 < 2 /\ 2 <= 40 /\ (delivered_mass Inbound 2 <= delivered_mass Inbound 40)%Q.
Proof.
  split; [lia |]. split; [lia |].
  apply (delivered_mass_monotone Inbound 2 40); lia.
Defined.

(** C6 counterexample: for each transaction type, a transaction two days
    old is less likely to be "delivered" than one a day old, because ages of
    at most one day keep the type's base weights. *)
Lemma delivered_mass_drops_after_one_day :
  (delivered_mass Inbound 2 < delivered_mass Inbound 1)%Q
  /\ (delivered_mass Sale 2 < delivered_mass Sale 1)%Q
  /\ (delivered_mass Adjustment 2 < delivered_mass Adjustment 1)%Q.
Proof.
  repeat split; apply Qnot_le_lt; intros H; apply Qle_bool_iff in H;
    vm_compute in H; discriminate H.
Qed.

(** ** Initial ledger *)

Lemma dict_set_fresh {K V} (eqb : K -> K -> bool) k (v : V) d :
  (forall k', In k' (map fst d) -> eqb k k' = false) ->
  dict_set eqb k v d = d ++ [(k, v)].
Proof.
  induction d as [| [k' v'] d IH]; intros H; [reflexivity |].
  simpl. rewrite (H k') by (left; reflexivity).
  f_equal. apply IH. intros k'' Hin. apply H. right. exact Hin.
Qed.

Lemma init_pair_keys rl pid wid acc s lv s' :
  (forall k, In k (map fst acc) -> fst k < pid) ->
  init_pair rl pid wid acc s = inr (lv, s') ->
  map fst lv = map fst acc ++ [(pid, wid)].
Proof.
  intros Hfresh H. unfold init_pair in H.
  apply bind_inr in H as (b & s1 & _ & H).
  apply bind_inr in H as (m & s2 & _ & H). inversion H; subst; clear H.
  unfold set_key. rewrite dict_set_fresh.
  - rewrite map_app. reflexivity.
  - intros k' Hin. specialize (Hfresh k' Hin).
    unfold pair_eqb. simpl. destruct (Z.eqb_spec pid (fst k')); [lia | reflexivity].
Qed.

Lemma init_warehouses_keys rl pid acc s lv s' :
  (forall k, In k (map fst acc) -> fst k < pid) ->
  init_warehouses rl pid [1; 2; 3] acc s = inr (lv, s') ->
  map fst lv = map fst acc ++ [(pid, 1); (pid, 2); (pid, 3)].
Proof.
  intros Hf H. cbn [init_warehouses] in H.
  apply bind_inr in H as (a1 & s1 & H1 & H).
  apply bind_inr in H as (a2 & s2 & H2 & H).
  apply bind_inr in H as (a3 & s3 & H3 & H). inversion H; subst; clear H.
  pose proof (init_pair_keys _ _ _ _ _ _ _ Hf H1) as E1.
  assert (Hf2 : forall k, In k (map fst a1) -> fst k < pid \/ k = (pid, 1)).
  { intros k. rewrite E1, in_app_iff. intros [Hk | [Hk | []]]; [left; auto | right; auto]. }
  assert (Hf1' : forall k, In k (map fst a1) -> k <> (pid, 2)).
  { intros k Hk Ek. destruct (Hf2 k Hk) as [Hl | Hl]; subst; simpl in *; [lia | discriminate]. }
  (* the later pairs share [pid]: freshness holds on the warehouse id *)
  assert (Fresh : forall wid a s0 a' s0',
             (forall k, In k (map fst a) -> k <> (pid, wid)) ->
             init_pair rl pid wid a s0 = inr (a', s0') ->
             map fst a' = map fst a ++ [(pid, wid)]).
  { intros wid a s0 a' s0' Hk Hp. unfold init_pair in Hp.
    apply bind_inr in Hp as (b & t1 & _ & Hp).
    apply bind_inr in Hp as (m & t2 & _ & Hp). inversion Hp; subst; clear Hp.
    unfold set_key. rewrite dict_set_fresh.
    - rewrite map_app. reflexivity.
    - intros k' Hin. destruct (pair_eqb (pid, wid) k') eqn:E; [| reflexivity].
      apply pair_eqb_eq in E. exfalso. exact (Hk k' Hin (eq_sym E)). }
  pose proof (Fresh 2 a1 s1 a2 s2 Hf1' H2) as E2.
  assert (Hf3 : forall k, In k (map fst a2) -> k <> (pid, 3)).
  { intros k. rewrite E2, E1, !in_app_iff. intros [[Hk | [Hk | []]] | [Hk | []]] Ek; subst;
      [specialize (Hf _ Hk); simpl in Hf; lia | discriminate | discriminate]. }
  rewrite (Fresh 3 a2 s2 lv s' Hf3 H3), E2, E1, <- !app_assoc. reflexivity.
Qed.


Lemma init_products_keys i ps acc s lv s' :
  (forall k, In k (map fst acc) -> fst k <= i) ->
  init_products i ps acc s = inr (lv, s') ->
  map fst lv = map fst acc ++ pairs_from i (List.length ps).
Proof.
  revert i acc s. induction ps as [| p ps IH]; intros i acc s Hf H; cbn [init_products] in H.
  - inversion H; subst. rewrite app_nil_r. reflexivity.
  - apply bind_inr in H as (a1 & s1 & H1 & H2).
    assert (Hf' : forall k, In k (map fst acc) -> fst k < i + 1) by (intros k Hk; specialize (Hf k Hk); lia).
    pose proof (init_warehouses_keys _ _ _ _ _ _ Hf' H1) as E1.
    assert (Hf1 : forall k, In k (map fst a1) -> fst k <= i + 1).
    { intros k. rewrite E1, in_app_iff. intros [Hk | Hk]; [specialize (Hf k Hk); lia |].
      simpl in Hk. intuition (subst; simpl; lia). }
    rewrite (IH (i + 1) a1 s1 Hf1 H2), E1, <- app_assoc. f_equal.
    unfold pairs_from. cbn [List.length seq map flat_map]. rewrite Z.add_0_r.
    cbn [app]. f_equal. f_equal. f_equal. f_equal.
    rewrite <- seq_shift, map_map. apply map_ext. intros m. lia.
Qed.

(** No pair starts below its product's reorder level, whatever the draws. *)
Lemma TransactionGenerator_levels_ok now r np g :
  TransactionGenerator now r np = inr g -> Forall init_entry_ok (inventory_levels g).
Proof.
  unfold TransactionGenerator. destruct (initialize_inventory_levels _) as [e | [lv s1]] eqn:E;
    intros H; inversion H; subst; clear H.
  exact (initialize_inventory_levels_ok _ _ _ E).
Qed.

Lemma initialize_keys s lv s' :
  initialize_inventory_levels s = inr (lv, s') -> map fst lv = all_pairs.
Proof.
  unfold initialize_inventory_levels. intros E.
  rewrite (init_products_keys 0 products_data [] _ _ _ ltac:(intros k []) E).
  vm_compute. reflexivity.
Qed.

Lemma TransactionGenerator_keys now r np g :
  TransactionGenerator now r np = inr g -> map fst (inventory_levels g) = all_pairs.
Proof.
  unfold TransactionGenerator. destruct (initialize_inventory_levels _) as [e | [lv s1]] eqn:E;
    intros H; inversion H; subst; clear H.
  exact (initialize_keys _ _ _ E).
Qed.

(** C10 (as the code has it): the initial ledger holds exactly the 123
    (product, warehouse) pairs of the catalog, and each starts at or above
    its product's reorder level, because the drawn stock is raised to
    [reorder_level] by [max]. *)
Theorem initial_stock_at_least_reorder_level now r np g :
  TransactionGenerator now r np = inr g ->
  map fst (inventory_levels g) = all_pairs
  /\ forall pid wid v, In ((pid, wid), v) (inventory_levels g) ->
       exists p, py_index products_data (pid - 1) = Some p /\ reorder_level p <= v.
Proof.
  intros H. split; [exact (TransactionGenerator_keys _ _ _ _ H) |].
  intros pid wid v Hin.
  exact (proj1 (Forall_forall _ _) (TransactionGenerator_levels_ok _ _ _ _ H) _ Hin).
Qed.

Lemma initial_stock_at_least_reorder_level_witness :
  exists g, TransactionGenerator day_2025_06_03 zero_stream zero_stream = inr g
  /\ map fst (inventory_levels g) = all_pairs
  /\ forall pid wid v, In ((pid, wid), v) (inventory_levels g) ->
       exists p, py_index products_data (pid - 1) = Some p /\ reorder_level p <= v.
Proof.
  eexists. split; [vm_compute; reflexivity |].
  eapply (initial_stock_at_least_reorder_level day_2025_06_03 zero_stream zero_stream).
  vm_compute. reflexivity.
Defined.

Lemma levels_not_critical now r np g pid wid v p :
  TransactionGenerator now r np = inr g ->
  In ((pid, wid), v) (inventory_levels g) ->
  py_index products_data (pid - 1) = Some p ->
  ~ v < reorder_level p.
Proof.
  intros H Hin Hp.
  destruct (proj1 (Forall_forall _ _) (TransactionGenerator_levels_ok _ _ _ _ H) _ Hin)
    as (p' & Hp' & Hle).
  simpl in Hp'. rewrite Hp in Hp'. injection Hp' as <-. simpl in Hle. lia.
Qed.

(** C10 counterexample: the generator built on 2025-06-03 with all-zero
    draws starts no pair "critical" (strictly below its product's reorder
    level); by [levels_not_critical] no run of the constructor does. *)
Lemma no_pair_starts_critical :
  exists g, TransactionGenerator day_2025_06_03 zero_stream zero_stream = inr g
    /\ forall pid wid v p, In ((pid, wid), v) (inventory_levels g) ->
         py_index products_data (pid - 1) = Some p -> ~ v < reorder_level p.
Proof.
  assert (H : match TransactionGenerator day_2025_06_03 zero_stream zero_stream with
              | inr _ => true | inl _ => false end = true) by (vm_compute; reflexivity).
  destruct (TransactionGenerator day_2025_06_03 zero_stream zero_stream) as [e | g] eqn:E;
    [discriminate |].
  exists g. split; [reflexivity |]. intros pid wid v p. exact (levels_not_critical _ _ _ _ _ _ _ _ E).
Qed.

(** ** Transaction numbers *)

Lemma choices_k_shape {A} (pop : list A) d k s l s' :
  choices_k pop d k s = inr (l, s') ->
  List.length l = k /\ Forall (fun c => In c pop \/ c = d) l.
Proof.
  revert s l s'. induction k as [| k IH]; intros s l s' H; cbn [choices_k] in H.
  - cbv [ret] in H. injection H as <- _. split; [reflexivity | constructor].
  - apply bind_inr in H as (u & s1 & _ & H).
    apply bind_inr in H as (rest & s2 & H2 & H).
    unfold ret in H. injection H as <- _.
    destruct (IH _ _ _ H2) as [Hl Hf]. split; [simpl; lia |].
    constructor; [| exact Hf].
    match goal with |- context [nth ?i pop d] => destruct (nth_in_or_default i pop d); auto end.
Qed.

(** C5: the daily loop passes its index [i] to [generate_transaction_number],
    which ignores it, so an iteration does not depend on its index; and two
    iterations of one day whose five suffix draws fall on the same
    characters (here draws 0.505, 0.912, 0.038, 0.271, 0.459 and 0.510,
    0.915, 0.040, 0.275, 0.460) emit two different inbound transactions with
    the same number INB-250603-S6BJQ. *)
Theorem duplicate_transaction_numbers :
  (forall d f i j s, one_transaction d f i s = one_transaction d f j s)
  /\ exists t1 t2 s',
      transactions_loop day_2025_06_03 (adjust_frequencies 1) 0 2 []
        (full_ledger_state 40 collision_draws) = inr ([t1; t2], s')
      /\ transaction_number t1 = transaction_number t2
      /\ transaction_number t1 = "INB-250603-S6BJQ"%string
      /\ (product_id t1, warehouse_id t1) <> (product_id t2, warehouse_id t2).
Proof.
  split.
  - intros d f i j s. reflexivity.
  - do 3 eexists. split; [vm_compute; reflexivity |].
    split; [reflexivity | split; [reflexivity | discriminate]].
Qed.

(** ** Daily snapshots *)

Lemma pres_apply P {A} (m : M A) s a s' : preserves P m -> P s -> m s = inr (a, s') -> P s'.
Proof. intros Hm HP H. exact (Hm s a s' HP H). Qed.

Definition hist_is (h : list snapshot) (s : gen_state) : Prop := inventory_history s = h.

Lemma hist_frame h s s' : data s' = data s -> hist_is h s -> hist_is h s'.
Proof. unfold data, hist_is. intros H. injection H. intros -> _ _ _ _. auto. Qed.

Lemma hist_update_inventory h pid wid q : preserves (hist_is h) (update_inventory pid wid q).
Proof. apply preserves_modify. intros s H. exact H. Qed.

Lemma hist_set_history h f : preserves (hist_is h) (modify (fun s => set_history (f s) s)).
Proof. apply preserves_modify. intros s H. exact H. Qed.

Create HintDb hist_db.
#[local] Hint Resolve hist_update_inventory hist_set_history : hist_db.

Ltac hist_tac :=
  repeat match goal with
  | |- preserves _ (bind _ _) => apply preserves_bind; [| intro]
  | |- preserves _ (ret _) => apply preserves_ret
  | |- preserves _ (if ?b then _ else _) => destruct b
  | |- preserves _ (match ?x with _ => _ end) => destruct x
  | |- preserves _ _ => solve [eauto with hist_db]
  | |- preserves _ _ => solve [apply preserves_keeps; [exact (hist_frame _) | keeps_tac]]
  end.

Lemma hist_reorder_one h d o pid p wid acc : preserves (hist_is h) (reorder_one d o pid p wid acc).
Proof. unfold reorder_one. hist_tac. Qed.
#[local] Hint Resolve hist_reorder_one : hist_db.

Lemma hist_reorder_warehouses h d o pid p wids acc :
  preserves (hist_is h) (reorder_warehouses d o pid p wids acc).
Proof. revert acc; induction wids; intros acc; cbn [reorder_warehouses]; hist_tac. Qed.
#[local] Hint Resolve hist_reorder_warehouses : hist_db.

Lemma hist_reorder_products h d o i ps acc :
  preserves (hist_is h) (reorder_products d o i ps acc).
Proof. revert i acc; induction ps; intros i acc; cbn [reorder_products]; hist_tac. Qed.
#[local] Hint Resolve hist_reorder_products : hist_db.

Lemma hist_one_transaction h d f i : preserves (hist_is h) (one_transaction d f i).
Proof. unfold one_transaction. hist_tac. Qed.
#[local] Hint Resolve hist_one_transaction : hist_db.

Lemma hist_transactions_loop h d f i n acc :
  preserves (hist_is h) (transactions_loop d f i n acc).
Proof. revert i acc; induction n; intros i acc; cbn [transactions_loop]; hist_tac. Qed.
#[local] Hint Resolve hist_transactions_loop : hist_db.

Ltac hist_step E Hi :=
  refine (pres_apply _ _ _ _ _ _ E Hi);
  unfold get_seasonal_multiplier, get_growth_multiplier, get_dow_multiplier,
    generate_reorder_transactions; hist_tac.

(** A day appends exactly one snapshot, of the ledger as the day ends. *)
Lemma daily_history d s l s' :
  generate_daily_transactions d s = inr (l, s') ->
  inventory_history s' = inventory_history s ++ [snapshot_of d (inventory_levels s')].
Proof.
  unfold generate_daily_transactions. intros H.
  assert (E0 : hist_is (inventory_history s) s) by reflexivity.
  apply bind_inr in H as (a1 & s1 & H1 & H).
  assert (E1 : hist_is (inventory_history s) s1) by hist_step E0 H1.
  apply bind_inr in H as (a2 & s2 & H2 & H).
  assert (E2 : hist_is (inventory_history s) s2) by hist_step E1 H2.
  apply bind_inr in H as (a3 & s3 & H3 & H).
  assert (E3 : hist_is (inventory_history s) s3) by hist_step E2 H3.
  apply bind_inr in H as (a4 & s4 & H4 & H).
  assert (E4 : hist_is (inventory_history s) s4) by hist_step E3 H4.
  apply bind_inr in H as (a5 & s5 & H5 & H).
  assert (E5 : hist_is (inventory_history s) s5) by hist_step E4 H5.
  apply bind_inr in H as (a6 & s6 & H6 & H).
  assert (E6 : hist_is (inventory_history s) s6) by hist_step E5 H6.
  apply bind_inr in H as (a7 & s7 & H7 & H).
  assert (E7 : hist_is (inventory_history s) s7) by hist_step E6 H7.
  apply bind_inr in H as (u & s8 & H8 & H).
  unfold record_inventory_snapshot, modify in H8. injection H8 as _ <-.
  unfold ret in H. injection H as _ <-.
  unfold hist_is in E7. simpl. rewrite E7. reflexivity.
Qed.

Lemma cleanup_keeps_ledger d s s' :
  cleanup_reorder_history d s = inr (tt, s') ->
  inventory_history s' = inventory_history s /\ inventory_levels s' = inventory_levels s.
Proof.
  unfold cleanup_reorder_history, modify. intros H. injection H as <-. split; reflexivity.
Qed.

Lemma days_loop_S n day c acc s r s' :
  days_loop (S n) day c acc s = inr (r, s') ->
  exists daily s1 s2,
    generate_daily_transactions c s = inr (daily, s1)
    /\ (if day mod 30 =? 0 then cleanup_reorder_history c else ret tt) s1 = inr (tt, s2)
    /\ days_loop n (day + 1) (c + 1) (acc ++ daily) s2 = inr (r, s').
Proof.
  cbn [days_loop]. intros H.
  apply bind_inr in H as (daily & s1 & H1 & H).
  apply bind_inr in H as ([] & s2 & H2 & H).
  exists daily, s1, s2. auto.
Qed.

Lemma days_loop_S_intro n day c acc s daily s1 s2 :
  generate_daily_transactions c s = inr (daily, s1) ->
  (if day mod 30 =? 0 then cleanup_reorder_history c else ret tt) s1 = inr (tt, s2) ->
  days_loop (S n) day c acc s = days_loop n (day + 1) (c + 1) (acc ++ daily) s2.
Proof.
  intros H1 H2. cbn [days_loop]. unfold bind at 1. rewrite H1.
  unfold bind at 1. rewrite H2. reflexivity.
Qed.

Lemma day_end_ledger day c s1 s2 :
  (if day mod 30 =? 0 then cleanup_reorder_history c else ret tt) s1 = inr (tt, s2) ->
  inventory_history s2 = inventory_history s1 /\ inventory_levels s2 = inventory_levels s1.
Proof.
  destruct (day mod 30 =? 0).
  - apply cleanup_keeps_ledger.
  - unfold ret. intros H. injection H as <-. split; reflexivity.
Qed.

(** The day loop adds one snapshot per day; the [k]-th added one is dated
    [c + k] and holds the ledger as the first [k + 1] days of the loop left
    it. *)
Lemma days_loop_snapshots n : forall day c acc s r s',
  days_loop n day c acc s = inr (r, s') ->
  (exists ext, inventory_history s' = inventory_history s ++ ext)
  /\ List.length (inventory_history s') = (List.length (inventory_history s) + n)%nat
  /\ forall k, (k < n)%nat ->
       exists acc' s_k, days_loop (S k) day c acc s = inr (acc', s_k)
         /\ nth_error (inventory_history s') (List.length (inventory_history s) + k)
            = Some (snapshot_of (c + Z.of_nat k) (inventory_levels s_k)).
Proof.
  induction n as [| n IH]; intros day c acc s r s' H.
  - cbn [days_loop] in H. unfold ret in H. injection H as _ <-.
    split; [exists []; rewrite app_nil_r; reflexivity |].
    split; [lia | intros k Hk; lia].
  - destruct (days_loop_S _ _ _ _ _ _ _ H) as (daily & s1 & s2 & H1 & H2 & H3).
    pose proof (daily_history _ _ _ _ H1) as Hd.
    destruct (day_end_ledger _ _ _ _ H2) as [Hh Hl].
    destruct (IH _ _ _ _ _ _ H3) as ((ext & Hext) & Hlen & Hk).
    rewrite Hh, Hd in Hext, Hlen.
    split; [exists (snapshot_of c (inventory_levels s1) :: ext); rewrite Hext, <- app_assoc; reflexivity |].
    split; [rewrite Hlen, length_app; simpl; lia |].
    intros k Hkn. destruct k as [| k].
    + exists (acc ++ daily), s2. split.
      * rewrite (days_loop_S_intro _ _ _ _ _ _ _ _ H1 H2). reflexivity.
      * rewrite Hext, <- app_assoc, Nat.add_0_r, nth_error_app2 by lia.
        rewrite Nat.sub_diag, Z.add_0_r, Hl. reflexivity.
    + destruct (Hk k ltac:(lia)) as (acc' & s_k & Hsk & Hnth).
      exists acc', s_k. split.
      * rewrite (days_loop_S_intro _ _ _ _ _ _ _ _ H1 H2). exact Hsk.
      * rewrite Hh, Hd, length_app in Hnth. simpl in Hnth.
        replace (List.length (inventory_history s) + S k)%nat
          with (List.length (inventory_history s) + 1 + k)%nat by lia.
        rewrite Hnth. do 2 f_equal. lia.
Qed.

Lemma dict_set_keeps_key {K V} (eqb : K -> K -> bool) k0 (v : V) d k :
  In k (map fst d) -> In k (map fst (dict_set eqb k0 v d)).
Proof.
  induction d as [| [k' v'] d IH]; simpl; [contradiction |].
  destruct (eqb k0 k'); simpl; intros [Hk | Hk]; auto.
Qed.

Lemma dict_set_adds_key {K V} (eqb : K -> K -> bool) k0 (v : V) d :
  (forall a b, eqb a b = true -> a = b) -> In k0 (map fst (dict_set eqb k0 v d)).
Proof.
  intros Heq. induction d as [| [k' v'] d IH]; simpl; [left; reflexivity |].
  destruct (eqb k0 k') eqn:E; simpl; [left; symmetry; apply Heq, E | right; exact IH].
Qed.

(** Every ledger pair has its key in the snapshot. *)
Lemma snapshot_of_covers d lv p w v :
  In ((p, w), v) lv -> In (snapshot_key p w) (map fst (snap_levels (snapshot_of d lv))).
Proof.
  unfold snapshot_of; cbn [snap_levels].
  assert (Keep : forall lv (acc : list (string * Z)) k, In k (map fst acc) ->
            In k (map fst (fold_left (fun acc '((p, w), l) =>
                     dict_set String.eqb (snapshot_key p w) l acc) lv acc))).
  { clear. induction lv as [| [[p' w'] l] lv IH]; intros acc k Hk; [exact Hk |].
    apply IH, dict_set_keeps_key, Hk. }
  generalize (@nil (string * Z)).
  induction lv as [| [[p' w'] l] lv IH]; intros acc Hin; [contradiction |].
  cbn [fold_left]. destruct Hin as [Hin | Hin].
  - injection Hin as -> -> ->. apply Keep.
    apply dict_set_adds_key. intros a b. apply String.eqb_eq.
  - apply IH. exact Hin.
Qed.

Lemma generator_fresh now r np g :
  TransactionGenerator now r np = inr g ->
  inventory_history g = [] /\ start_date g = now - 3 * 365 /\ end_date g = now.
Proof.
  unfold TransactionGenerator. destruct (initialize_inventory_levels _) as [e | [lv s1]] eqn:E;
    intros H; inversion H; subst; clear H.
  pose proof (keeps_initialize _ _ _ E) as Hd. unfold data in Hd; simpl in Hd.
  injection Hd; intros Hh _ _ Hs He. simpl. rewrite Hh, Hs, He. auto.
Qed.

(** C9: a completed run records exactly one snapshot per simulated day
    ([end_date - start_date] = 1095 days); the [k]-th snapshot is dated
    [start_date + k], is the ledger as day [k] of the loop ends, and has a
    key for every (product, warehouse) pair of that ledger. *)
Theorem one_snapshot_per_day now r np txns g :
  run now r np = inr (txns, g) ->
  exists g0, TransactionGenerator now r np = inr g0
  /\ end_date g0 - start_date g0 = 1095
  /\ List.length (inventory_history g) = Z.to_nat (end_date g0 - start_date g0)
  /\ forall k, (k < Z.to_nat (end_date g0 - start_date g0))%nat ->
       exists acc s_k,
         days_loop (S k) 0 (start_date g0) [] g0 = inr (acc, s_k)
         /\ nth_error (inventory_history g) k
            = Some (snapshot_of (start_date g0 + Z.of_nat k) (inventory_levels s_k))
         /\ forall p w v, In ((p, w), v) (inventory_levels s_k) ->
              In (snapshot_key p w)
                 (map fst (snap_levels (snapshot_of (start_date g0 + Z.of_nat k)
                                          (inventory_levels s_k)))).
Proof.
  unfold run. destruct (TransactionGenerator now r np) as [e | g0] eqn:E; [discriminate |].
  intros H. exists g0. split; [reflexivity |].
  destruct (generator_fresh _ _ _ _ E) as (Hh & Hs & He).
  unfold generate_all_transactions in H.
  apply bind_inr in H as (n & s1 & H1 & H). cbv [gets] in H1. injection H1 as <- <-.
  apply bind_inr in H as (c & s2 & H2 & H). cbv [gets] in H2. injection H2 as <- <-.
  destruct (days_loop_snapshots _ _ _ _ _ _ _ H) as (_ & Hlen & Hk).
  rewrite Hh in Hlen, Hk. unfold total_days in *.
  split; [lia |]. split; [exact Hlen |].
  intros k Hkn. destruct (Hk k Hkn) as (acc & s_k & Hsk & Hnth).
  exists acc, s_k. split; [exact Hsk |]. split; [exact Hnth |].
  intros p w v Hin. apply (snapshot_of_covers _ _ _ _ v Hin).
Qed.

Lemma one_snapshot_per_day_witness :
  exists txns g, run day_2025_06_03 zero_stream zero_stream = inr (txns, g)
  /\ exists g0, TransactionGenerator day_2025_06_03 zero_stream zero_stream = inr g0
  /\ end_date g0 - start_date g0 = 1095
  /\ List.length (inventory_history g) = Z.to_nat (end_date g0 - start_date g0)
  /\ forall k, (k < Z.to_nat (end_date g0 - start_date g0))%nat ->
       exists acc s_k,
         days_loop (S k) 0 (start_date g0) [] g0 = inr (acc, s_k)
         /\ nth_error (inventory_history g) k
            = Some (snapshot_of (start_date g0 + Z.of_nat k) (inventory_levels s_k))
         /\ forall p w v, In ((p, w), v) (inventory_levels s_k) ->
              In (snapshot_key p w)
                 (map fst (snap_levels (snapshot_of (start_date g0 + Z.of_nat k)
                                          (inventory_levels s_k)))).
Proof.
  destruct run_2025_ok as (txns & g & E & _ & _). exists txns, g. split; [exact E |].
  exact (one_snapshot_per_day _ _ _ _ _ E).
Defined.


(** ** Reorder cooldown *)

Lemma keeps_rh {A} (m : M A) s a s' :
  keeps m -> m s = inr (a, s') -> reorder_history s' = reorder_history s.
Proof. intros Hk H. pose proof (Hk s a s' H) as Hd. unfold data in Hd. congruence. Qed.

Lemma timestamp_date d s ts s' :
  generate_transaction_timestamp d s = inr (ts, s') -> ts_date ts = d.
Proof.
  unfold generate_transaction_timestamp. intros H.
  apply bind_inr in H as (h & s1 & _ & H).
  apply bind_inr in H as (m & s2 & _ & H).
  unfold ret in H. injection H as <- _. reflexivity.
Qed.

Lemma pair_eqb_refl k : pair_eqb k k = true.
Proof. destruct k as [a b]. unfold pair_eqb. simpl. rewrite !Z.eqb_refl. reflexivity. Qed.

Lemma pair_eqb_spec a b : pair_eqb a b = true <-> a = b.
Proof. split; [apply pair_eqb_eq | intros ->; apply pair_eqb_refl]. Qed.

Lemma get_set_same k v h : get_key k (set_key k v h) = Some v.
Proof.
  unfold get_key, set_key. induction h as [| [k' v'] h IH]; simpl.
  - rewrite pair_eqb_refl. reflexivity.
  - destruct (pair_eqb k k') eqn:E; simpl.
    + apply pair_eqb_eq in E. subst. rewrite pair_eqb_refl. reflexivity.
    + rewrite E. exact IH.
Qed.

Lemma get_set_other k k' v h : k' <> k -> get_key k' (set_key k v h) = get_key k' h.
Proof.
  unfold get_key, set_key. intros Hne. induction h as [| [k0 v0] h IH]; simpl.
  - destruct (pair_eqb k' k) eqn:E; [apply pair_eqb_eq in E; contradiction | reflexivity].
  - destruct (pair_eqb k k0) eqn:E; simpl.
    + apply pair_eqb_eq in E. subst.
      destruct (pair_eqb k' k0) eqn:E'; [apply pair_eqb_eq in E'; contradiction | reflexivity].
    + destruct (pair_eqb k' k0); [reflexivity | exact IH].
Qed.

Lemma set_key_keys k v h :
  map fst (set_key k v h) = map fst h \/ map fst (set_key k v h) = map fst h ++ [k].
Proof.
  unfold set_key. induction h as [| [k0 v0] h IH]; simpl; [right; reflexivity |].
  destruct (pair_eqb k k0); simpl; [left; reflexivity |].
  destruct IH as [-> | ->]; [left | right]; reflexivity.
Qed.

Lemma get_key_notin k h : ~ In k (map fst h) -> get_key k h = None.
Proof.
  unfold get_key. induction h as [| [k0 v0] h IH]; simpl; intros Hn; [reflexivity |].
  destruct (pair_eqb k k0) eqn:E; [apply pair_eqb_eq in E; subst; tauto |].
  apply IH. tauto.
Qed.

Lemma get_key_in k h : get_key k h = None -> ~ In k (map fst h).
Proof.
  unfold get_key. induction h as [| [k0 v0] h IH]; simpl; [auto |].
  destruct (pair_eqb k k0) eqn:E; [discriminate |]. intros Hg [Hk | Hk].
  - subst. rewrite pair_eqb_refl in E. discriminate.
  - exact (IH Hg Hk).
Qed.

Lemma NoDup_set_key k v h : NoDup (map fst h) -> NoDup (map fst (set_key k v h)).
Proof.
  intros Hn. destruct (set_key_keys k v h) as [-> | E]; [exact Hn |].
  rewrite E. destruct (get_key k h) eqn:G.
  - (* an existing key is updated in place *)
    exfalso. clear Hn. revert E. unfold set_key, get_key in *.
    induction h as [| [k0 v0] h IH]; simpl in *; [discriminate |].
    destruct (pair_eqb k k0) eqn:Ek; simpl.
    + intros Hl. apply (f_equal (@List.length _)) in Hl. simpl in Hl.
      rewrite length_app in Hl. simpl in Hl. lia.
    + intros Hl. injection Hl as Hl. exact (IH G Hl).
  - apply NoDup_app; [exact Hn | constructor; [intros [] | constructor] |].
    intros x Hx [<- | []]. exact (get_key_in _ _ G Hx).
Qed.

Lemma get_key_of_in k v h : NoDup (map fst h) -> In (k, v) h -> get_key k h = Some v.
Proof.
  unfold get_key. induction h as [| [k0 v0] h IH]; simpl; [contradiction |].
  intros Hn Hin. inversion Hn as [| ? ? Hnot Hn']; subst.
  destruct Hin as [Hin | Hin].
  - injection Hin as -> ->. rewrite pair_eqb_refl. reflexivity.
  - destruct (pair_eqb k k0) eqn:E.
    + apply pair_eqb_eq in E. subst. exfalso. apply Hnot.
      apply (in_map fst) in Hin. exact Hin.
    + exact (IH Hn' Hin).
Qed.

Lemma del_key_spec k k' h :
  NoDup (map fst h) ->
  NoDup (map fst (del_key k' h))
  /\ get_key k (del_key k' h) = if pair_eqb k k' then None else get_key k h.
Proof.
  unfold del_key, get_key. induction h as [| [k0 v0] h IH]; simpl; intros Hn.
  - split; [constructor | destruct (pair_eqb k k'); reflexivity].
  - inversion Hn as [| ? ? Hnot Hn']; subst.
    destruct (pair_eqb k' k0) eqn:E0.
    + apply pair_eqb_eq in E0. subst k0. split; [exact Hn' |].
      destruct (pair_eqb k k') eqn:E; [| reflexivity].
      apply pair_eqb_eq in E. subst. exact (get_key_notin _ _ Hnot).
    + destruct (IH Hn') as [Hd Hg]. simpl. split.
      * constructor; [| exact Hd].
        intros Hin. apply Hnot. clear -Hin.
        induction h as [| [k1 v1] h IHh]; simpl in *; [exact Hin |].
        destruct (pair_eqb k' k1); simpl in *; [right; exact Hin |].
        destruct Hin as [Hin | Hin]; [left; exact Hin | right; exact (IHh Hin)].
      * destruct (pair_eqb k k0) eqn:E.
        -- apply pair_eqb_eq in E. subst k0.
           destruct (pair_eqb k k') eqn:E'; [| reflexivity].
           apply pair_eqb_eq in E'. subst. rewrite pair_eqb_refl in E0. discriminate.
        -- exact Hg.
Qed.

Lemma del_keys_spec k ks h :
  NoDup (map fst h) ->
  NoDup (map fst (fold_left (fun d k' => del_key k' d) ks h))
  /\ get_key k (fold_left (fun d k' => del_key k' d) ks h)
     = if existsb (pair_eqb k) ks then None else get_key k h.
Proof.
  revert h. induction ks as [| k' ks IH]; intros h Hn; simpl; [auto |].
  destruct (del_key_spec k k' h Hn) as [Hd Hg].
  destruct (IH _ Hd) as [Hd' Hg']. split; [exact Hd' |].
  rewrite Hg', Hg. destruct (pair_eqb k k'), (existsb (pair_eqb k) ks); reflexivity.
Qed.

Lemma cleanup_history_spec c h k :
  NoDup (map fst h) ->
  NoDup (map fst (cleanup_history c h))
  /\ get_key k (cleanup_history c h)
     = match get_key k h with
       | Some d => if d <? c - 30 then None else Some d
       | None => None
       end.
Proof.
  intros Hn. unfold cleanup_history.
  destruct (del_keys_spec k (map fst (filter (fun kv => snd kv <? c - 30) h)) h Hn) as [Hd Hg].
  split; [exact Hd |]. rewrite Hg.
  destruct (get_key k h) as [d |] eqn:G.
  - destruct (existsb (pair_eqb k) (map fst (filter (fun kv => snd kv <? c - 30) h))) eqn:E.
    + apply existsb_exists in E as (k1 & Hk1 & Ek). apply pair_eqb_eq in Ek. subst k1.
      apply in_map_iff in Hk1 as ([k1 d1] & Ek & Hin). simpl in Ek. subst k1.
      apply filter_In in Hin as [Hin Hlt]. simpl in Hlt.
      rewrite (get_key_of_in _ _ _ Hn Hin) in G. injection G as ->. rewrite Hlt. reflexivity.
    + destruct (d <? c - 30) eqn:Hlt; [| reflexivity].
      exfalso. assert (Hin : In (k, d) h).
      { clear -G. unfold get_key in G. induction h as [| [k0 v0] h IH]; simpl in *; [discriminate |].
        destruct (pair_eqb k k0) eqn:E0; [| right; auto].
        apply pair_eqb_eq in E0. injection G as ->. left. subst. reflexivity. }
      assert (Hf : In (k, d) (filter (fun kv => snd kv <? c - 30) h)) by (apply filter_In; auto).
      apply (in_map fst) in Hf. simpl in Hf.
      assert (existsb (pair_eqb k) (map fst (filter (fun kv => snd kv <? c - 30) h)) = true)
        by (apply existsb_exists; exists k; split; [exact Hf | apply pair_eqb_refl]).
      congruence.
  - destruct (existsb _ _); reflexivity.
Qed.

Lemma reorder_one_cases D o pid p wid acc s acc' s' :
  reorder_one D o pid p wid acc s = inr (acc', s') ->
  (acc' = acc /\ reorder_history s' = reorder_history s)
  \/ exists t, acc' = acc ++ [t] /\ is_reorder t = true
       /\ product_id t = pid /\ warehouse_id t = wid /\ txn_day t = D
       /\ reorder_history s' = set_key (pid, wid) D (reorder_history s)
       /\ match get_key (pid, wid) (reorder_history s) with
          | Some d => cooldown_of t <= D - d
          | None => True
          end.
Proof.
  unfold reorder_one. intros H.
  apply bind_inr in H as (cur & s1 & H1 & H). cbv [gets] in H1. injection H1 as <- <-.
  apply bind_inr in H as (hist & s2 & H2 & H). cbv [gets] in H2. injection H2 as <- <-.
  cbv zeta in H.
  match type of H with (if ?b then _ else _) _ = _ => destruct b eqn:En end;
    [| left; unfold ret in H; injection H as <- <-; auto].
  right.
  apply bind_inr in H as (q & s3 & H3 & H).
  apply bind_inr in H as (ts & s4 & H4 & H).
  apply bind_inr in H as (num & s5 & H5 & H).
  apply bind_inr in H as ([] & s6 & H6 & H).
  apply bind_inr in H as ([] & s7 & H7 & H).
  apply bind_inr in H as (st & s8 & H8 & H).
  unfold ret in H. injection H as <- <-.
  eexists. split; [reflexivity |]. split; [reflexivity |].
  split; [reflexivity |]. split; [reflexivity |].
  split; [exact (timestamp_date _ _ _ _ H4) |].
  split.
  - rewrite (keeps_rh _ _ _ _ (keeps_status _ _) H8).
    unfold modify in H7. injection H7 as <-.
    unfold update_inventory, modify in H6. injection H6 as <-. simpl.
    rewrite (keeps_rh _ _ _ _ (keeps_number _ _ _) H5), (keeps_rh _ _ _ _ (keeps_timestamp _) H4).
    match type of H3 with ?m _ = _ => assert (Kq : keeps m) by keeps_tac end.
    rewrite (keeps_rh _ _ _ _ Kq H3). reflexivity.
  - unfold cooldown_of. simpl.
    destruct (qltb _ _); [| discriminate].
    destruct (get_key (pid, wid) (reorder_history s)); [| exact I].
    apply Z.leb_le in En. exact En.
Qed.

Lemma cooldown_of_le t : cooldown_of t <= 7.
Proof. unfold cooldown_of. destruct (notes t); [lia |]. destruct (_ <? _); lia. Qed.

Lemma cool_snoc E t :
  cool_ok E ->
  (forall t1, In t1 E -> is_reorder t1 = true -> is_reorder t = true ->
     product_id t1 = product_id t -> warehouse_id t1 = warehouse_id t ->
     txn_day t1 + cooldown_of t <= txn_day t) ->
  cool_ok (E ++ [t]).
Proof.
  intros Hc Ht i j t1 t2 Hij H1 H2.
  destruct (Nat.lt_ge_cases j (List.length E)) as [Hj | Hj].
  - rewrite nth_error_app1 in H1 by lia. rewrite nth_error_app1 in H2 by lia.
    exact (Hc i j t1 t2 Hij H1 H2).
  - rewrite nth_error_app2 in H2 by lia.
    destruct (j - List.length E)%nat as [| m] eqn:Ej; simpl in H2; [| destruct m; discriminate].
    injection H2 as <-. rewrite nth_error_app1 in H1 by lia.
    apply Ht. exact (nth_error_In _ _ H1).
Qed.

Lemma inv_mono D D' E h : D <= D' -> reorder_inv D E h -> reorder_inv D' E h.
Proof.
  intros Hle (Hn & Hc & Ht). split; [exact Hn |]. split; [exact Hc |].
  intros t Hin Hr. destruct (Ht t Hin Hr) as [H1 H2]. split; [lia |].
  destruct (get_key _ h); lia.
Qed.

Lemma inv_snoc_other D E h t :
  is_reorder t = false -> reorder_inv D E h -> reorder_inv D (E ++ [t]) h.
Proof.
  intros Hr (Hn & Hc & Ht). split; [exact Hn |]. split.
  - apply cool_snoc; [exact Hc |]. intros t1 _ _ Hr'. congruence.
  - intros t' Hin Hr'. apply in_app_or in Hin as [Hin | [<- | []]]; [exact (Ht t' Hin Hr') |].
    congruence.
Qed.

Lemma inv_reorder_one D o pid p wid G acc s acc' s' :
  reorder_inv D (G ++ acc) (reorder_history s) ->
  reorder_one D o pid p wid acc s = inr (acc', s') ->
  reorder_inv D (G ++ acc') (reorder_history s').
Proof.
  intros Hinv H.
  destruct (reorder_one_cases _ _ _ _ _ _ _ _ _ H)
    as [[-> ->] | (t & -> & Hr & Hp & Hw & Hd & Hh & Hcool)]; [exact Hinv |].
  rewrite app_assoc, Hh. destruct Hinv as (Hn & Hc & Ht).
  split; [apply NoDup_set_key, Hn |]. split.
  - apply cool_snoc; [exact Hc |]. intros t1 Hin Hr1 _ Hp1 Hw1.
    destruct (Ht t1 Hin Hr1) as [Hle Hm]. rewrite Hp1, Hw1, Hp, Hw in Hm.
    pose proof (cooldown_of_le t).
    destruct (get_key (pid, wid) (reorder_history s)); lia.
  - intros t' Hin Hr'. apply in_app_or in Hin as [Hin | [<- | []]].
    + destruct (Ht t' Hin Hr') as [Hle Hm]. split; [exact Hle |].
      destruct (pair_eqb (product_id t', warehouse_id t') (pid, wid)) eqn:E.
      * apply pair_eqb_eq in E. rewrite E, get_set_same. exact Hle.
      * rewrite get_set_other; [exact Hm |]. intros E'. rewrite E', pair_eqb_refl in E.
        discriminate.
    + rewrite Hp, Hw, get_set_same. lia.
Qed.

Lemma inv_reorder_warehouses D o pid p wids G acc s acc' s' :
  reorder_inv D (G ++ acc) (reorder_history s) ->
  reorder_warehouses D o pid p wids acc s = inr (acc', s') ->
  reorder_inv D (G ++ acc') (reorder_history s').
Proof.
  revert acc s. induction wids as [| w ws IH]; intros acc s Hinv H; cbn [reorder_warehouses] in H.
  - unfold ret in H. injection H as <- <-. exact Hinv.
  - apply bind_inr in H as (a1 & s1 & H1 & H).
    exact (IH _ _ (inv_reorder_one _ _ _ _ _ _ _ _ _ _ Hinv H1) H).
Qed.

Lemma inv_reorder_products D o i ps G acc s acc' s' :
  reorder_inv D (G ++ acc) (reorder_history s) ->
  reorder_products D o i ps acc s = inr (acc', s') ->
  reorder_inv D (G ++ acc') (reorder_history s').
Proof.
  revert i acc s. induction ps as [| p ps IH]; intros i acc s Hinv H; cbn [reorder_products] in H.
  - unfold ret in H. injection H as <- <-. exact Hinv.
  - apply bind_inr in H as (a1 & s1 & H1 & H).
    exact (IH _ _ _ (inv_reorder_warehouses _ _ _ _ _ _ _ _ _ _ Hinv H1) H).
Qed.

Lemma inv_transactions_loop D f i n G acc s acc' s' :
  reorder_inv D (G ++ acc) (reorder_history s) ->
  transactions_loop D f i n acc s = inr (acc', s') ->
  reorder_inv D (G ++ acc') (reorder_history s').
Proof.
  revert i acc s. induction n as [| n IH]; intros i acc s Hinv H; cbn [transactions_loop] in H.
  - unfold ret in H. injection H as <- <-. exact Hinv.
  - apply bind_inr in H as (o & s1 & H1 & H).
    destruct (one_transaction_history _ _ _ _ _ _ H1) as [Hh Ho].
    refine (IH _ _ _ _ H). rewrite Hh.
    destruct o as [t |]; [| exact Hinv].
    rewrite app_assoc. exact (inv_snoc_other _ _ _ _ Ho Hinv).
Qed.

Lemma inv_daily D G s daily s' :
  reorder_inv D G (reorder_history s) ->
  generate_daily_transactions D s = inr (daily, s') ->
  reorder_inv D (G ++ daily) (reorder_history s').
Proof.
  unfold generate_daily_transactions. intros Hinv H.
  apply bind_inr in H as (a1 & s1 & H1 & H).
  apply bind_inr in H as (a2 & s2 & H2 & H).
  apply bind_inr in H as (a3 & s3 & H3 & H).
  apply bind_inr in H as (a4 & s4 & H4 & H).
  assert (E4 : reorder_history s4 = reorder_history s).
  { unfold get_seasonal_multiplier, get_growth_multiplier, get_dow_multiplier in *.
    rewrite (keeps_rh _ _ _ _ (keeps_poisson _) H4), (keeps_rh _ _ _ _ (keeps_lift_opt _ _) H3),
      (keeps_rh _ _ _ _ (keeps_lift_opt _ _) H2), (keeps_rh _ _ _ _ (keeps_lift_opt _ _) H1).
    reflexivity. }
  apply bind_inr in H as (rt & s5 & H5 & H).
  assert (I5 : reorder_inv D (G ++ rt) (reorder_history s5)).
  { destruct (weekday D <? 5).
    - apply bind_inr in H5 as (u & s6 & H6 & H5).
      rewrite <- (keeps_rh _ _ _ _ keeps_random H6) in E4.
      destruct (qltb u _).
      + unfold generate_reorder_transactions in H5.
        refine (inv_reorder_products _ _ _ _ _ [] _ _ _ _ H5).
        rewrite app_nil_r, E4. exact Hinv.
      + unfold ret in H5. injection H5 as <- <-. rewrite app_nil_r, E4. exact Hinv.
    - unfold ret in H5. injection H5 as <- <-. rewrite app_nil_r, E4. exact Hinv. }
  apply bind_inr in H as (hf & s6 & H6 & H). cbv [gets] in H6. injection H6 as <- <-.
  apply bind_inr in H as (txs & s7 & H7 & H).
  pose proof (inv_transactions_loop _ _ _ _ _ _ _ _ _ I5 H7) as I7.
  apply bind_inr in H as (u & s8 & H8 & H).
  unfold record_inventory_snapshot, modify in H8. injection H8 as _ <-.
  unfold ret in H. injection H as <- <-. exact I7.
Qed.

Lemma inv_cleanup c E h : reorder_inv c E h -> reorder_inv (c + 1) E (cleanup_history c h).
Proof.
  intros (Hn & Hc & Ht). split; [exact (proj1 (cleanup_history_spec c h (0, 0) Hn)) |].
  split; [exact Hc |]. intros t Hin Hr. destruct (Ht t Hin Hr) as [Hle Hm].
  split; [lia |]. rewrite (proj2 (cleanup_history_spec c h _ Hn)).
  destruct (get_key _ h) as [d |]; [| lia].
  destruct (Z.ltb_spec d (c - 30)); lia.
Qed.

Lemma inv_day_end day c E s1 s2 :
  reorder_inv c E (reorder_history s1) ->
  (if day mod 30 =? 0 then cleanup_reorder_history c else ret tt) s1 = inr (tt, s2) ->
  reorder_inv (c + 1) E (reorder_history s2).
Proof.
  intros Hinv H. destruct (day mod 30 =? 0).
  - unfold cleanup_reorder_history, modify in H. injection H as <-. simpl.
    exact (inv_cleanup _ _ _ Hinv).
  - unfold ret in H. injection H as <-. apply (inv_mono c); [lia | exact Hinv].
Qed.

Lemma inv_days_loop n : forall day c acc s r s',
  reorder_inv c acc (reorder_history s) ->
  days_loop n day c acc s = inr (r, s') ->
  reorder_inv (c + Z.of_nat n) r (reorder_history s').
Proof.
  induction n as [| n IH]; intros day c acc s r s' Hinv H.
  - cbn [days_loop] in H. unfold ret in H. injection H as <- <-.
    rewrite Z.add_0_r. exact Hinv.
  - destruct (days_loop_S _ _ _ _ _ _ _ H) as (daily & s1 & s2 & H1 & H2 & H3).
    pose proof (inv_daily _ _ _ _ _ Hinv H1) as I1.
    pose proof (inv_day_end _ _ _ _ _ I1 H2) as I2.
    replace (c + Z.of_nat (S n)) with (c + 1 + Z.of_nat n) by lia.
    exact (IH _ _ _ _ _ _ I2 H3).
Qed.

Lemma generator_no_reorders now r np g :
  TransactionGenerator now r np = inr g -> reorder_history g = [].
Proof.
  unfold TransactionGenerator. destruct (initialize_inventory_levels _) as [e | [lv s1]] eqn:E;
    intros H; inversion H; subst; clear H.
  pose proof (keeps_initialize _ _ _ E) as Hd. unfold data in Hd; simpl in Hd.
  injection Hd; intros _ Hr _ _ _. simpl. exact Hr.
Qed.

Lemma run_reorder_inv now r np txns g :
  run now r np = inr (txns, g) -> cool_ok txns.
Proof.
  unfold run. destruct (TransactionGenerator now r np) as [e | g0] eqn:E; [discriminate |].
  intros H. unfold generate_all_transactions in H.
  apply bind_inr in H as (n & s1 & H1 & H). cbv [gets] in H1. injection H1 as <- <-.
  apply bind_inr in H as (c & s2 & H2 & H). cbv [gets] in H2. injection H2 as <- <-.
  assert (I0 : reorder_inv (start_date g0) [] (reorder_history g0)).
  { rewrite (generator_no_reorders _ _ _ _ E).
    split; [constructor |]. split; [| intros t []].
    intros i j t1 t2 _ H1. destruct i; discriminate. }
  exact (proj1 (proj2 (inv_days_loop _ _ _ _ _ _ _ I0 H))).
Qed.

Lemma split_nth {A} l1 (t1 : A) l2 t2 l3 :
  nth_error (l1 ++ t1 :: l2 ++ t2 :: l3) (List.length l1) = Some t1
  /\ nth_error (l1 ++ t1 :: l2 ++ t2 :: l3) (List.length l1 + S (List.length l2)) = Some t2.
Proof.
  split.
  - rewrite nth_error_app2, Nat.sub_diag by lia. reflexivity.
  - rewrite nth_error_app2 by lia. replace (List.length l1 + S (List.length l2) - List.length l1)%nat
      with (S (List.length l2)) by lia. simpl.
    rewrite nth_error_app2, Nat.sub_diag by lia. reflexivity.
Qed.

(** C3: in a completed run, two reorders of the same (product, warehouse)
    pair are at least [cooldown_days] simulated days apart, where
    [cooldown_days] is 5 when the stock seen at the later reorder's
    eligibility check was below the reorder level and 7 otherwise.  Days
    are the dates the cooldown check compares (the date part of
    [transaction_timestamp]); the hour and minute within the day are drawn
    independently and are not part of the cooldown. *)
Theorem reorder_cooldown now r np txns g :
  run now r np = inr (txns, g) ->
  forall l1 t1 l2 t2 l3, txns = l1 ++ t1 :: l2 ++ t2 :: l3 ->
  is_reorder t1 = true -> is_reorder t2 = true ->
  product_id t1 = product_id t2 -> warehouse_id t1 = warehouse_id t2 ->
  txn_day t1 + cooldown_of t2 <= txn_day t2.
Proof.
  intros H l1 t1 l2 t2 l3 Hs. pose proof (run_reorder_inv _ _ _ _ _ H) as Hc.
  destruct (split_nth l1 t1 l2 t2 l3) as [N1 N2]. rewrite <- Hs in N1, N2.
  refine (Hc _ _ _ _ _ N1 N2); lia.
Qed.

Lemma reorder_cooldown_witness :
  exists txns g l1 t1 l2 t2 l3,
    run day_2025_06_03 zero_stream zero_stream = inr (txns, g)
    /\ txns = l1 ++ t1 :: l2 ++ t2 :: l3
    /\ is_reorder t1 = true /\ is_reorder t2 = true
    /\ product_id t1 = product_id t2 /\ warehouse_id t1 = warehouse_id t2
    /\ txn_day t1 + cooldown_of t2 <= txn_day t2.
Proof.
  destruct run_2025_ok as (txns & g & E & _ & Hr).
  destruct (has_reorder_pair_split _ Hr) as (l1 & t1 & l2 & t2 & l3 & Hs & R1 & R2 & Ep & Ew).
  pose proof (prefix_split _ _ _ _ _ _ _ Hs) as Hs'.
  exists txns, g, l1, t1, l2, t2, (l3 ++ skipn 160 txns).
  split; [exact E |]. split; [exact Hs' |].
  do 4 (split; [assumption |]).
  exact (reorder_cooldown _ _ _ _ _ E _ _ _ _ _ Hs' R1 R2 Ep Ew).
Defined.

(** ** Further properties of the generator *)

Lemma choice_in {A} (l : list A) s x s' : choice l s = inr (x, s') -> In x l.
Proof.
  unfold choice. destruct l as [| d l']; [discriminate |].
  unfold randbelow, bind, next_word, ret. intros H. injection H as <- _.
  pose proof (Z.mod_pos_bound (rnd s (rnd_pos s)) (Z.of_nat (List.length (d :: l')))
                ltac:(simpl; lia)) as Hb.
  simpl in Hb |- *.
  destruct (Z.to_nat _) as [| m] eqn:E; [left; reflexivity |].
  right. apply nth_In. lia.
Qed.

Lemma choices1_in {A} (pop : list A) w s x s' : choices1 pop w s = inr (x, s') -> In x pop.
Proof.
  unfold choices1. destruct pop as [| d pop']; [discriminate |].
  destruct (negb _); [discriminate |]. destruct (negb _); [discriminate |].
  intros H. apply bind_inr in H as (u & s1 & _ & H). unfold ret in H.
  match type of H with
  | inr (nth ?n ?l ?dd, _) = _ =>
      assert (Hx : x = nth n l dd) by congruence;
      destruct (nth_in_or_default n l dd) as [Hi | Hd]
  end; rewrite Hx; [exact Hi | rewrite Hd; left; reflexivity].
Qed.

Lemma timestamp_ranges d s ts s' :
  generate_transaction_timestamp d s = inr (ts, s') ->
  ts_date ts = d /\ 6 <= ts_hour ts <= 18 /\ 0 <= ts_minute ts <= 59.
Proof.
  unfold generate_transaction_timestamp. intros H.
  apply bind_inr in H as (h & s1 & H1 & H).
  apply bind_inr in H as (m & s2 & H2 & H).
  unfold ret in H. injection H as <- _. simpl.
  apply choices1_in in H1. apply randint_range in H2.
  split; [reflexivity |]. split; [| exact H2].
  unfold business_hours in H1. simpl in H1. lia.
Qed.

Lemma status_in_options t d s st s' :
  generate_time_aware_status t d s = inr (st, s') -> In st (status_options t).
Proof.
  unfold generate_time_aware_status. intros H.
  apply bind_inr in H as (a & s1 & _ & H). exact (choices1_in _ _ _ _ _ H).
Qed.

Lemma in_all_pairs p w : In (p, w) all_pairs <-> 1 <= p <= 41 /\ 1 <= w <= 3.
Proof.
  unfold all_pairs. rewrite in_flat_map. split.
  - intros (i & Hi & Hin). apply in_map_iff in Hi as (n & <- & Hn). apply in_seq in Hn.
    simpl in Hin. destruct Hin as [E | [E | [E | []]]]; injection E; intros; lia.
  - intros [Hp Hw]. exists p. split.
    + apply in_map_iff. exists (Z.to_nat p). split; [lia | apply in_seq; lia].
    + simpl. assert (w = 1 \/ w = 2 \/ w = 3) as [-> | [-> | ->]] by lia; auto.
Qed.

Lemma existsb_Zeqb x l : existsb (Z.eqb x) l = true <-> In x l.
Proof.
  rewrite existsb_exists. split.
  - intros (y & Hy & E). apply Z.eqb_eq in E. subst. exact Hy.
  - intros H. exists x. split; [exact H | apply Z.eqb_refl].
Qed.

Lemma select_product_valid c s pid s' :
  select_product_for_category c s = inr (pid, s') ->
  1 <= pid <= 41 /\ exists p, py_index products_data (pid - 1) = Some p /\ category p = c.
Proof.
  unfold select_product_for_category. intros H.
  apply bind_inr in H as (ps & s1 & H1 & H). apply choice_in in H.
  destruct (dict_get category_eqb c product_categories) as [ps' |] eqn:E;
    cbv [lift_opt ret raise] in H1; [injection H1 as <- _ | discriminate].
  destruct c; vm_compute in E; injection E as <-;
    repeat (destruct H as [<- | H]; [split; [lia | eexists; split; reflexivity] |]); destruct H.
Qed.


Lemma select_warehouse_in pid s w s' :
  select_warehouse pid s = inr (w, s') ->
  In w [1; 2; 3]
  /\ (In pid [2; 6; 11; 15; 20] -> w <> 3)
  /\ (In pid [3; 7; 12; 16] -> w <> 2).
Proof.
  unfold select_warehouse. intros H.
  destruct (existsb (Z.eqb pid) [2; 6; 11; 15; 20]) eqn:E1;
    [| destruct (existsb (Z.eqb pid) [3; 7; 12; 16]) eqn:E2];
    apply choices1_in in H; simpl in H.
  - apply existsb_Zeqb in E1. simpl in E1. simpl. intuition lia.
  - apply existsb_Zeqb in E2. simpl in E2. rewrite <- (existsb_Zeqb pid [2; 6; 11; 15; 20]), E1.
    simpl. intuition (try discriminate; lia).
  - rewrite <- (existsb_Zeqb pid [2; 6; 11; 15; 20]), <- (existsb_Zeqb pid [3; 7; 12; 16]), E1, E2. simpl. intuition (try discriminate; lia).
Qed.

Lemma random_nonneg s u s' : random_ s = inr (u, s') -> (0 <= u)%Q.
Proof.
  unfold random_, bind, next_word, ret. intros H. injection H as <- _.
  unfold Qle. simpl. pose proof (Z.mod_pos_bound (rnd s (rnd_pos s)) two53 ltac:(unfold two53; lia)). lia.
Qed.

Lemma uniform_ge a b s u s' : (a <= b)%Q -> uniform a b s = inr (u, s') -> (a <= u)%Q.
Proof.
  unfold uniform. intros Hab H. apply bind_inr in H as (r & s1 & H1 & H).
  apply random_nonneg in H1. unfold ret in H. injection H as <- _.
  assert (0 <= (b - a) * r)%Q by (apply Qmult_le_0_compat; [apply Qle_minus_iff in Hab |]; assumption).
  apply Qle_minus_iff. setoid_replace (a + (b - a) * r + - a)%Q with ((b - a) * r)%Q by ring.
  assumption.
Qed.

Lemma py_int_nonneg x : (0 <= x)%Q -> 0 <= py_int x.
Proof.
  unfold py_int, Qle. simpl. intros H. apply Z.quot_pos; lia.
Qed.

Lemma qmax_ge1 y : (1 <= qmax 1 y)%Q.
Proof.
  unfold qmax. destruct (qltb 1 y) eqn:E; [apply Qlt_le_weak, qltb_spec, E | apply Qle_refl].
Qed.

Lemma scaled_draw_nonneg a b x s q s' :
  (0 <= a)%Q -> (a <= b)%Q -> (0 <= x)%Q ->
  (u <- uniform a b ;; ret (py_int (x * u))) s = inr (q, s') -> 0 <= q.
Proof.
  intros Ha Hab Hx H. apply bind_inr in H as (u & s1 & H1 & H).
  apply (uniform_ge _ _ _ _ _ Hab) in H1. unfold ret in H. injection H as <- _.
  apply py_int_nonneg, Qmult_le_0_compat; [exact Hx | apply (Qle_trans _ a); assumption].
Qed.

Lemma generate_quantity_inbound c pid wid s q s' :
  generate_quantity Inbound c pid wid s = inr (q, s') -> 3 <= q.
Proof.
  unfold generate_quantity; cbn [quantity_range].
  intros H. apply bind_inr in H as (cur & s1 & _ & H).
  apply bind_inr in H as (p & s2 & _ & H).
  apply bind_inr in H as (m1 & s3 & _ & H).
  apply bind_inr in H as (m2 & s4 & _ & H).
  apply bind_inr in H as (b & s5 & _ & H).
  unfold ret in H. injection H as <- _. lia.
Qed.

(** What the code fixes about each transaction it emits on day [d]. *)
Definition txn_facts (d : Z) (t : transaction) : Prop :=
  ts_date (transaction_timestamp t) = d
  /\ 6 <= ts_hour (transaction_timestamp t) <= 18
  /\ 0 <= ts_minute (transaction_timestamp t) <= 59
  /\ updated_at t = transaction_timestamp t
  /\ In (txn_status t) (status_options (transaction_type t))
  /\ In (product_id t, warehouse_id t) all_pairs
  /\ (is_reorder t = true -> transaction_type t = Inbound /\ 0 <= quantity_change t)
  /\ (is_reorder t = false ->
        (transaction_type t = Inbound -> 3 <= quantity_change t)
        /\ (transaction_type t = Sale -> quantity_change t < 0)).

Lemma one_txn_facts d f i s t s' :
  one_transaction d f i s = inr (Some t, s') -> txn_facts d t.
Proof.
  unfold one_transaction. intros H.
  apply bind_inr in H as (ty & s1 & H1 & H).
  apply bind_inr in H as (c & s2 & H2 & H).
  apply bind_inr in H as (pid & s3 & H3 & H).
  apply bind_inr in H as (wid & s4 & H4 & H).
  apply bind_inr in H as (q & s5 & H5 & H).
  destruct (q =? 0) eqn:Eq; [unfold ret in H; discriminate |]. apply Z.eqb_neq in Eq.
  apply bind_inr in H as (u & s6 & _ & H).
  apply bind_inr in H as (st & s7 & H7 & H).
  apply bind_inr in H as (nt & s8 & _ & H).
  apply bind_inr in H as (ts & s9 & H9 & H).
  apply bind_inr in H as (num & s10 & _ & H).
  unfold ret in H. injection H as <- _.
  destruct (timestamp_ranges _ _ _ _ H9) as (Hd & Hh & Hm).
  destruct (select_product_valid _ _ _ _ H3) as [Hp _].
  destruct (select_warehouse_in _ _ _ _ H4) as [Hw _].
  unfold txn_facts; cbn [transaction_timestamp updated_at txn_status transaction_type
    product_id warehouse_id quantity_change is_reorder notes].
  split; [exact Hd |]. split; [exact Hh |]. split; [exact Hm |]. split; [reflexivity |].
  split; [exact (status_in_options _ _ _ _ _ H7) |].
  split; [apply in_all_pairs; split; [exact Hp | simpl in Hw; lia] |].
  split; [discriminate |]. intros _. split.
  - intros ->. simpl. exact (generate_quantity_inbound _ _ _ _ _ _ H5).
  - intros ->. simpl. lia.
Qed.

Lemma reorder_one_facts D o pid p wid acc s acc' s' :
  1 <= pid <= 41 -> In wid [1; 2; 3] ->
  reorder_one D o pid p wid acc s = inr (acc', s') ->
  acc' = acc \/ exists t, acc' = acc ++ [t] /\ txn_facts D t.
Proof.
  unfold reorder_one. intros Hp Hw H.
  apply bind_inr in H as (cur & s1 & H1 & H). cbv [gets] in H1. injection H1 as <- <-.
  apply bind_inr in H as (hist & s2 & H2 & H). cbv [gets] in H2. injection H2 as <- <-.
  cbv zeta in H.
  match type of H with (if ?b then _ else _) _ = _ => destruct b end;
    [| left; unfold ret in H; injection H as <- _; reflexivity].
  right.
  apply bind_inr in H as (q & s3 & H3 & H).
  apply bind_inr in H as (ts & s4 & H4 & H).
  apply bind_inr in H as (num & s5 & _ & H).
  apply bind_inr in H as ([] & s6 & _ & H).
  apply bind_inr in H as ([] & s7 & _ & H).
  apply bind_inr in H as (st & s8 & H8 & H).
  unfold ret in H. injection H as <- _.
  eexists. split; [reflexivity |].
  destruct (timestamp_ranges _ _ _ _ H4) as (Hd & Hh & Hm).
  unfold txn_facts; cbn [transaction_timestamp updated_at txn_status transaction_type
    product_id warehouse_id quantity_change is_reorder notes].
  split; [exact Hd |]. split; [exact Hh |]. split; [exact Hm |]. split; [reflexivity |].
  split; [exact (status_in_options _ _ _ _ _ H8) |].
  split; [apply in_all_pairs; split; [exact Hp | simpl in Hw; lia] |].
  split; [| discriminate]. intros _. split; [reflexivity |].
  pose proof (qmax_ge1 (zq (reorder_level p) * (12 # 10) - zq (get_current_inventory (inventory_levels s) pid wid))) as Hs.
  assert (Hs0 : (0 <= qmax 1 (zq (reorder_level p) * (12 # 10)
                  - zq (get_current_inventory (inventory_levels s) pid wid)))%Q)
    by (apply (Qle_trans _ 1); [discriminate | exact Hs]).
  destruct (qltb _ _) in H3; [| destruct (qltb _ _) in H3];
    (refine (scaled_draw_nonneg _ _ _ _ _ _ _ _ Hs0 H3); discriminate).
Qed.

Section Emitted.
Variable P : Z -> transaction -> Prop.
Hypothesis P_one : forall d f i s t s', one_transaction d f i s = inr (Some t, s') -> P d t.
Hypothesis P_reorder : forall d o pid p wid acc s acc' s',
  1 <= pid <= 41 -> In wid [1; 2; 3] ->
  reorder_one d o pid p wid acc s = inr (acc', s') ->
  acc' = acc \/ exists t, acc' = acc ++ [t] /\ P d t.

Lemma emitted_reorder_warehouses d o pid p wids acc s acc' s' :
  1 <= pid <= 41 -> incl wids [1; 2; 3] ->
  reorder_warehouses d o pid p wids acc s = inr (acc', s') ->
  exists l, acc' = acc ++ l /\ Forall (P d) l.
Proof.
  intros Hp. revert acc s. induction wids as [| w ws IH]; intros acc s Hw H;
    cbn [reorder_warehouses] in H.
  - unfold ret in H. injection H as <- _. exists []. rewrite app_nil_r. auto.
  - apply bind_inr in H as (a1 & s1 & H1 & H).
    destruct (IH _ _ (proj2 (incl_cons_inv Hw)) H) as (l & -> & Hl).
    destruct (P_reorder _ _ _ _ _ _ _ _ _ Hp (proj1 (incl_cons_inv Hw)) H1)
      as [-> | (t & -> & Ht)].
    + exists l. auto.
    + exists (t :: l). rewrite <- app_assoc. auto.
Qed.

Lemma emitted_reorder_products d o i ps acc s acc' s' :
  0 <= i -> i + Z.of_nat (List.length ps) <= 41 ->
  reorder_products d o i ps acc s = inr (acc', s') ->
  exists l, acc' = acc ++ l /\ Forall (P d) l.
Proof.
  revert i acc s. induction ps as [| p ps IH]; intros i acc s Hi Hn H;
    cbn [reorder_products] in H.
  - unfold ret in H. injection H as <- _. exists []. rewrite app_nil_r. auto.
  - apply bind_inr in H as (a1 & s1 & H1 & H). simpl in Hn.
    destruct (emitted_reorder_warehouses d o (i + 1) p [1; 2; 3] acc s a1 s1 ltac:(lia) (incl_refl _) H1)
      as (l1 & -> & Hl1).
    destruct (IH (i + 1) _ _ ltac:(lia) ltac:(lia) H) as (l2 & -> & Hl2).
    exists (l1 ++ l2). rewrite app_assoc. split; [reflexivity | apply Forall_app; auto].
Qed.

Lemma emitted_transactions_loop d f i n acc s acc' s' :
  transactions_loop d f i n acc s = inr (acc', s') ->
  exists l, acc' = acc ++ l /\ Forall (P d) l.
Proof.
  revert i acc s. induction n as [| n IH]; intros i acc s H; cbn [transactions_loop] in H.
  - unfold ret in H. injection H as <- _. exists []. rewrite app_nil_r. auto.
  - apply bind_inr in H as (o & s1 & H1 & H).
    destruct (IH _ _ _ H) as (l & -> & Hl).
    destruct o as [t |].
    + exists (t :: l). rewrite <- app_assoc. split; [reflexivity |].
      constructor; [exact (P_one _ _ _ _ _ _ H1) | exact Hl].
    + exists l. auto.
Qed.

Lemma emitted_daily d s l s' :
  generate_daily_transactions d s = inr (l, s') -> Forall (P d) l.
Proof.
  unfold generate_daily_transactions. intros H.
  apply bind_inr in H as (a1 & s1 & _ & H).
  apply bind_inr in H as (a2 & s2 & _ & H).
  apply bind_inr in H as (a3 & s3 & _ & H).
  apply bind_inr in H as (a4 & s4 & _ & H).
  apply bind_inr in H as (rt & s5 & H5 & H).
  assert (R : Forall (P d) rt).
  { destruct (weekday d <? 5).
    - apply bind_inr in H5 as (u & s6 & _ & H5).
      destruct (qltb u _).
      + unfold generate_reorder_transactions in H5.
        destruct (emitted_reorder_products d 0 0 products_data [] _ _ _ ltac:(lia) ltac:(simpl; lia) H5)
          as (l0 & -> & Hl0). exact Hl0.
      + unfold ret in H5. injection H5 as <- _. constructor.
    - unfold ret in H5. injection H5 as <- _. constructor. }
  apply bind_inr in H as (hf & s6 & _ & H).
  apply bind_inr in H as (txs & s7 & H7 & H).
  destruct (emitted_transactions_loop _ _ _ _ _ _ _ _ H7) as (l0 & -> & Hl0).
  apply bind_inr in H as (u & s8 & _ & H).
  unfold ret in H. injection H as <- _. apply Forall_app; auto.
Qed.

Lemma emitted_days_loop n : forall day c acc s r s',
  days_loop n day c acc s = inr (r, s') ->
  exists l, r = acc ++ l /\ Forall (fun t => exists k, 0 <= k < Z.of_nat n /\ P (c + k) t) l.
Proof.
  induction n as [| n IH]; intros day c acc s r s' H.
  - cbn [days_loop] in H. unfold ret in H. injection H as <- _.
    exists []. rewrite app_nil_r. auto.
  - destruct (days_loop_S _ _ _ _ _ _ _ H) as (daily & s1 & s2 & H1 & _ & H3).
    destruct (IH _ _ _ _ _ _ H3) as (l & -> & Hl).
    exists (daily ++ l). rewrite app_assoc. split; [reflexivity |].
    apply Forall_app. split.
    + apply Forall_impl with (2 := emitted_daily _ _ _ _ H1). intros t Ht.
      exists 0. split; [lia |]. rewrite Z.add_0_r. exact Ht.
    + apply Forall_impl with (2 := Hl). intros t (k & Hk & Ht).
      exists (k + 1). split; [lia |]. replace (c + (k + 1)) with (c + 1 + k) by lia. exact Ht.
Qed.

Lemma emitted_run now r np txns g :
  run now r np = inr (txns, g) ->
  Forall (fun t => exists k, 0 <= k < 3 * 365 /\ P (now - 3 * 365 + k) t) txns.
Proof.
  unfold run. destruct (TransactionGenerator now r np) as [e | g0] eqn:E; [discriminate |].
  intros H. destruct (generator_fresh _ _ _ _ E) as (_ & Hs & He).
  unfold generate_all_transactions in H.
  apply bind_inr in H as (n & s1 & H1 & H). cbv [gets] in H1. injection H1 as <- <-.
  apply bind_inr in H as (c & s2 & H2 & H). cbv [gets] in H2. injection H2 as <- <-.
  destruct (emitted_days_loop _ _ _ _ _ _ _ H) as (l & Hl & Hf). simpl in Hl. subst l.
  unfold total_days in Hf. rewrite Hs, He in Hf.
  replace (now - (now - 3 * 365)) with (3 * 365) in Hf by lia. exact Hf.
Qed.
End Emitted.

Lemma run_txn_facts now r np txns g :
  run now r np = inr (txns, g) ->
  Forall (fun t => exists k, 0 <= k < 3 * 365 /\ txn_facts (now - 3 * 365 + k) t) txns.
Proof.
  apply emitted_run; [exact one_txn_facts | exact reorder_one_facts].
Qed.

Definition keys_ok (s : gen_state) : Prop := map fst (inventory_levels s) = all_pairs.

Lemma keys_frame s s' : data s' = data s -> keys_ok s -> keys_ok s'.
Proof. unfold data, keys_ok. intros H. injection H. intros _ _ -> _ _. auto. Qed.

Lemma set_key_existing k v h : In k (map fst h) -> map fst (set_key k v h) = map fst h.
Proof.
  unfold set_key. induction h as [| [k0 v0] h IH]; simpl; [contradiction |].
  intros Hin. destruct (pair_eqb k k0) eqn:E; simpl; [reflexivity |].
  f_equal. apply IH. destruct Hin as [-> | Hin]; [rewrite pair_eqb_refl in E; discriminate | exact Hin].
Qed.

Lemma keys_update pid wid q :
  In (pid, wid) all_pairs -> preserves keys_ok (update_inventory pid wid q).
Proof.
  intros Hp. apply preserves_modify. intros s H. unfold keys_ok in *. simpl.
  unfold update_level. rewrite set_key_existing; [exact H |]. rewrite H. exact Hp.
Qed.

Lemma keys_record d : preserves keys_ok (record_inventory_snapshot d).
Proof. apply preserves_modify. intros s H. exact H. Qed.

Lemma keys_set_history f : preserves keys_ok (modify (fun s => set_history (f s) s)).
Proof. apply preserves_modify. intros s H. exact H. Qed.

Create HintDb keys_db.
#[local] Hint Resolve keys_record keys_set_history : keys_db.

Ltac keys_tac :=
  repeat match goal with
  | |- preserves _ (bind _ _) => apply preserves_bind; [| intro]
  | |- preserves _ (ret _) => apply preserves_ret
  | |- preserves _ (if ?b then _ else _) => destruct b
  | |- preserves _ (match ?x with _ => _ end) => destruct x
  | |- preserves _ (update_inventory _ _ _) =>
      apply keys_update; apply in_all_pairs; simpl in *; lia
  | |- preserves _ _ => solve [eauto with keys_db]
  | |- preserves _ _ => solve [apply preserves_keeps; [exact keys_frame | keeps_tac]]
  end.

Lemma keys_reorder_one d o pid p wid acc :
  1 <= pid <= 41 -> In wid [1; 2; 3] -> preserves keys_ok (reorder_one d o pid p wid acc).
Proof. intros Hp Hw. unfold reorder_one. keys_tac. Qed.

Lemma keys_reorder_warehouses d o pid p wids acc :
  1 <= pid <= 41 -> incl wids [1; 2; 3] ->
  preserves keys_ok (reorder_warehouses d o pid p wids acc).
Proof.
  intros Hp. revert acc; induction wids as [| w ws IH]; intros acc Hw;
    cbn [reorder_warehouses]; [apply preserves_ret |].
  apply preserves_bind; [apply keys_reorder_one; [exact Hp | exact (proj1 (incl_cons_inv Hw))] |].
  intros a. exact (IH a (proj2 (incl_cons_inv Hw))).
Qed.

Lemma keys_reorder_products d o i ps acc :
  0 <= i -> i + Z.of_nat (List.length ps) <= 41 ->
  preserves keys_ok (reorder_products d o i ps acc).
Proof.
  revert i acc; induction ps as [| p ps IH]; intros i acc Hi Hn;
    cbn [reorder_products]; [apply preserves_ret |].
  simpl in Hn. apply preserves_bind.
  - apply keys_reorder_warehouses; [lia | apply incl_refl].
  - intros a. apply IH; lia.
Qed.

Lemma keys_one_transaction d f i : preserves keys_ok (one_transaction d f i).
Proof.
  intros s o s' Hk H. unfold one_transaction in H.
  apply bind_inr in H as (ty & s1 & H1 & H).
  apply bind_inr in H as (c & s2 & H2 & H).
  apply bind_inr in H as (pid & s3 & H3 & H).
  apply bind_inr in H as (wid & s4 & H4 & H).
  apply bind_inr in H as (q & s5 & H5 & H).
  assert (K5 : keys_ok s5).
  { apply (keys_frame s); [| exact Hk].
    rewrite (keeps_generate_quantity _ _ _ _ _ _ _ H5), (keeps_select_warehouse _ _ _ _ H4),
      (keeps_select_product _ _ _ _ H3), (keeps_choices1 _ _ _ _ _ H2),
      (keeps_choices1 _ _ _ _ _ H1). reflexivity. }
  destruct (select_product_valid _ _ _ _ H3) as [Hp _].
  destruct (select_warehouse_in _ _ _ _ H4) as [Hw _].
  destruct (q =? 0); [unfold ret in H; injection H as _ <-; exact K5 |].
  match type of H with ?m _ = _ => assert (P : preserves keys_ok m) by keys_tac end.
  exact (P _ _ _ K5 H).
Qed.

#[local] Hint Resolve keys_one_transaction : keys_db.

Lemma keys_transactions_loop d f i n acc : preserves keys_ok (transactions_loop d f i n acc).
Proof. revert i acc; induction n; intros i acc; cbn [transactions_loop]; keys_tac. Qed.
#[local] Hint Resolve keys_transactions_loop : keys_db.

Lemma keys_generate_reorder d o : preserves keys_ok (generate_reorder_transactions d o).
Proof. unfold generate_reorder_transactions. apply keys_reorder_products; simpl; lia. Qed.
#[local] Hint Resolve keys_generate_reorder : keys_db.

Lemma keys_daily d : preserves keys_ok (generate_daily_transactions d).
Proof.
  unfold generate_daily_transactions. keys_tac.
Qed.
#[local] Hint Resolve keys_daily : keys_db.

Lemma keys_days_loop n day c acc : preserves keys_ok (days_loop n day c acc).
Proof.
  revert day c acc; induction n; intros day c acc; cbn [days_loop]; keys_tac.
Qed.

Lemma run_keys_ok now r np txns g :
  run now r np = inr (txns, g) -> map fst (inventory_levels g) = all_pairs.
Proof.
  unfold run. destruct (TransactionGenerator now r np) as [e | g0] eqn:E; [discriminate |].
  intros H. unfold generate_all_transactions in H.
  apply bind_inr in H as (n & s1 & H1 & H). cbv [gets] in H1. injection H1 as <- <-.
  apply bind_inr in H as (c & s2 & H2 & H). cbv [gets] in H2. injection H2 as <- <-.
  exact (keys_days_loop _ _ _ _ _ _ _ (TransactionGenerator_keys _ _ _ _ E) H).
Qed.

Lemma run_2025_some :
  exists txns g t, run day_2025_06_03 zero_stream zero_stream = inr (txns, g) /\ In t txns.
Proof.
  destruct run_2025_ok as (txns & g & E & Hd & _).
  destruct txns as [| t txns]; [discriminate |].
  exists (t :: txns), g, t. split; [exact E | left; reflexivity].
Defined.

Lemma run_txn_facts_in now r np txns g t :
  run now r np = inr (txns, g) -> In t txns ->
  now - 3 * 365 <= txn_day t < now /\ txn_facts (txn_day t) t.
Proof.
  intros E Hin. pose proof (proj1 (Forall_forall _ _) (run_txn_facts _ _ _ _ _ E) t Hin)
    as (k & Hk & Hf).
  destruct Hf as [Hd Hf]. unfold txn_day. split; [rewrite Hd; lia | split; [reflexivity | exact Hf]].
Qed.

(** Every transaction of a run lies in the simulated range of three years
    before [now], between 06:00 and 18:59, and its [updated_at] equals its
    [transaction_timestamp]. *)
Theorem run_txn_timestamp_ranges now r np txns g t :
  run now r np = inr (txns, g) -> In t txns ->
  now - 3 * 365 <= txn_day t < now
  /\ 6 <= ts_hour (transaction_timestamp t) <= 18
  /\ 0 <= ts_minute (transaction_timestamp t) <= 59
  /\ updated_at t = transaction_timestamp t.
Proof.
  intros E Hin. destruct (run_txn_facts_in _ _ _ _ _ _ E Hin) as (Hw & _ & Hh & Hm & Hu & _).
  tauto.
Qed.

Lemma run_txn_timestamp_ranges_witness :
  exists txns g t, run day_2025_06_03 zero_stream zero_stream = inr (txns, g) /\ In t txns
    /\ day_2025_06_03 - 3 * 365 <= txn_day t < day_2025_06_03
    /\ 6 <= ts_hour (transaction_timestamp t) <= 18
    /\ 0 <= ts_minute (transaction_timestamp t) <= 59
    /\ updated_at t = transaction_timestamp t.
Proof.
  destruct run_2025_some as (txns & g & t & E & Hin). exists txns, g, t.
  split; [exact E | split; [exact Hin |]].
  exact (run_txn_timestamp_ranges _ _ _ _ _ _ E Hin).
Defined.

(** Every transaction of a run has a status allowed for its type. *)
Theorem run_txn_status_allowed now r np txns g t :
  run now r np = inr (txns, g) -> In t txns ->
  In (txn_status t) (status_options (transaction_type t)).
Proof.
  intros E Hin. destruct (run_txn_facts_in _ _ _ _ _ _ E Hin) as (_ & _ & _ & _ & _ & Hs & _).
  exact Hs.
Qed.

Lemma run_txn_status_allowed_witness :
  exists txns g t, run day_2025_06_03 zero_stream zero_stream = inr (txns, g) /\ In t txns
    /\ In (txn_status t) (status_options (transaction_type t)).
Proof.
  destruct run_2025_some as (txns & g & t & E & Hin). exists txns, g, t.
  split; [exact E | split; [exact Hin |]].
  exact (run_txn_status_allowed _ _ _ _ _ _ E Hin).
Defined.

(** Every transaction of a run names a catalog product (1..41) and a
    warehouse (1..3). *)
Theorem run_txn_catalog_pair now r np txns g t :
  run now r np = inr (txns, g) -> In t txns ->
  1 <= product_id t <= 41 /\ 1 <= warehouse_id t <= 3.
Proof.
  intros E Hin. destruct (run_txn_facts_in _ _ _ _ _ _ E Hin) as (_ & _ & _ & _ & _ & _ & Hp & _).
  exact (proj1 (in_all_pairs _ _) Hp).
Qed.

Lemma run_txn_catalog_pair_witness :
  exists txns g t, run day_2025_06_03 zero_stream zero_stream = inr (txns, g) /\ In t txns
    /\ 1 <= product_id t <= 41 /\ 1 <= warehouse_id t <= 3.
Proof.
  destruct run_2025_some as (txns & g & t & E & Hin). exists txns, g, t.
  split; [exact E | split; [exact Hin |]].
  exact (run_txn_catalog_pair _ _ _ _ _ _ E Hin).
Defined.

(** In a run, sales remove stock, inbound transactions other than reorders
    add at least 3 units, and reorders are inbound with a non-negative
    quantity. *)
Theorem run_txn_quantity_signs now r np txns g t :
  run now r np = inr (txns, g) -> In t txns ->
  (transaction_type t = Sale -> quantity_change t < 0)
  /\ (transaction_type t = Inbound -> is_reorder t = false -> 3 <= quantity_change t)
  /\ (is_reorder t = true -> transaction_type t = Inbound /\ 0 <= quantity_change t).
Proof.
  intros E Hin. destruct (run_txn_facts_in _ _ _ _ _ _ E Hin) as (_ & _ & _ & _ & _ & _ & _ & Hr & Hn).
  split; [| split].
  - intros Hs. destruct (is_reorder t) eqn:R.
    + destruct (Hr eq_refl) as [Hi _]. congruence.
    + exact (proj2 (Hn eq_refl) Hs).
  - intros Hi R. exact (proj1 (Hn R) Hi).
  - exact Hr.
Qed.

Lemma run_txn_quantity_signs_witness :
  exists txns g t, run day_2025_06_03 zero_stream zero_stream = inr (txns, g) /\ In t txns
    /\ (transaction_type t = Sale -> quantity_change t < 0)
    /\ (transaction_type t = Inbound -> is_reorder t = false -> 3 <= quantity_change t)
    /\ (is_reorder t = true -> transaction_type t = Inbound /\ 0 <= quantity_change t).
Proof.
  destruct run_2025_some as (txns & g & t & E & Hin). exists txns, g, t.
  split; [exact E | split; [exact Hin |]].
  exact (run_txn_quantity_signs _ _ _ _ _ _ E Hin).
Defined.

(** After a run the inventory ledger holds exactly the 123 catalog pairs, in
    the order [initialize_inventory_levels] created them. *)
Theorem run_ledger_keys_exact now r np txns g :
  run now r np = inr (txns, g) ->
  map fst (inventory_levels g) = all_pairs /\ List.length (inventory_levels g) = 123%nat.
Proof.
  intros E. pose proof (run_keys_ok _ _ _ _ _ E) as H. split; [exact H |].
  rewrite <- (length_map fst), H. reflexivity.
Qed.

Lemma run_ledger_keys_exact_witness :
  exists txns g, run day_2025_06_03 zero_stream zero_stream = inr (txns, g)
    /\ map fst (inventory_levels g) = all_pairs /\ List.length (inventory_levels g) = 123%nat.
Proof.
  destruct run_2025_some as (txns & g & t & E & _). exists txns, g.
  split; [exact E | exact (run_ledger_keys_exact _ _ _ _ _ E)].
Defined.

(** [select_warehouse] returns a warehouse among 1..3; city products go to
    warehouses 1 or 2 and cargo products to warehouses 1 or 3. *)
Theorem select_warehouse_routing pid s w s' :
  select_warehouse pid s = inr (w, s') ->
  In w [1; 2; 3]
  /\ (In pid [2; 6; 11; 15; 20] -> In w [1; 2])
  /\ (In pid [3; 7; 12; 16] -> In w [1; 3]).
Proof.
  intros H. destruct (select_warehouse_in _ _ _ _ H) as (Hw & H2 & H3).
  split; [exact Hw | split; intros Hp].
  - specialize (H2 Hp). simpl in *. intuition.
  - specialize (H3 Hp). simpl in *. intuition.
Qed.

Lemma select_warehouse_routing_witness :
  exists w s', select_warehouse 2 (one_pair_state 0 [0]) = inr (w, s')
    /\ In w [1; 2; 3]
    /\ (In 2 [2; 6; 11; 15; 20] -> In w [1; 2])
    /\ (In 2 [3; 7; 12; 16] -> In w [1; 3]).
Proof.
  do 2 eexists. split; [vm_compute; reflexivity |].
  eapply (select_warehouse_routing 2 (one_pair_state 0 [0])). vm_compute. reflexivity.
Defined.

(** [select_product_for_category] always succeeds and returns the id of a
    catalog product of the requested category. *)
Theorem select_product_in_category c s :
  exists pid s', select_product_for_category c s = inr (pid, s')
  /\ 1 <= pid <= 41
  /\ exists p, py_index products_data (pid - 1) = Some p /\ category p = c.
Proof.
  destruct (select_product_for_category c s) as [e | [pid s']] eqn:E.
  - exfalso. unfold select_product_for_category, bind in E. destruct c; vm_compute in E; discriminate.
  - exists pid, s'. split; [reflexivity | exact (select_product_valid _ _ _ _ E)].
Qed.

(** After [update_inventory], the updated pair reads [max 0 (current + q)]
    and every other pair is unchanged; a new pair is appended to the ledger
    and an existing one keeps its place. *)
Theorem update_inventory_lookup lv pid wid q k :
  get_key k (update_level lv pid wid q)
  = (if pair_eqb k (pid, wid) then Some (Z.max 0 (get_current_inventory lv pid wid + q))
     else get_key k lv)
  /\ map fst (update_level lv pid wid q)
     = (if existsb (pair_eqb (pid, wid)) (map fst lv) then map fst lv
        else map fst lv ++ [(pid, wid)]).
Proof.
  unfold update_level. split.
  - destruct (pair_eqb k (pid, wid)) eqn:E.
    + apply pair_eqb_eq in E. subst k. apply get_set_same.
    + apply get_set_other. intros ->. rewrite pair_eqb_refl in E. discriminate.
  - generalize (Z.max 0 (get_current_inventory lv pid wid + q)) as v. intros v.
    unfold set_key. induction lv as [| [k0 v0] lv IH]; simpl; [reflexivity |].
    destruct (pair_eqb (pid, wid) k0); simpl; [reflexivity |]. rewrite IH.
    destruct (existsb (pair_eqb (pid, wid)) (map fst lv)); reflexivity.
Qed.

(** The seasonally adjusted transaction-type frequencies keep the order
    inbound, sale, adjustment, sum to 1, and give inbound the share
    [0.2 h / (0.2 h + 0.8)] for a seasonal factor [h >= 0]. *)
Theorem adjust_frequencies_normalised h :
  (0 <= h)%Q ->
  map fst (adjust_frequencies h) = [Inbound; Sale; Adjustment]
  /\ (fold_left (fun x kv => x + snd kv) (adjust_frequencies h) 0 == 1)%Q
  /\ (nth 0 (map snd (adjust_frequencies h)) 0 == (20 # 100) * h / ((20 # 100) * h + (80 # 100)))%Q.
Proof.
  intros Hh. unfold adjust_frequencies. simpl. split; [reflexivity |].
  assert (Ht : ~ (0 + (20 # 100) * h + (75 # 100) + (5 # 100) == 0)%Q) by lra.
  split.
  - field. lra.
  - field. repeat split; lra.
Qed.

Lemma adjust_frequencies_normalised_witness :
  (0 <= 1)%Q
  /\ map fst (adjust_frequencies 1) = [Inbound; Sale; Adjustment]
  /\ (fold_left (fun x kv => x + snd kv) (adjust_frequencies 1) 0 == 1)%Q
  /\ (nth 0 (map snd (adjust_frequencies 1)) 0 == (20 # 100) * 1 / ((20 # 100) * 1 + (80 # 100)))%Q.
Proof.
  split; [vm_compute; discriminate | exact (adjust_frequencies_normalised 1 ltac:(vm_compute; discriminate))].
Defined.

Lemma filter_length_mono {A} (f g : A -> bool) l :
  (forall x, f x = true -> g x = true) ->
  (List.length (filter f l) <= List.length (filter g l))%nat.
Proof.
  intros Hfg. induction l as [| x l IH]; simpl; [lia |].
  destruct (f x) eqn:F; [rewrite (Hfg x F); simpl; lia |]. destruct (g x); simpl; lia.
Qed.

Lemma count_healthy_total lv i ps :
  fst (count_healthy lv i ps) = 3 * Z.of_nat (List.length ps).
Proof.
  revert i. induction ps as [| p ps IH]; intros i; [reflexivity |].
  cbn [count_healthy List.length]. specialize (IH (i + 1)).
  destruct (count_healthy lv (i + 1) ps) as [t h]. cbn [fst] in *. rewrite Nat2Z.inj_succ. lia.
Qed.

Lemma count_healthy_mono lv1 lv2 i ps :
  (forall p w, get_current_inventory lv1 p w <= get_current_inventory lv2 p w) ->
  snd (count_healthy lv1 i ps) <= snd (count_healthy lv2 i ps).
Proof.
  intros Hle. revert i. induction ps as [| p ps IH]; intros i; cbn [count_healthy]; [simpl; lia |].
  specialize (IH (i + 1)).
  destruct (count_healthy lv1 (i + 1) ps) as [t1 h1], (count_healthy lv2 (i + 1) ps) as [t2 h2].
  cbn [snd] in *.
  assert (Hf : forall w,
    qltb (zq (reorder_level p) * (12 # 10)) (zq (get_current_inventory lv1 (i + 1) w)) = true ->
    qltb (zq (reorder_level p) * (12 # 10)) (zq (get_current_inventory lv2 (i + 1) w)) = true).
  { intros w H. apply qltb_spec in H. apply qltb_spec.
    apply Qlt_le_trans with (1 := H). unfold zq. rewrite <- Zle_Qle. apply Hle. }
  pose proof (filter_length_mono _ _ [1; 2; 3] Hf). lia.
Qed.

Ltac qltb_cases :=
  repeat match goal with
  | H : qltb ?x ?y = false |- _ =>
      assert (y <= x)%Q by (apply Qnot_lt_le; rewrite <- qltb_spec, H; discriminate); clear H
  | H : qltb _ _ = true |- _ => apply qltb_spec in H
  end.

(** Raising stock levels never raises the factor of
    [assess_inventory_health]: no fewer pairs are healthy, and the factor
    falls as the healthy share grows. *)
Theorem assess_inventory_health_antitone lv1 lv2 :
  (forall p w, get_current_inventory lv1 p w <= get_current_inventory lv2 p w) ->
  (assess_inventory_health lv2 <= assess_inventory_health lv1)%Q.
Proof.
  intros Hle. unfold assess_inventory_health.
  pose proof (count_healthy_mono lv1 lv2 0 products_data Hle) as Hm.
  pose proof (count_healthy_total lv1 0 products_data) as T1.
  pose proof (count_healthy_total lv2 0 products_data) as T2.
  destruct (count_healthy lv1 0 products_data) as [t1 h1],
    (count_healthy lv2 0 products_data) as [t2 h2].
  simpl in Hm, T1, T2. subst t1 t2. cbv [Z.eqb Z.of_nat List.length products_data Z.mul].
  set (r1 := (zq h1 / zq 123)%Q). set (r2 := (zq h2 / zq 123)%Q).
  assert (Hr : (r1 <= r2)%Q).
  { unfold r1, r2, Qdiv. apply Qmult_le_compat_r; [unfold zq; rewrite <- Zle_Qle; exact Hm |].
    vm_compute. discriminate. }
  clearbody r1 r2.
  destruct (qltb r1 (4 # 10)) eqn:A1; [| destruct (qltb r1 (6 # 10)) eqn:A2;
    [| destruct (qltb r1 (8 # 10)) eqn:A3; [| destruct (qltb r1 (9 # 10)) eqn:A4]]];
  (destruct (qltb r2 (4 # 10)) eqn:B1; [| destruct (qltb r2 (6 # 10)) eqn:B2;
    [| destruct (qltb r2 (8 # 10)) eqn:B3; [| destruct (qltb r2 (9 # 10)) eqn:B4]]]);
  qltb_cases; lra.
Qed.

Lemma assess_inventory_health_antitone_witness :
  (forall p w, get_current_inventory [] p w <= get_current_inventory [((1, 1), 100)] p w)
  /\ Qle (assess_inventory_health [((1, 1), 100)]) (assess_inventory_health []).
Proof.
  assert (H : forall p w, get_current_inventory [] p w <= get_current_inventory [((1, 1), 100)] p w).
  { intros p w. unfold get_current_inventory, get_key. simpl. destruct (pair_eqb _ _); lia. }
  split; [exact H | exact (assess_inventory_health_antitone _ _ H)].
Defined.

(** [cleanup_reorder_history] drops exactly the reorders older than 30 days,
    keeps the others, keeps the history keys distinct and touches neither
    the ledger nor the snapshots. *)
Theorem cleanup_reorder_history_effect c s u s' :
  NoDup (map fst (reorder_history s)) ->
  cleanup_reorder_history c s = inr (u, s') ->
  NoDup (map fst (reorder_history s'))
  /\ (forall k, get_key k (reorder_history s')
       = match get_key k (reorder_history s) with
         | Some d => if d <? c - 30 then None else Some d
         | None => None
         end)
  /\ inventory_levels s' = inventory_levels s
  /\ inventory_history s' = inventory_history s.
Proof.
  intros Hn H. unfold cleanup_reorder_history, modify in H. injection H as _ <-. simpl.
  split; [exact (proj1 (cleanup_history_spec c _ (0, 0) Hn)) |].
  split; [intros k; exact (proj2 (cleanup_history_spec c _ k Hn)) |].
  split; reflexivity.
Qed.


Lemma cleanup_reorder_history_effect_witness :
  NoDup (map fst (reorder_history history_state))
  /\ exists u s', cleanup_reorder_history 60 history_state = inr (u, s')
  /\ NoDup (map fst (reorder_history s'))
  /\ (forall k, get_key k (reorder_history s')
       = match get_key k (reorder_history history_state) with
         | Some d => if d <? 60 - 30 then None else Some d
         | None => None
         end)
  /\ inventory_levels s' = inventory_levels history_state
  /\ inventory_history s' = inventory_history history_state.
Proof.
  assert (Hn : NoDup (map fst (reorder_history history_state))).
  { simpl. constructor; [simpl; intros [H | []]; discriminate | constructor; [intros [] | constructor]]. }
  split; [exact Hn |]. do 2 eexists. split; [reflexivity |].
  exact (cleanup_reorder_history_effect 60 history_state _ _ Hn eq_refl).
Defined.

Definition digit_ch (c : ascii) : Prop := exists d, 0 <= d < 10 /\ c = digit_char d.

Lemma nat_of_digit_char d : 0 <= d < 10 -> nat_of_ascii (digit_char d) = (48 + Z.to_nat d)%nat.
Proof. intros H. unfold digit_char. apply nat_ascii_embedding. lia. Qed.

Lemma digit_value_char d : 0 <= d < 10 -> digit_value (digit_char d) = Some d.
Proof.
  intros H. unfold digit_value. rewrite nat_of_digit_char by exact H.
  replace ((48 <=? 48 + Z.to_nat d)%nat && (48 + Z.to_nat d <=? 57)%nat) with true
    by (symmetry; apply andb_true_iff; split; apply Nat.leb_le; lia).
  f_equal. lia.
Qed.

Lemma ascii_eqb_nat c c' : Ascii.eqb c c' = true -> nat_of_ascii c = nat_of_ascii c'.
Proof. intros H. apply Ascii.eqb_eq in H. subst. reflexivity. Qed.

Lemma digit_ch_facts c : digit_ch c ->
  py_space c = false /\ Ascii.eqb c "-"%char = false /\ Ascii.eqb c "+"%char = false
  /\ Ascii.eqb c "_"%char = false.
Proof.
  intros (d & Hd & ->).
  assert (E : d = 0 \/ d = 1 \/ d = 2 \/ d = 3 \/ d = 4 \/ d = 5 \/ d = 6 \/ d = 7 \/ d = 8 \/ d = 9)
    by lia.
  repeat destruct E as [-> | E]; subst; vm_compute; auto.
Qed.

Lemma digits_aux_chars f n acc :
  Forall digit_ch (list_ascii_of_string acc) ->
  Forall digit_ch (list_ascii_of_string (digits_aux f n acc)).
Proof.
  revert n acc. induction f as [| f IH]; intros n acc Hacc; [exact Hacc |].
  cbn [digits_aux]. assert (Hc : Forall digit_ch (list_ascii_of_string
                              (String (digit_char (n mod 10)) acc))).
  { constructor; [exists (n mod 10); split; [apply Z.mod_pos_bound; lia | reflexivity] | exact Hacc]. }
  destruct (n <? 10); [exact Hc | apply IH, Hc].
Qed.

Lemma parse_digits_aux f : forall n acc a b,
  0 <= n < 10 ^ Z.of_nat f -> (0 < f)%nat ->
  exists k, 0 <= k /\
    parse_digits (list_ascii_of_string (digits_aux f n acc)) a b
    = parse_digits (list_ascii_of_string acc) (a * 10 ^ k + n) true.
Proof.
  induction f as [| f IH]; intros n acc a b Hn Hf; [lia |].
  cbn [digits_aux]. assert (Hm : 0 <= n mod 10 < 10) by (apply Z.mod_pos_bound; lia).
  destruct (n <? 10) eqn:E.
  - apply Z.ltb_lt in E. exists 1. split; [lia |].
    cbn [list_ascii_of_string parse_digits]. rewrite digit_value_char by exact Hm.
    rewrite Z.mod_small by lia. f_equal; lia.
  - apply Z.ltb_ge in E.
    assert (Hf' : (0 < f)%nat).
    { destruct f; [simpl in Hn; lia | lia]. }
    assert (Hn' : 0 <= n / 10 < 10 ^ Z.of_nat f).
    { split; [apply Z.div_pos; lia |]. apply Z.div_lt_upper_bound; [lia |].
      rewrite Nat2Z.inj_succ, Z.pow_succ_r in Hn by lia. lia. }
    destruct (IH (n / 10) (String (digit_char (n mod 10)) acc) a b Hn' Hf') as (k & Hk & ->).
    exists (k + 1). split; [lia |].
    cbn [list_ascii_of_string parse_digits]. rewrite digit_value_char by exact Hm.
    f_equal. rewrite Z.pow_add_r by lia. pose proof (Z.div_mod n 10 ltac:(lia)). lia.
Qed.

Lemma drop_space_id l : Forall (fun c => py_space c = false) l -> drop_space l = l.
Proof. intros H. destruct l as [| c l]; [reflexivity |]. inversion H; subst. simpl. rewrite H2. reflexivity. Qed.

Lemma strip_space_id l : Forall (fun c => py_space c = false) l -> strip_space l = l.
Proof.
  intros H. unfold strip_space. rewrite (drop_space_id l H), drop_space_id; [apply rev_involutive |].
  apply Forall_rev, H.
Qed.

Definition key_in_range (n : Z) : Prop := - 10 ^ 64 < n < 10 ^ 64.

Lemma py_int_of_string_of_Z n : key_in_range n -> py_int_of_str (string_of_Z n) = Some n.
Proof.
  intros Hr. unfold key_in_range in Hr. unfold py_int_of_str, string_of_Z.
  destruct (n <? 0) eqn:En.
  - apply Z.ltb_lt in En.
    assert (Hd := digits_aux_chars 64 (- n) EmptyString (Forall_nil _)).
    rewrite strip_space_id.
    2: { cbn [list_ascii_of_string]. constructor; [reflexivity |].
         eapply Forall_impl; [| exact Hd]. intros c Hc. apply (digit_ch_facts c Hc). }
    cbn [list_ascii_of_string]. simpl Ascii.eqb.
    destruct (parse_digits_aux 64 (- n) EmptyString 0 false ltac:(lia) ltac:(lia)) as (k & _ & ->).
    simpl. f_equal; lia.
  - apply Z.ltb_ge in En.
    assert (Hd := digits_aux_chars 64 n EmptyString (Forall_nil _)).
    rewrite strip_space_id.
    2: { eapply Forall_impl; [| exact Hd]. intros c Hc. apply (digit_ch_facts c Hc). }
    destruct (parse_digits_aux 64 n EmptyString 0 false ltac:(lia) ltac:(lia)) as (k & _ & Hp).
    destruct (list_ascii_of_string (digits_aux 64 n EmptyString)) as [| c l] eqn:El.
    + simpl in Hp. discriminate.
    + inversion Hd as [| c' l' Hc Hl]; subst.
      destruct (digit_ch_facts c Hc) as (_ & -> & -> & _). rewrite Hp. simpl. f_equal; lia.
Qed.

Definition no_sep (sep : ascii) (s : string) : Prop :=
  Forall (fun c => Ascii.eqb c sep = false) (list_ascii_of_string s).

Lemma str_split_app sep x rest p ps :
  no_sep sep x -> str_split sep rest = p :: ps ->
  str_split sep (x ++ rest) = (x ++ p)%string :: ps.
Proof.
  unfold no_sep. intros H Hr. induction x as [| ch x IH]; simpl; [exact Hr |].
  inversion H as [| c l Hc Hl]; subst. rewrite Hc, (IH Hl). reflexivity.
Qed.

Lemma string_app_empty s : (s ++ EmptyString)%string = s.
Proof. induction s as [| c s IH]; simpl; [reflexivity | rewrite IH; reflexivity]. Qed.

Lemma str_split_single sep x : no_sep sep x -> str_split sep x = [x].
Proof.
  intros H. rewrite <- (string_app_empty x) at 1.
  rewrite (str_split_app sep x EmptyString EmptyString [] H eq_refl), string_app_empty. reflexivity.
Qed.

Lemma string_of_Z_no_sep n : no_sep "_"%char (string_of_Z n).
Proof.
  unfold no_sep, string_of_Z. destruct (n <? 0).
  - cbn [list_ascii_of_string]. constructor; [reflexivity |].
    eapply Forall_impl; [| apply digits_aux_chars, Forall_nil].
    intros c Hc. apply (digit_ch_facts c Hc).
  - eapply Forall_impl; [| apply digits_aux_chars, Forall_nil].
    intros c Hc. apply (digit_ch_facts c Hc).
Qed.

Lemma parse_snapshot_key_of p w :
  key_in_range p -> key_in_range w -> parse_snapshot_key (snapshot_key p w) = inr (p, w).
Proof.
  intros Hp Hw. unfold parse_snapshot_key, snapshot_key.
  change ("P" ++ string_of_Z p ++ "_W" ++ string_of_Z w)%string
    with (String "P" (string_of_Z p ++ String "_" (String "W" (string_of_Z w)))).
  assert (Hs : str_split "_" (String "P" (string_of_Z p ++ String "_" (String "W" (string_of_Z w))))
               = [String "P" (string_of_Z p); String "W" (string_of_Z w)]).
  { assert (HW : str_split "_" (String "_" (String "W" (string_of_Z w)))
                 = [EmptyString; String "W" (string_of_Z w)]).
    { change (str_split "_" (String "_" (String "W" (string_of_Z w))))
        with (EmptyString :: str_split "_" (String "W" (string_of_Z w))).
      rewrite (str_split_single "_" (String "W" (string_of_Z w))); [reflexivity |].
      constructor; [reflexivity | apply string_of_Z_no_sep]. }
    change (str_split "_" (String "P" (string_of_Z p ++ String "_" (String "W" (string_of_Z w)))))
      with (match str_split "_" (string_of_Z p ++ String "_" (String "W" (string_of_Z w))) with
            | q :: qs => String "P" q :: qs
            | [] => [String "P" EmptyString]
            end).
    rewrite (str_split_app _ _ _ _ _ (string_of_Z_no_sep p) HW), string_app_empty. reflexivity. }
  rewrite Hs. cbn [str_tail]. rewrite !py_int_of_string_of_Z by assumption. reflexivity.
Qed.

Lemma snapshot_key_inj p w p' w' :
  key_in_range p -> key_in_range w -> key_in_range p' -> key_in_range w' ->
  snapshot_key p w = snapshot_key p' w' -> (p, w) = (p', w').
Proof.
  intros H1 H2 H3 H4 E. pose proof (parse_snapshot_key_of p w H1 H2) as A.
  rewrite E, (parse_snapshot_key_of p' w' H3 H4) in A. congruence.
Qed.

Definition pair_in_range (kv : (Z * Z) * Z) : Prop :=
  key_in_range (fst (fst kv)) /\ key_in_range (snd (fst kv)).

Definition key_entry (kv : (Z * Z) * Z) : string * Z :=
  let '((p, w), l) := kv in (snapshot_key p w, l).

Lemma snapshot_fold lv (acc : list (string * Z)) :
  NoDup (map fst lv) -> Forall pair_in_range lv ->
  (forall kv, In kv lv -> ~ In (fst (key_entry kv)) (map fst acc)) ->
  fold_left (fun acc '((p, w), l) => dict_set String.eqb (snapshot_key p w) l acc) lv acc
  = acc ++ map key_entry lv.
Proof.
  revert acc. induction lv as [| [[p w] l] lv IH]; intros acc Hn Hr Hf; simpl; [symmetry; apply app_nil_r |].
  inversion Hn as [| x y Hnin Hn']; subst. inversion Hr as [| x y Hr1 Hr']; subst.
  rewrite dict_set_fresh.
  2: { intros k' Hk'. apply String.eqb_neq. intros <-. exact (Hf _ (or_introl eq_refl) Hk'). }
  rewrite IH; [rewrite <- app_assoc; reflexivity | exact Hn' | exact Hr' |].
  intros [[p' w'] l'] Hin. simpl. rewrite map_app, in_app_iff. intros [H | [H | []]].
  - exact (Hf _ (or_intror Hin) H).
  - pose proof (proj1 (Forall_forall _ _) Hr' _ Hin) as [R1 R2]. destruct Hr1 as [R3 R4].
    simpl in *. apply Hnin. apply (snapshot_key_inj p w p' w' R3 R4 R1 R2) in H.
    rewrite H. apply (in_map fst _ ((p', w'), l') Hin).
Qed.

Lemma snapshot_of_entries d lv :
  NoDup (map fst lv) -> Forall pair_in_range lv ->
  snap_levels (snapshot_of d lv) = map key_entry lv.
Proof.
  intros Hn Hr. unfold snapshot_of. cbn [snap_levels].
  rewrite snapshot_fold; [reflexivity | exact Hn | exact Hr | intros kv _ []].
Qed.

Definition entry_row (date : Z) (kv : (Z * Z) * Z) : history_row :=
  let '((p, w), l) := kv in mkRow date p w l.

Lemma snapshot_rows_entries d lv :
  Forall pair_in_range lv -> snapshot_rows d (map key_entry lv) = inr (map (entry_row d) lv).
Proof.
  induction lv as [| [[p w] l] lv IH]; intros Hr; [reflexivity |].
  inversion Hr as [| x y [R1 R2] Hr']; subst. simpl in R1, R2. cbn [map key_entry snapshot_rows].
  rewrite (parse_snapshot_key_of p w R1 R2), (IH Hr'). reflexivity.
Qed.

Fixpoint pairs_nodupb (l : list (Z * Z)) : bool :=
  match l with
  | [] => true
  | x :: l' => negb (existsb (pair_eqb x) l') && pairs_nodupb l'
  end.

Lemma pairs_nodupb_NoDup l : pairs_nodupb l = true -> NoDup l.
Proof.
  induction l as [| x l IH]; simpl; intros H; [constructor |].
  apply andb_true_iff in H as [H1 H2]. constructor; [| exact (IH H2)].
  intros Hin. apply negb_true_iff in H1. enough (existsb (pair_eqb x) l = true) by congruence.
  apply existsb_exists. exists x. split; [exact Hin | apply pair_eqb_refl].
Qed.

Lemma all_pairs_NoDup : NoDup all_pairs.
Proof. apply pairs_nodupb_NoDup. vm_compute. reflexivity. Qed.

Lemma catalog_entry_in_range lv :
  map fst lv = all_pairs -> NoDup (map fst lv) /\ Forall pair_in_range lv.
Proof.
  intros H. split; [rewrite H; exact all_pairs_NoDup |].
  apply Forall_forall. intros [[p w] l] Hin.
  assert (Hp : In (p, w) all_pairs) by (rewrite <- H; exact (in_map fst _ _ Hin)).
  apply in_all_pairs in Hp. assert (H64 : 41 < 10 ^ 64) by reflexivity.
  unfold pair_in_range, key_in_range. cbn [fst snd]. split; split; lia.
Qed.

Definition snapshot_good (lo hi : Z) (sn : snapshot) : Prop :=
  exists lv, map fst lv = all_pairs /\ nonneg_entries lv /\ lo <= snap_date sn < hi
    /\ sn = snapshot_of (snap_date sn) lv.

Definition row_pair (r : history_row) : Z * Z := (row_product_id r, row_warehouse_id r).

Lemma history_rows_good lo hi h :
  Forall (snapshot_good lo hi) h ->
  exists rows, history_rows h = inr rows
    /\ map row_pair rows = List.concat (map (fun _ => all_pairs) h)
    /\ Forall (fun r => 0 <= row_inventory_level r /\ lo <= row_date r < hi) rows.
Proof.
  induction h as [| sn h IH]; intros Hg; [exists []; split; [reflexivity | split; constructor] |].
  inversion Hg as [| x y (lv & Hk & Hnn & Hd & Hsn) Hg']; subst.
  destruct (IH Hg') as (rows & Hr & Hp & Hf).
  destruct (catalog_entry_in_range lv Hk) as [Hn Hrg].
  exists (map (entry_row (snap_date sn)) lv ++ rows). cbn [history_rows].
  rewrite Hsn. change (snap_date (snapshot_of (snap_date sn) lv)) with (snap_date sn).
  rewrite (snapshot_of_entries _ lv Hn Hrg), (snapshot_rows_entries _ lv Hrg), Hr.
  split; [reflexivity |]. split.
  - rewrite map_app, Hp. cbn [map List.concat]. f_equal. rewrite <- Hk, map_map.
    apply map_ext. intros [[p w] l]. reflexivity.
  - apply Forall_app. split; [| exact Hf]. apply Forall_forall. intros r Hin.
    apply in_map_iff in Hin as ([[p w] l] & <- & Hin). simpl.
    split; [exact (proj1 (Forall_forall _ _) Hnn _ Hin) | exact Hd].
Qed.

Lemma run_history_good now r np txns g :
  run now r np = inr (txns, g) ->
  List.length (inventory_history g) = 1095%nat
  /\ Forall (snapshot_good (now - 3 * 365) now) (inventory_history g).
Proof.
  unfold run. destruct (TransactionGenerator now r np) as [e | g0] eqn:E; [discriminate |].
  intros H. destruct (generator_fresh _ _ _ _ E) as (Hh & Hs & He).
  unfold generate_all_transactions in H.
  apply bind_inr in H as (n & s1 & H1 & H). cbv [gets] in H1. injection H1 as <- <-.
  apply bind_inr in H as (c & s2 & H2 & H). cbv [gets] in H2. injection H2 as <- <-.
  destruct (days_loop_snapshots _ _ _ _ _ _ _ H) as (_ & Hlen & Hk).
  rewrite Hh in Hlen, Hk. unfold total_days in *. rewrite Hs, He in *.
  replace (Z.to_nat (now - (now - 3 * 365))) with 1095%nat in * by lia.
  cbn [List.length Nat.add] in Hlen. split; [exact Hlen |]. apply Forall_forall. intros sn Hin.
  destruct (In_nth_error _ _ Hin) as (k & Hnth).
  assert (Hkl : (k < 1095)%nat) by (rewrite <- Hlen; apply nth_error_Some; congruence).
  destruct (Hk k Hkl) as (acc & s_k & Hsk & Hnth'). simpl in Hnth'.
  rewrite Hnth in Hnth'. injection Hnth' as ->.
  exists (inventory_levels s_k). cbn [snap_date snapshot_of]. split; [| split; [| split]].
  - exact (keys_days_loop _ _ _ _ _ _ _ (TransactionGenerator_keys _ _ _ _ E) Hsk).
  - exact (proj1 (pres_days_loop _ _ _ _ _ _ _ (generator_ledger_ok _ _ _ _ E) Hsk)).
  - lia.
  - reflexivity.
Qed.

Lemma concat_repeat_length {A} (l : list A) n :
  List.length (List.concat (repeat l n)) = (n * List.length l)%nat.
Proof. induction n as [| n IH]; simpl; [reflexivity | rewrite length_app, IH; lia]. Qed.

Lemma map_const_repeat {A B} (b : B) (l : list A) : map (fun _ => b) l = repeat b (List.length l).
Proof. induction l as [| a l IH]; simpl; [reflexivity | rewrite IH; reflexivity]. Qed.

(** The CSV export parses a snapshot key back into the product and warehouse
    ids it was built from. *)
Theorem snapshot_key_parse_roundtrip p w :
  key_in_range p -> key_in_range w -> parse_snapshot_key (snapshot_key p w) = inr (p, w).
Proof. exact (parse_snapshot_key_of p w). Qed.

Lemma snapshot_key_parse_roundtrip_witness :
  key_in_range (-7) /\ key_in_range 120
  /\ parse_snapshot_key (snapshot_key (-7) 120) = inr (-7, 120).
Proof.
  assert (H1 : key_in_range (-7)) by (unfold key_in_range; split; reflexivity).
  assert (H2 : key_in_range 120) by (unfold key_in_range; split; reflexivity).
  split; [exact H1 | split; [exact H2 | exact (snapshot_key_parse_roundtrip _ _ H1 H2)]].
Defined.

Lemma parse_snapshot_key_no_separator key n :
  no_sep "_"%char key -> py_int_of_str (str_tail key) = Some n ->
  parse_snapshot_key key = inl IndexError.
Proof.
  intros Hs Hn. unfold parse_snapshot_key. rewrite (str_split_single _ _ Hs), Hn. reflexivity.
Qed.

Lemma category_eqb_eq a b : category_eqb a b = true <-> a = b.
Proof. destruct a, b; simpl; split; congruence. Qed.

Lemma category_eqb_sym a b : category_eqb a b = category_eqb b a.
Proof. destruct a, b; reflexivity. Qed.

Lemma add_product_get c c' pid d :
  dict_get category_eqb c (add_product c' pid d)
  = if category_eqb c c' then
      match dict_get category_eqb c d with Some l => Some (l ++ [pid]) | None => Some [pid] end
    else dict_get category_eqb c d.
Proof.
  induction d as [| [c0 l0] d IH]; simpl; [destruct (category_eqb c c'); reflexivity |].
  destruct (category_eqb c' c0) eqn:E1; simpl.
  - apply category_eqb_eq in E1. subst c0.
    destruct (category_eqb c c'); reflexivity.
  - rewrite IH. destruct (category_eqb c c0) eqn:E2; [| reflexivity].
    apply category_eqb_eq in E2. subst c0. rewrite category_eqb_sym, E1. reflexivity.
Qed.

Lemma build_categories_get c : forall ps i d,
  dict_get category_eqb c (build_categories i ps d)
  = match dict_get category_eqb c d, category_positions c i ps with
    | Some l, ids => Some (l ++ ids)
    | None, [] => None
    | None, ids => Some ids
    end.
Proof.
  induction ps as [| p ps IH]; intros i d; simpl.
  - destruct (dict_get category_eqb c d); [rewrite app_nil_r |]; reflexivity.
  - rewrite IH, add_product_get, (category_eqb_sym c (category p)).
    destruct (category_eqb (category p) c), (dict_get category_eqb c d);
      try (rewrite <- app_assoc); destruct (category_positions c (i + 1) ps); reflexivity.
Qed.

(** [build_product_categories] maps a category to the 1-based ids of its
    products in catalog order, and has no entry for an empty category. *)
Theorem build_product_categories_positions ps c :
  dict_get category_eqb c (build_categories 0 ps [])
  = match category_positions c 0 ps with [] => None | ids => Some ids end.
Proof. rewrite build_categories_get. reflexivity. Qed.

(** Doubling single quotes in [save_to_sql] is undone by reading the SQL
    string literal back: the literal ends at the first unpaired quote. *)
Theorem escape_quotes_roundtrip s rest :
  (forall c rest', rest = String c rest' -> c <> "'"%char) ->
  read_sql_literal (escape_quotes s ++ String "'"%char rest) = Some (s, rest).
Proof.
  intros Hr. induction s as [| c s IH]; simpl.
  - destruct rest as [| c rest']; [reflexivity |].
    specialize (Hr c rest' eq_refl).
    destruct (Ascii.eqb c "'") eqn:E; [apply Ascii.eqb_eq in E; contradiction | reflexivity].
  - destruct (Ascii.eqb c "'") eqn:E.
    + apply Ascii.eqb_eq in E. subst c. simpl. rewrite IH. reflexivity.
    + simpl. rewrite E, IH. reflexivity.
Qed.

Lemma escape_quotes_roundtrip_witness :
  (forall c rest', ", 5)"%string = String c rest' -> c <> "'"%char)
  /\ read_sql_literal (escape_quotes "O'Brien's" ++ String "'"%char ", 5)") = Some ("O'Brien's"%string, ", 5)"%string).
Proof.
  assert (H : forall c rest', ", 5)"%string = String c rest' -> c <> "'"%char).
  { intros c rest' E. injection E as <- _. discriminate. }
  split; [exact H | exact (escape_quotes_roundtrip "O'Brien's" _ H)].
Defined.

Lemma py_index_in_range {A} (l : list A) i :
  0 <= i < Z.of_nat (List.length l) -> exists x, py_index l i = Some x.
Proof.
  intros H. unfold py_index.
  replace ((0 <=? i) && (i <? Z.of_nat (List.length l))) with true
    by (symmetry; apply andb_true_iff; split; [apply Z.leb_le | apply Z.ltb_lt]; lia).
  destruct (nth_error l (Z.to_nat i)) as [x |] eqn:E; [exists x; reflexivity |].
  apply nth_error_None in E. lia.
Qed.

Definition summary_key (kv : (Z * Z) * Z) : string := snapshot_key (fst (fst kv)) (snd (fst kv)).

Definition summary_facts (out : list (string * summary_entry)) (kv : (Z * Z) * Z) : Prop :=
  exists e pr, In (summary_key kv, e) out
    /\ py_index products_data (fst (fst kv) - 1) = Some pr
    /\ current_inventory e = snd kv
    /\ entry_reorder_level e = reorder_level pr
    /\ ((entry_status e = "healthy"%string /\ reorder_level pr < snd kv)
        \/ (entry_status e = "needs_reorder"%string /\ snd kv <= reorder_level pr)).

Lemma summary_levels_ok lv : forall acc,
  NoDup (map fst lv) -> Forall (fun kv => In (fst kv) all_pairs) lv ->
  (forall kv, In kv lv -> ~ In (summary_key kv) (map fst acc)) ->
  exists out, summary_levels lv acc = inr (acc ++ out)
    /\ map fst out = map summary_key lv
    /\ Forall (summary_facts out) lv.
Proof.
  induction lv as [| [[p w] l] lv IH]; intros acc Hn Hin Hf.
  - exists []. rewrite app_nil_r. split; [reflexivity | split; constructor].
  - inversion Hn as [| x y Hnin Hn']; subst. inversion Hin as [| x y Hpw Hin']; subst.
    simpl in Hpw. apply in_all_pairs in Hpw.
    destruct (py_index_in_range products_data (p - 1)) as [pr Hpr]; [simpl; lia |].
    destruct (py_index_in_range product_names (p - 1)) as [nm Hnm]; [simpl; lia |].
    destruct (py_index_in_range warehouse_names (w - 1)) as [wn Hwn]; [simpl; lia |].
    set (e := mkEntry nm (category_name (category pr)) wn l (reorder_level pr)
                (if reorder_level pr <? l then "healthy" else "needs_reorder")).
    assert (Hstep : summary_levels (((p, w), l) :: lv) acc
                    = summary_levels lv (acc ++ [(snapshot_key p w, e)])).
    { cbn [summary_levels]. rewrite Hpr, Hnm, Hwn. rewrite dict_set_fresh; [reflexivity |].
      intros k' Hk'. apply String.eqb_neq. intros <-. exact (Hf _ (or_introl eq_refl) Hk'). }
    destruct (IH (acc ++ [(snapshot_key p w, e)]) Hn' Hin') as (out & Hout & Hk & Hfacts).
    { intros [[p' w'] l'] Hkv. unfold summary_key. simpl.
      rewrite map_app, in_app_iff. intros [H | [H | []]].
      - exact (Hf _ (or_intror Hkv) H).
      - pose proof (proj1 (Forall_forall _ _) Hin' _ Hkv) as Hpw'. simpl in Hpw'.
        apply in_all_pairs in Hpw'. simpl in H.
        assert (H64 : 41 < 10 ^ 64) by reflexivity.
        apply snapshot_key_inj in H; try (unfold key_in_range; lia).
        apply Hnin. rewrite H. exact (in_map fst _ ((p', w'), l') Hkv). }
    exists ((snapshot_key p w, e) :: out). rewrite Hstep, Hout, <- app_assoc.
    split; [reflexivity |]. split; [simpl; rewrite Hk; reflexivity |].
    constructor.
    + exists e, pr. split; [left; reflexivity |]. split; [exact Hpr |].
      split; [reflexivity |]. split; [reflexivity |]. simpl.
      destruct (reorder_level pr <? l) eqn:E; [left | right]; split; try reflexivity.
      * apply Z.ltb_lt, E.
      * apply Z.ltb_ge, E.
    + eapply Forall_impl; [| exact Hfacts]. intros kv (e' & pr' & H1 & H2).
      exists e', pr'. split; [right; exact H1 | exact H2].
Qed.

(** After a run, [generate_inventory_summary] lists every catalog pair under
    its snapshot key with statistics 41 products, 3 warehouses and 123
    combinations; each entry has the ledger's level and is healthy exactly
    when the level exceeds the reorder level. *)
Theorem run_inventory_summary now r np txns g :
  run now r np = inr (txns, g) ->
  exists entries, generate_inventory_summary (inventory_levels g) = inr (entries, mkStats 41 3 123)
    /\ map fst entries = map (fun pw => snapshot_key (fst pw) (snd pw)) all_pairs
    /\ Forall (summary_facts entries) (inventory_levels g).
Proof.
  intros E. pose proof (run_keys_ok _ _ _ _ _ E) as Hk.
  destruct (summary_levels_ok (inventory_levels g) []) as (out & Hout & Hkeys & Hf).
  - rewrite Hk. exact all_pairs_NoDup.
  - apply Forall_forall. intros kv Hin. rewrite <- Hk. exact (in_map fst _ _ Hin).
  - intros kv _ [].
  - exists out. unfold generate_inventory_summary. rewrite Hout.
    assert (Hl : List.length (inventory_levels g) = 123%nat)
      by (rewrite <- (length_map fst), Hk; reflexivity).
    rewrite Hl. split; [reflexivity |]. split; [| exact Hf].
    rewrite Hkeys, <- Hk, map_map. reflexivity.
Qed.

Lemma run_inventory_summary_witness :
  exists txns g, run day_2025_06_03 zero_stream zero_stream = inr (txns, g)
  /\ exists entries, generate_inventory_summary (inventory_levels g) = inr (entries, mkStats 41 3 123)
    /\ map fst entries = map (fun pw => snapshot_key (fst pw) (snd pw)) all_pairs
    /\ Forall (summary_facts entries) (inventory_levels g).
Proof.
  destruct run_2025_some as (txns & g & t & E & _). exists txns, g.
  split; [exact E | exact (run_inventory_summary _ _ _ _ _ E)].
Defined.

Definition stage (c : bool) (lo hi : Z) (sfx : string) (r : df_row) : df_row :=
  if c then tag_row (midnight lo) (midnight hi) sfx r else r.

Lemma nth_error_cond (c : bool) lo hi sfx df i :
  nth_error (if c then tag_rows (midnight lo) (midnight hi) sfx df else df) i
  = option_map (stage c lo hi sfx) (nth_error df i).
Proof.
  destruct c; unfold tag_rows.
  - apply nth_error_map.
  - destruct (nth_error df i); reflexivity.
Qed.

Lemma nth_error_special s e df i :
  nth_error (add_special_events s e df) i
  = option_map
      (fun r =>
         stage (dt_le s (midnight (days_from_civil 2022 3 1))
                && dt_le (midnight (days_from_civil 2022 6 30)) e)
           (days_from_civil 2022 3 1) (days_from_civil 2022 6 30) " - Supply chain disruption"
           (stage (dt_le s (midnight (days_from_civil 2024 11 29))
                   && dt_le (midnight (days_from_civil 2024 11 29)) e)
              (days_from_civil 2024 11 29 - 3) (days_from_civil 2024 11 29 + 3)
              " - Black Friday rush"
              (stage (dt_le s (midnight (days_from_civil 2023 11 24))
                      && dt_le (midnight (days_from_civil 2023 11 24)) e)
                 (days_from_civil 2023 11 24 - 3) (days_from_civil 2023 11 24 + 3)
                 " - Black Friday rush"
                 (stage (dt_le s (midnight (days_from_civil 2022 11 25))
                         && dt_le (midnight (days_from_civil 2022 11 25)) e)
                    (days_from_civil 2022 11 25 - 3) (days_from_civil 2022 11 25 + 3)
                    " - Black Friday rush" r))))
      (nth_error df i).
Proof.
  unfold add_special_events, black_friday_dates. cbn [fold_left]. cbv zeta.
  rewrite !nth_error_cond. destruct (nth_error df i); reflexivity.
Qed.

Lemma stage_txn c lo hi sfx r : df_txn (stage c lo hi sfx r) = df_txn r.
Proof.
  unfold stage, tag_row. destruct c; [| reflexivity].
  destruct (_ && _); reflexivity.
Qed.

Lemma stage_notes c lo hi sfx r :
  0 < dt_time (df_timestamp r) ->
  df_notes (stage c lo hi sfx r)
  = (df_notes r ++ (if c && (Z.leb lo (dt_day (df_timestamp r)) && Z.ltb (dt_day (df_timestamp r)) hi)
                    then sfx else EmptyString))%string.
Proof.
  intros Ht. unfold stage, tag_row, dt_le, midnight. cbn [dt_day dt_time].
  destruct c; cbn [andb]; [| symmetry; apply string_app_empty].
  destruct (Z.ltb_spec lo (dt_day (df_timestamp r)));
  destruct (Z.eqb_spec lo (dt_day (df_timestamp r)));
  destruct (Z.leb_spec 0 (dt_time (df_timestamp r)));
  destruct (Z.ltb_spec (dt_day (df_timestamp r)) hi);
  destruct (Z.eqb_spec (dt_day (df_timestamp r)) hi);
  destruct (Z.leb_spec (dt_time (df_timestamp r)) 0);
  destruct (Z.leb_spec lo (dt_day (df_timestamp r)));
  cbn [andb orb]; try lia; try reflexivity; symmetry; apply string_app_empty.
Qed.

Lemma window_spec lo hi d : (lo <=? d) && (d <? hi) = true <-> lo <= d < hi.
Proof. rewrite andb_true_iff, Z.leb_le, Z.ltb_lt. tauto. Qed.

Lemma black_friday_window_iff s e d :
  black_friday_window s e d <->
  (dt_le s (midnight (days_from_civil 2022 11 25))
     && dt_le (midnight (days_from_civil 2022 11 25)) e
     && ((days_from_civil 2022 11 25 - 3 <=? d) && (d <? days_from_civil 2022 11 25 + 3))
   || dt_le s (midnight (days_from_civil 2023 11 24))
     && dt_le (midnight (days_from_civil 2023 11 24)) e
     && ((days_from_civil 2023 11 24 - 3 <=? d) && (d <? days_from_civil 2023 11 24 + 3))
   || dt_le s (midnight (days_from_civil 2024 11 29))
     && dt_le (midnight (days_from_civil 2024 11 29)) e
     && ((days_from_civil 2024 11 29 - 3 <=? d) && (d <? days_from_civil 2024 11 29 + 3)))
  = true.
Proof.
  unfold black_friday_window, black_friday_dates.
  rewrite !orb_true_iff, !andb_true_iff, !Z.leb_le, !Z.ltb_lt. split.
  - intros (bf & Hin & H1 & H2 & H3). cbn [In] in Hin.
    destruct Hin as [<- | [<- | [<- | []]]]; [left; left | left; right | right];
      repeat split; auto; lia.
  - intros [[H | H] | H]; destruct H as [[H1 H2] H3];
      [exists (days_from_civil 2022 11 25) | exists (days_from_civil 2023 11 24)
      | exists (days_from_civil 2024 11 29)];
      (split; [cbn [In]; tauto | repeat split; auto; lia]).
Qed.

Lemma covid_window_iff s e d :
  covid_window s e d <->
  dt_le s (midnight (days_from_civil 2022 3 1))
    && dt_le (midnight (days_from_civil 2022 6 30)) e
    && ((days_from_civil 2022 3 1 <=? d) && (d <? days_from_civil 2022 6 30)) = true.
Proof.
  unfold covid_window. rewrite !andb_true_iff, Z.leb_le, Z.ltb_lt. tauto.
Qed.

(** [add_special_events] changes no transaction and only extends the notes
    of business-hours rows: a row on day [d] with an hour of at least 6 gets
    " - Black Friday rush" exactly when [d] lies from three days before to
    two days after a Black Friday inside the range, " - Supply chain
    disruption" exactly when the range covers 2022-03-01..2022-06-30 and [d]
    lies from 2022-03-01 to 2022-06-29, and at most one of the two. *)
Theorem add_special_events_rows (start_date end_date : datetime) (df : list df_row)
    (i : nat) (r : df_row)
    (Hr : nth_error df i = Some r)
    (Hh : 6 <= ts_hour (transaction_timestamp (df_txn r)))
    (Hm : 0 <= ts_minute (transaction_timestamp (df_txn r))) :
  exists r', nth_error (add_special_events start_date end_date df) i = Some r'
    /\ df_txn r' = df_txn r
    /\ (let d := ts_date (transaction_timestamp (df_txn r)) in
        (black_friday_window start_date end_date d
           /\ df_notes r' = (df_notes r ++ " - Black Friday rush")%string)
        \/ (covid_window start_date end_date d
           /\ df_notes r' = (df_notes r ++ " - Supply chain disruption")%string)
        \/ (~ black_friday_window start_date end_date d
           /\ ~ covid_window start_date end_date d /\ df_notes r' = df_notes r)).
Proof.
  rewrite nth_error_special, Hr. cbn [option_map]. eexists. split; [reflexivity |].
  split; [rewrite !stage_txn; reflexivity |].
  assert (Ht : 0 < dt_time (df_timestamp r)).
  { unfold df_timestamp, timestamp_datetime. cbn [dt_time]. lia. }
  assert (Ht' : forall c lo hi sfx, 0 < dt_time (df_timestamp (stage c lo hi sfx r))).
  { intros. unfold df_timestamp. rewrite stage_txn. exact Ht. }
  assert (Ht'' : forall c lo hi sfx c' lo' hi' sfx',
             0 < dt_time (df_timestamp (stage c' lo' hi' sfx' (stage c lo hi sfx r)))).
  { intros. unfold df_timestamp. rewrite !stage_txn. exact Ht. }
  assert (Ht3 : forall c lo hi sfx c' lo' hi' sfx' c'' lo'' hi'' sfx'',
             0 < dt_time (df_timestamp (stage c'' lo'' hi'' sfx''
                                          (stage c' lo' hi' sfx' (stage c lo hi sfx r))))).
  { intros. unfold df_timestamp. rewrite !stage_txn. exact Ht. }
  rewrite (stage_notes _ _ _ _ _ (Ht3 _ _ _ _ _ _ _ _ _ _ _ _)),
    (stage_notes _ _ _ _ _ (Ht'' _ _ _ _ _ _ _ _)),
    (stage_notes _ _ _ _ _ (Ht' _ _ _ _)), (stage_notes _ _ _ _ _ Ht).
  assert (Hd : forall c lo hi sfx, dt_day (df_timestamp (stage c lo hi sfx r))
                                  = ts_date (transaction_timestamp (df_txn r))).
  { intros. unfold df_timestamp. rewrite stage_txn. reflexivity. }
  assert (Hd2 : forall c lo hi sfx c' lo' hi' sfx',
             dt_day (df_timestamp (stage c' lo' hi' sfx' (stage c lo hi sfx r)))
             = ts_date (transaction_timestamp (df_txn r))).
  { intros. unfold df_timestamp. rewrite !stage_txn. reflexivity. }
  assert (Hd3 : forall c lo hi sfx c' lo' hi' sfx' c'' lo'' hi'' sfx'',
             dt_day (df_timestamp (stage c'' lo'' hi'' sfx''
                                     (stage c' lo' hi' sfx' (stage c lo hi sfx r))))
             = ts_date (transaction_timestamp (df_txn r))).
  { intros. unfold df_timestamp. rewrite !stage_txn. reflexivity. }
  rewrite Hd3, Hd2, Hd.
  change (dt_day (df_timestamp r)) with (ts_date (transaction_timestamp (df_txn r))).
  cbv zeta. rewrite black_friday_window_iff, covid_window_iff.
  set (d := ts_date (transaction_timestamp (df_txn r))).
  assert (E1 : days_from_civil 2022 11 25 = 19321) by reflexivity.
  assert (E2 : days_from_civil 2023 11 24 = 19685) by reflexivity.
  assert (E3 : days_from_civil 2024 11 29 = 20056) by reflexivity.
  assert (E4 : days_from_civil 2022 3 1 = 19052) by reflexivity.
  assert (E5 : days_from_civil 2022 6 30 = 19173) by reflexivity.
  rewrite E1, E2, E3, E4, E5.
  set (c1 := dt_le start_date (midnight 19321) && dt_le (midnight 19321) end_date).
  set (c2 := dt_le start_date (midnight 19685) && dt_le (midnight 19685) end_date).
  set (c3 := dt_le start_date (midnight 20056) && dt_le (midnight 20056) end_date).
  set (cc := dt_le start_date (midnight 19052) && dt_le (midnight 19173) end_date).
  clearbody c1 c2 c3 cc d.

  destruct (Z.leb_spec (19321 - 3) d); destruct (Z.ltb_spec d (19321 + 3));
  destruct (Z.leb_spec (19685 - 3) d); destruct (Z.ltb_spec d (19685 + 3));
  destruct (Z.leb_spec (20056 - 3) d); destruct (Z.ltb_spec d (20056 + 3));
  destruct (Z.leb_spec 19052 d); destruct (Z.ltb_spec d 19173);
  try lia; rewrite ?andb_false_r, ?andb_true_r, ?orb_false_r, ?orb_false_l, ?string_app_empty;
  destruct c1, c2, c3, cc; cbn [andb orb]; rewrite ?string_app_empty;
  try (left; split; [reflexivity | reflexivity]);
  try (right; left; split; [reflexivity | reflexivity]);
  try (right; right; split; [discriminate | split; [discriminate | reflexivity]]).
Qed.

Lemma add_special_events_rows_witness :
  exists r', nth_error (add_special_events (mkDatetime (days_from_civil 2022 1 1) 0)
                          (mkDatetime (days_from_civil 2025 1 1) 0)
                          [mkDfRow (mkTxn "INB-1" 1 1 5 Inbound Delivered (NoteText "x")
                                      (mkTs (days_from_civil 2022 11 23) 9 30)
                                      (mkTs (days_from_civil 2022 11 23) 9 30)) "x"]) 0 = Some r'
    /\ df_notes r' = "x - Black Friday rush"%string.
Proof.
  destruct (add_special_events_rows (mkDatetime (days_from_civil 2022 1 1) 0)
              (mkDatetime (days_from_civil 2025 1 1) 0)
              [mkDfRow (mkTxn "INB-1" 1 1 5 Inbound Delivered (NoteText "x")
                          (mkTs (days_from_civil 2022 11 23) 9 30)
                          (mkTs (days_from_civil 2022 11 23) 9 30)) "x"] 0
              (mkDfRow (mkTxn "INB-1" 1 1 5 Inbound Delivered (NoteText "x")
                          (mkTs (days_from_civil 2022 11 23) 9 30)
                          (mkTs (days_from_civil 2022 11 23) 9 30)) "x")
              eq_refl) as (r' & H1 & _ & _); [cbn; lia | cbn; lia |].
  exists r'. split; [exact H1 |]. vm_compute in H1. injection H1 as <-. reflexivity.
Defined.

(** ** The sort of [save_inventory_history_to_csv] *)

Definition row_le (a b : history_row) : Prop := row_leb a b = true.
Definition key_le (a b : Z * (Z * Z)) : Prop := key_leb a b = true.

Lemma key_leb_total a b : key_leb a b = false -> key_leb b a = true.
Proof.
  destruct a as [d1 [p1 w1]], b as [d2 [p2 w2]]. unfold key_leb.
  destruct (Z.ltb_spec d1 d2), (Z.eqb_spec d1 d2), (Z.ltb_spec p1 p2), (Z.eqb_spec p1 p2),
    (Z.leb_spec w1 w2), (Z.ltb_spec d2 d1), (Z.eqb_spec d2 d1), (Z.ltb_spec p2 p1),
    (Z.eqb_spec p2 p1), (Z.leb_spec w2 w1); cbn [andb orb]; intros; try reflexivity; lia.
Qed.

Lemma insert_row_perm r l : Permutation (insert_row r l) (r :: l).
Proof.
  induction l as [| a l IH]; simpl; [reflexivity |].
  destruct (row_leb r a); [reflexivity |].
  etransitivity; [apply perm_skip, IH | apply perm_swap].
Qed.

Lemma sort_rows_perm l : Permutation (sort_rows l) l.
Proof.
  induction l as [| a l IH]; simpl; [reflexivity |].
  etransitivity; [apply insert_row_perm | apply perm_skip, IH].
Qed.

Lemma insert_row_hd a r l : row_le a r -> HdRel row_le a l -> HdRel row_le a (insert_row r l).
Proof.
  intros Har Hl. destruct l as [| b l]; simpl; [constructor; exact Har |].
  destruct (row_leb r b); constructor; [exact Har | inversion Hl; assumption].
Qed.

Lemma insert_row_sorted r l : Sorted row_le l -> Sorted row_le (insert_row r l).
Proof.
  induction l as [| a l IH]; intros S; simpl; [repeat constructor |].
  destruct (row_leb r a) eqn:E.
  - constructor; [exact S | constructor; exact E].
  - inversion S as [| x y S' Hd]; subst. constructor; [exact (IH S') |].
    apply insert_row_hd; [apply key_leb_total, E | exact Hd].
Qed.

Lemma sort_rows_sorted l : Sorted row_le (sort_rows l).
Proof. induction l as [| a l IH]; simpl; [constructor | apply insert_row_sorted, IH]. Qed.

Lemma sort_rows_id l : Sorted row_le l -> sort_rows l = l.
Proof.
  induction l as [| a l IH]; intros S; simpl; [reflexivity |].
  inversion S as [| x y S' Hd]; subst. rewrite (IH S').
  destruct l as [| b l]; simpl; [reflexivity |].
  inversion Hd as [| x y Hab]; subst. unfold row_le in Hab. rewrite Hab. reflexivity.
Qed.

Lemma sorted_app {A} (R : A -> A -> Prop) l1 l2 :
  Sorted R l1 -> Sorted R l2 -> (forall x y, In x l1 -> In y l2 -> R x y) ->
  Sorted R (l1 ++ l2).
Proof.
  induction l1 as [| a l1 IH]; intros S1 S2 H; simpl; [exact S2 |].
  inversion S1 as [| x y S1' Hd]; subst. constructor.
  - apply IH; [exact S1' | exact S2 |]. intros x y Hx Hy. apply H; [right |]; assumption.
  - destruct l1 as [| b l1]; simpl.
    + destruct l2 as [| c l2]; constructor. apply H; left; reflexivity.
    + inversion Hd; subst. constructor. assumption.
Qed.

Lemma sorted_row_keys rows : Sorted key_le (map row_key rows) -> Sorted row_le rows.
Proof.
  induction rows as [| a rows IH]; intros S; simpl in S; [constructor |].
  inversion S as [| x y S' Hd]; subst. constructor; [exact (IH S') |].
  destruct rows as [| b rows]; constructor. inversion Hd; subst. assumption.
Qed.

Fixpoint pairs_sortedb (l : list (Z * Z)) : bool :=
  match l with
  | a :: ((b :: _) as l') => key_leb (0, a) (0, b) && pairs_sortedb l'
  | _ => true
  end.

Lemma key_leb_same_day d a b : key_leb (d, a) (d, b) = key_leb (0, a) (0, b).
Proof. destruct a, b. unfold key_leb. rewrite Z.ltb_irrefl, Z.eqb_refl. reflexivity. Qed.

Lemma pairs_sortedb_block d l :
  pairs_sortedb l = true -> Sorted key_le (map (fun pw => (d, pw)) l).
Proof.
  induction l as [| a l IH]; intros H; simpl; [constructor |].
  destruct l as [| b l]; simpl; [repeat constructor |].
  apply andb_true_iff in H as [H1 H2]. constructor.
  - exact (IH H2).
  - constructor. unfold key_le. rewrite key_leb_same_day. exact H1.
Qed.

Lemma all_pairs_sortedb : pairs_sortedb all_pairs = true.
Proof. vm_compute. reflexivity. Qed.

Definition day_blocks (d : Z) (m n : nat) : list (Z * (Z * Z)) :=
  List.concat (map (fun k => map (fun pw => (d + Z.of_nat k, pw)) all_pairs) (seq m n)).

Lemma day_blocks_ge d m n y : In y (day_blocks d m n) -> d + Z.of_nat m <= fst y.
Proof.
  unfold day_blocks. intros H. apply in_concat in H as (l & Hl & Hy).
  apply in_map_iff in Hl as (k & <- & Hk). apply in_seq in Hk.
  apply in_map_iff in Hy as (pw & <- & _). simpl. lia.
Qed.

Lemma day_blocks_sorted d m n : Sorted key_le (day_blocks d m n).
Proof.
  revert m. induction n as [| n IH]; intros m; [constructor |].
  unfold day_blocks. cbn [seq map List.concat]. apply sorted_app.
  - apply pairs_sortedb_block, all_pairs_sortedb.
  - apply IH.
  - intros x y Hx Hy. apply day_blocks_ge in Hy.
    apply in_map_iff in Hx as (pw & <- & _).
    destruct pw as [p w], y as [dy [py wy]]. simpl in Hy. unfold key_le, key_leb.
    assert (H : (d + Z.of_nat m <? dy) = true) by (apply Z.ltb_lt; lia).
    rewrite H. reflexivity.
Qed.

(** ** Rows of the export *)

Lemma map_row_key_entries d lv :
  map row_key (map (entry_row d) lv) = map (fun pw => (d, pw)) (map fst lv).
Proof. induction lv as [| [[p w] l] lv IH]; simpl; [reflexivity | rewrite IH; reflexivity]. Qed.

Lemma history_rows_dated d h : forall m,
  (forall k sn, nth_error h k = Some sn ->
     exists lv, map fst lv = all_pairs /\ nonneg_entries lv
       /\ sn = snapshot_of (d + Z.of_nat (m + k)) lv) ->
  exists rows, history_rows h = inr rows
    /\ map row_key rows = day_blocks d m (List.length h)
    /\ Forall (fun r => 0 <= row_inventory_level r
         /\ exists sn, In sn h /\ snap_date sn = row_date r
              /\ In (snapshot_key (row_product_id r) (row_warehouse_id r), row_inventory_level r)
                    (snap_levels sn)) rows.
Proof.
  induction h as [| sn h IH]; intros m H.
  - exists []. split; [reflexivity | split; [reflexivity | constructor]].
  - destruct (H 0%nat sn eq_refl) as (lv & Hk & Hnn & Hsn).
    destruct (IH (S m)) as (rows & Hr & Hkeys & Hf).
    { intros k sn' Hk'. destruct (H (S k) sn' Hk') as (lv' & H1 & H2 & H3).
      exists lv'. split; [exact H1 | split; [exact H2 |]]. rewrite H3. do 3 f_equal. lia. }
    destruct (catalog_entry_in_range lv Hk) as [Hn Hrg].
    exists (map (entry_row (d + Z.of_nat (m + 0))) lv ++ rows). cbn [history_rows].
    rewrite Hsn. cbn [snap_date snapshot_of].
    rewrite (snapshot_of_entries _ lv Hn Hrg), (snapshot_rows_entries _ lv Hrg), Hr.
    split; [reflexivity |]. split.
    + rewrite map_app, Hkeys, map_row_key_entries, Hk. cbn [List.length].
      unfold day_blocks. cbn [seq map List.concat]. rewrite Nat.add_0_r. reflexivity.
    + apply Forall_app. split.
      * apply Forall_forall. intros r Hin. apply in_map_iff in Hin as ([[p w] l] & <- & Hin).
        cbn [entry_row row_inventory_level row_date row_product_id row_warehouse_id].
        split; [exact (proj1 (Forall_forall _ _) Hnn _ Hin) |].
        exists (snapshot_of (d + Z.of_nat (m + 0)) lv). split; [left; reflexivity |].
        split; [reflexivity |]. rewrite (snapshot_of_entries _ lv Hn Hrg).
        apply in_map_iff. exists ((p, w), l). split; [reflexivity | exact Hin].
      * eapply Forall_impl; [| exact Hf]. intros r (Hl & sn' & Hin & Hd & Hk').
        split; [exact Hl |]. exists sn'. split; [right; exact Hin | split; assumption].
Qed.

Lemma run_history_dated now r np txns g :
  run now r np = inr (txns, g) ->
  List.length (inventory_history g) = 1095%nat
  /\ forall k sn, nth_error (inventory_history g) k = Some sn ->
       exists lv, map fst lv = all_pairs /\ nonneg_entries lv
         /\ sn = snapshot_of (now - 3 * 365 + Z.of_nat (0 + k)) lv.
Proof.
  unfold run. destruct (TransactionGenerator now r np) as [e | g0] eqn:E; [discriminate |].
  intros H. destruct (generator_fresh _ _ _ _ E) as (Hh & Hs & He).
  unfold generate_all_transactions in H.
  apply bind_inr in H as (n & s1 & H1 & H). cbv [gets] in H1. injection H1 as <- <-.
  apply bind_inr in H as (c & s2 & H2 & H). cbv [gets] in H2. injection H2 as <- <-.
  destruct (days_loop_snapshots _ _ _ _ _ _ _ H) as (_ & Hlen & Hk).
  rewrite Hh in Hlen, Hk. unfold total_days in *. rewrite Hs, He in *.
  replace (Z.to_nat (now - (now - 3 * 365))) with 1095%nat in * by lia.
  cbn [List.length Nat.add] in Hlen. split; [exact Hlen |]. intros k sn Hnth.
  assert (Hkl : (k < 1095)%nat) by (rewrite <- Hlen; apply nth_error_Some; congruence).
  destruct (Hk k Hkl) as (acc & s_k & Hsk & Hnth'). simpl in Hnth'.
  rewrite Hnth in Hnth'. injection Hnth' as ->.
  exists (inventory_levels s_k). split; [| split].
  - exact (keys_days_loop _ _ _ _ _ _ _ (TransactionGenerator_keys _ _ _ _ E) Hsk).
  - exact (proj1 (pres_days_loop _ _ _ _ _ _ _ (generator_ledger_ok _ _ _ _ E) Hsk)).
  - reflexivity.
Qed.

Lemma snapshot_rows_app d kvs1 rows1 kvs :
  snapshot_rows d kvs1 = inr rows1 ->
  snapshot_rows d (kvs1 ++ kvs)
  = match snapshot_rows d kvs with inl e => inl e | inr rows => inr (rows1 ++ rows) end.
Proof.
  revert rows1. induction kvs1 as [| [key l] kvs1 IH]; intros rows1 H; simpl in *.
  - injection H as <-. destruct (snapshot_rows d kvs); reflexivity.
  - destruct (parse_snapshot_key key) as [e | [p w]]; [discriminate |].
    destruct (snapshot_rows d kvs1) as [e | rows1'] eqn:E; [discriminate |].
    injection H as <-. rewrite (IH rows1' eq_refl).
    destruct (snapshot_rows d kvs); reflexivity.
Qed.

Lemma history_rows_app h1 rows1 h :
  history_rows h1 = inr rows1 ->
  history_rows (h1 ++ h)
  = match history_rows h with inl e => inl e | inr rows => inr (rows1 ++ rows) end.
Proof.
  revert rows1. induction h1 as [| sn h1 IH]; intros rows1 H; simpl in *.
  - injection H as <-. destruct (history_rows h); reflexivity.
  - destruct (snapshot_rows (snap_date sn) (snap_levels sn)) as [e | rs]; [discriminate |].
    destruct (history_rows h1) as [e | rows1'] eqn:E; [discriminate |].
    injection H as <-. rewrite (IH rows1' eq_refl).
    destruct (history_rows h); [reflexivity |]. rewrite app_assoc. reflexivity.
Qed.

(** ** Extras *)

(** [save_inventory_history_to_csv] raises [IndexError] on a snapshot key
    without an underscore whose text after the first character is an
    integer, provided every key before it parses; whatever follows it. *)
Theorem save_inventory_history_missing_separator h1 rows1 d kvs1 rows2 key n v kvs2 h2 :
  history_rows h1 = inr rows1 -> snapshot_rows d kvs1 = inr rows2 ->
  no_sep "_"%char key -> py_int_of_str (str_tail key) = Some n ->
  save_inventory_history_to_csv (h1 ++ mkSnapshot d (kvs1 ++ (key, v) :: kvs2) :: h2)
  = inl IndexError.
Proof.
  intros H1 H2 Hs Hn. unfold save_inventory_history_to_csv.
  rewrite (history_rows_app _ _ _ H1). cbn [history_rows snap_date snap_levels].
  rewrite (snapshot_rows_app _ _ _ _ H2). cbn [snapshot_rows].
  rewrite (parse_snapshot_key_no_separator _ _ Hs Hn).
  destruct h1; reflexivity.
Qed.

Lemma save_inventory_history_missing_separator_witness :
  history_rows [] = inr [] /\ snapshot_rows day_2025_06_03 [("P1_W1"%string, 5)]
                               = inr [mkRow day_2025_06_03 1 1 5]
  /\ no_sep "_"%char "P12" /\ py_int_of_str (str_tail "P12") = Some 12
  /\ save_inventory_history_to_csv
       ([] ++ mkSnapshot day_2025_06_03 ([("P1_W1"%string, 5)] ++ [("P12"%string, 3)])
           :: [snapshot_of (day_2025_06_03 + 1) [((1, 1), 4)]])
     = inl IndexError.
Proof.
  assert (H1 : history_rows [] = inr (@nil history_row)) by reflexivity.
  assert (H2 : snapshot_rows day_2025_06_03 [("P1_W1"%string, 5)] = inr [mkRow day_2025_06_03 1 1 5])
    by (vm_compute; reflexivity).
  assert (H3 : no_sep "_"%char "P12") by (repeat constructor).
  assert (H4 : py_int_of_str (str_tail "P12") = Some 12) by (vm_compute; reflexivity).
  split; [exact H1 | split; [exact H2 | split; [exact H3 | split; [exact H4 |]]]].
  exact (save_inventory_history_missing_separator [] [] day_2025_06_03 _ _ "P12" 12 3 []
           _ H1 H2 H3 H4).
Defined.

(** A single snapshot of a ledger with distinct pairs exports one row per
    ledger entry (the snapshot date, the pair and its level), sorted by
    product id and then warehouse id. *)
Theorem snapshot_csv_sorted d lv :
  NoDup (map fst lv) -> Forall pair_in_range lv ->
  exists rows, save_inventory_history_to_csv [snapshot_of d lv] = inr (Some rows)
    /\ Permutation rows (map (entry_row d) lv)
    /\ Sorted row_le rows.
Proof.
  intros Hn Hr. exists (sort_rows (map (entry_row d) lv)).
  split; [| split; [apply sort_rows_perm | apply sort_rows_sorted]].
  unfold save_inventory_history_to_csv. cbn [history_rows snap_date].
  change (snap_date (snapshot_of d lv)) with d.
  rewrite (snapshot_of_entries d lv Hn Hr), (snapshot_rows_entries d lv Hr).
  rewrite app_nil_r. reflexivity.
Qed.

Lemma snapshot_csv_sorted_witness :
  NoDup (map fst [((1, 2), 7); ((-3, 1), 0)])
  /\ Forall pair_in_range [((1, 2), 7); ((-3, 1), 0)]
  /\ save_inventory_history_to_csv [snapshot_of day_2025_06_03 [((1, 2), 7); ((-3, 1), 0)]]
     = inr (Some [mkRow day_2025_06_03 (-3) 1 0; mkRow day_2025_06_03 1 2 7])
  /\ exists rows, save_inventory_history_to_csv [snapshot_of day_2025_06_03 [((1, 2), 7); ((-3, 1), 0)]]
       = inr (Some rows)
     /\ Permutation rows (map (entry_row day_2025_06_03) [((1, 2), 7); ((-3, 1), 0)])
     /\ Sorted row_le rows.
Proof.
  assert (H1 : NoDup (map fst [((1, 2), 7); ((-3, 1), 0)]))
    by (apply pairs_nodupb_NoDup; vm_compute; reflexivity).
  assert (H2 : Forall pair_in_range [((1, 2), 7); ((-3, 1), 0)])
    by (repeat constructor; reflexivity).
  split; [exact H1 | split; [exact H2 | split; [vm_compute; reflexivity |]]].
  exact (snapshot_csv_sorted _ _ H1 H2).
Defined.

(** After a run, [save_inventory_history_to_csv] writes, in order, for each
    simulated day from [now - 1095] to [now - 1] one row for every catalog
    pair in (product, warehouse) order; each row's level is non-negative and
    is the level of that pair in the snapshot of that day. *)
Theorem run_inventory_history_csv now r np txns g :
  run now r np = inr (txns, g) ->
  exists rows, save_inventory_history_to_csv (inventory_history g) = inr (Some rows)
    /\ map row_key rows
       = List.concat (map (fun k => map (fun pw => (now - 3 * 365 + Z.of_nat k, pw)) all_pairs)
                          (seq 0 1095))
    /\ Forall (fun r => 0 <= row_inventory_level r
         /\ exists sn, In sn (inventory_history g) /\ snap_date sn = row_date r
              /\ In (snapshot_key (row_product_id r) (row_warehouse_id r), row_inventory_level r)
                    (snap_levels sn)) rows.
Proof.
  intros E. destruct (run_history_dated _ _ _ _ _ E) as [Hlen Hd].
  destruct (history_rows_dated _ _ 0%nat Hd) as (rows & Hr & Hk & Hf).
  rewrite Hlen in Hk. exists rows. split; [| split; [exact Hk | exact Hf]].
  unfold save_inventory_history_to_csv. rewrite Hr.
  rewrite (sort_rows_id rows) by (apply sorted_row_keys; rewrite Hk; apply day_blocks_sorted).
  destruct (inventory_history g); [discriminate | reflexivity].
Qed.

Lemma run_inventory_history_csv_witness :
  exists txns g, run day_2025_06_03 zero_stream zero_stream = inr (txns, g)
  /\ exists rows, save_inventory_history_to_csv (inventory_history g) = inr (Some rows)
    /\ map row_key rows
       = List.concat (map (fun k => map (fun pw => (day_2025_06_03 - 3 * 365 + Z.of_nat k, pw))
                                         all_pairs) (seq 0 1095))
    /\ Forall (fun r => 0 <= row_inventory_level r
         /\ exists sn, In sn (inventory_history g) /\ snap_date sn = row_date r
              /\ In (snapshot_key (row_product_id r) (row_warehouse_id r), row_inventory_level r)
                    (snap_levels sn)) rows.
Proof.
  destruct run_2025_some as (txns & g & t & E & _). exists txns, g.
  split; [exact E | exact (run_inventory_history_csv _ _ _ _ _ E)].
Defined.
